(** * hg-reset: head finder, branch and tag classifiers, command line driver

    A shallow embedding of [hg-reset.py].  Python values are modelled as
    follows.

    - [int] is [Z] (unbounded); [bytes] and [str] are [string], a sequence
      of 8-bit characters.
    - A [dict] is an insertion-ordered association list with unique keys
      (module [Dict]); iteration visits the keys in insertion order, as the
      interpreter does.
    - A [bytes] object that takes part in an identity test ([is]) carries
      its address next to its content ([obj]).
    - Exceptions are values of [exn]; code that may raise returns a
      [result]; the driver, which also writes to the two output streams,
      runs in the monad [IO].
    - The functions imported from [hg2git], the Mercurial changelog, the
      codec and the option parser are fields of the records [Repo] and
      [World]. *)

From Stdlib Require Import ZArith List String Ascii Bool Lia.
From Stdlib Require Import DecimalString DecimalZ DecimalPos.
From Stdlib Require Import Permutation Sorted Btauto.
Import ListNotations.

Local Open Scope string_scope.
Local Open Scope list_scope.
Local Open Scope Z_scope.

(** ** Exceptions and the error monad *)

Inductive exn : Type :=
| KeyError
| ValueError
| TypeError
| IndexError
| AttributeError
| UnicodeDecodeError
| BackendError (what : string)
| SystemExit (code : Z).

Inductive result (A : Type) : Type :=
| Ok (a : A)
| Err (e : exn).

Arguments Ok {A} a.
Arguments Err {A} e.

Definition rbind {A B : Type} (m : result A) (k : A -> result B) : result B :=
  match m with
  | Ok a => k a
  | Err e => Err e
  end.

Declare Scope result_scope.
Delimit Scope result_scope with result.
Notation "x <- m ;; k" := (rbind m (fun x => k))
  (at level 61, m at next level, right associativity) : result_scope.
Notation "' p <- m ;; k" := (rbind m (fun x => match x with p => k end))
  (at level 61, p pattern, m at next level, right associativity) : result_scope.

(** A [for] loop whose body may raise: the first exception ends the loop. *)
Fixpoint rfold {A S : Type} (body : S -> A -> result S) (l : list A) (s : S)
  : result S :=
  match l with
  | [] => Ok s
  | a :: l' => rbind (body s a) (rfold body l')
  end.

(** ** Decimal text: [b"%d" % n] and [int(b)] *)

Definition bytes : Type := string.

(** [b"%d" % n] (and ["%d" % n]): a minus sign for negative numbers, then
    the decimal digits without leading zeros. *)
Definition fmt_d (n : Z) : bytes := NilZero.string_of_int (Z.to_int n).

(** The characters [int] skips at both ends of a [bytes] argument. *)
Definition is_space (c : ascii) : bool :=
  let n := N_of_ascii c in
  ((n =? 32) || ((9 <=? n) && (n <=? 13)))%N.

Definition digit_val (c : ascii) : option Z :=
  let n := N_of_ascii c in
  if ((48 <=? n) && (n <=? 57))%N then Some (Z.of_N n - 48) else None.

Fixpoint lstrip (s : string) : string :=
  match s with
  | String c s' => if is_space c then lstrip s' else s
  | EmptyString => s
  end.

Fixpoint all_space (s : string) : bool :=
  match s with
  | String c s' => is_space c && all_space s'
  | EmptyString => true
  end.

(** The digits after the first one: a digit, or one underscore followed by
    a digit; white space may follow the last digit. *)
Fixpoint int_digits (acc : Z) (s : string) : option Z :=
  match s with
  | EmptyString => Some acc
  | String c s' =>
      match digit_val c with
      | Some d => int_digits (10 * acc + d) s'
      | None =>
          if Ascii.eqb c "_" then
            match s' with
            | String c' s'' =>
                match digit_val c' with
                | Some d => int_digits (10 * acc + d) s''
                | None => None
                end
            | EmptyString => None
            end
          else if is_space c then
            if all_space s' then Some acc else None
          else None
      end
  end.

Definition int_unsigned (s : string) : option Z :=
  match s with
  | String c s' =>
      match digit_val c with
      | Some d => int_digits d s'
      | None => None
      end
  | EmptyString => None
  end.

(** [int(b)] for a [bytes] argument, base ten; [ValueError] when the text
    is not an integer literal. *)
Definition py_int (s : bytes) : result Z :=
  let s := lstrip s in
  let '(neg, body) :=
    match s with
    | String c s' =>
        if Ascii.eqb c "-" then (true, s')
        else if Ascii.eqb c "+" then (false, s')
        else (false, s)
    | EmptyString => (false, s)
    end in
  match int_unsigned body with
  | Some n => Ok (if neg then - n else n)
  | None => Err ValueError
  end.

(** ** Insertion-ordered dictionaries *)

Module Dict.
Section Dict.
Context {K V : Type}.
Variable eqb : K -> K -> bool.

Definition t : Type := list (K * V).

Definition keys (d : t) : list K := map fst d.

Fixpoint get (k : K) (d : t) : option V :=
  match d with
  | [] => None
  | (k', v) :: d' => if eqb k k' then Some v else get k d'
  end.

(** [k in d] *)
Definition mem (k : K) (d : t) : bool :=
  match get k d with Some _ => true | None => false end.

(** [d[k] = v]: an existing key keeps its place, a new key goes last. *)
Fixpoint set (k : K) (v : V) (d : t) : t :=
  match d with
  | [] => [(k, v)]
  | (k', v') :: d' =>
      if eqb k k' then (k', v) :: d' else (k', v') :: set k v d'
  end.

Definition remove (k : K) (d : t) : t :=
  filter (fun e => negb (eqb k (fst e))) d.

(** [del d[k]]: [KeyError] when the key is absent. *)
Definition del (k : K) (d : t) : result t :=
  if mem k d then Ok (remove k d) else Err KeyError.

(** [d[k]]: [KeyError] when the key is absent. *)
Definition lookup (k : K) (d : t) : result V :=
  match get k d with
  | Some v => Ok v
  | None => Err KeyError
  end.

(** [dict.fromkeys(l)] with the given value. *)
Definition fromkeys (l : list K) (v : V) : t :=
  fold_left (fun d k => set k v d) l [].
End Dict.
End Dict.

Definition zdict (V : Type) : Type := @Dict.t Z V.
Definition bdict (V : Type) : Type := @Dict.t bytes V.

(** ** Values, report rows and [list.sort] *)

(** A [bytes] object: [addr] is its identity, [data] its content. *)
Record obj : Type := mkobj { addr : positive; data : bytes }.

(** [a is b] *)
Definition py_is (a b : option obj) : bool :=
  match a, b with
  | Some x, Some y => Pos.eqb (addr x) (addr y)
  | None, None => true
  | _, _ => false
  end.

(** The values stored in a report row. *)
Inductive pyval : Type :=
| VNone
| VBytes (b : bytes)
| VInt (n : Z).

Definition row : Type := list pyval.

Definition val_of (o : option obj) : pyval :=
  match o with
  | Some x => VBytes (data x)
  | None => VNone
  end.

(** [x == y] *)
Definition py_eqb (x y : pyval) : bool :=
  match x, y with
  | VNone, VNone => true
  | VBytes a, VBytes b => String.eqb a b
  | VInt a, VInt b => Z.eqb a b
  | _, _ => false
  end.

(** [x < y]: [TypeError] unless both are [bytes] or both are [int]. *)
Definition py_lt (x y : pyval) : result bool :=
  match x, y with
  | VBytes a, VBytes b => Ok (String.ltb a b)
  | VInt a, VInt b => Ok (Z.ltb a b)
  | _, _ => Err TypeError
  end.

(** [a < b] on lists: the first position where the two differ decides; a
    proper prefix is smaller. *)
Fixpoint row_lt (a b : row) : result bool :=
  match a, b with
  | [], [] => Ok false
  | [], _ :: _ => Ok true
  | _ :: _, [] => Ok false
  | x :: a', y :: b' => if py_eqb x y then row_lt a' b' else py_lt x y
  end.

(** [list.sort()] is a stable sort that only uses [<]; it is modelled as a
    stable insertion sort, an exception of a comparison ending it. *)
Fixpoint sort_insert (x : row) (l : list row) : result (list row) :=
  match l with
  | [] => Ok [x]
  | y :: l' =>
      (b <- row_lt y x ;;
       if b then (r <- sort_insert x l' ;; Ok (y :: r))
       else Ok (x :: l))%result
  end.

Fixpoint py_sort (l : list row) : result (list row) :=
  match l with
  | [] => Ok []
  | x :: l' => (s <- py_sort l' ;; sort_insert x s)%result
  end.

(** [desc.split(b"\n")[0]] *)
Fixpoint first_line (s : bytes) : bytes :=
  match s with
  | EmptyString => EmptyString
  | String c s' =>
      if Ascii.eqb c "010" then EmptyString else String c (first_line s')
  end.

(** [binascii.hexlify] *)
Definition hex_digit (n : N) : ascii :=
  if (n <? 10)%N then ascii_of_N (48 + n) else ascii_of_N (87 + n).

Fixpoint hexlify (s : bytes) : bytes :=
  match s with
  | EmptyString => EmptyString
  | String c s' =>
      let n := N_of_ascii c in
      String (hex_digit (n / 16)) (String (hex_digit (n mod 16)) (hexlify s'))
  end.

(** [range(a, b)] *)
Definition py_range (a b : Z) : list Z :=
  map (fun i => a + Z.of_nat i) (seq 0 (Z.to_nat (b - a))).

(** ** The repository and the imported functions *)

Definition Node : Type := bytes.

(** [mercurial.node.nullid] *)
Definition nullid : Node :=
  String.concat "" (repeat (String "000" EmptyString) 20).

(** The changelog as [heads] and [get_tags] use it: [changelog.count()],
    [changelog.rev(node)], [changelog.node(rev)], [changelog.parentrevs(rev)]
    and [repo.tagslist()].  A missing parent is revision -1, the revision of
    [nullid]. *)
Record Repo : Type := mkRepo {
  changelog_count : Z;
  changelog_rev : Node -> Z;
  changelog_node : Z -> Node;
  changelog_parentrevs : Z -> list Z;
  tagslist : list (bytes * Node)
}.

(** The part of the tuple returned by [get_changeset] that is bound to a
    name at the call sites. *)
Record changeset : Type := mkChangeset {
  cs_user : bytes;
  cs_desc : bytes;
  cs_branch : bytes
}.

(** [get_changeset] is called with the revision as text in [get_branches]
    and as a number in [get_tags]. *)
Inductive revarg : Type :=
| RevText (s : bytes)
| RevNum (n : Z).

(** What the program takes from outside: the functions of [hg2git] other
    than the cache loader, the content of the cache files, the codec and
    the help text of the option parser. *)
Record World : Type := mkWorld {
  get_changeset : Repo -> revarg -> result changeset;
  get_git_sha1 : bytes -> option obj;
  setup_repo : string -> result Repo;
  cache_file : string -> list (bytes * obj);
  utf8_decode : bytes -> result string;
  format_help : string
}.

(** ** [heads] *)

(** The body of the inner loop, for one parent [p] of [r].  The deletion is
    guarded by [p in heads] and cannot raise. *)
Definition heads_parent (stoprevs : zdict pyval) (r : Z)
    (st : zdict Z * zdict Z) (p : Z) : zdict Z * zdict Z :=
  let '(reachable, heads) := st in
  let '(reachable, heads) :=
    if Dict.mem Z.eqb p reachable then
      ((if negb (Dict.mem Z.eqb r stoprevs)
        then Dict.set Z.eqb r 1 reachable else reachable),
       Dict.set Z.eqb r 1 heads)
    else (reachable, heads) in
  let heads :=
    if Dict.mem Z.eqb p heads && negb (Dict.mem Z.eqb p stoprevs)
    then Dict.remove Z.eqb p heads else heads in
  (reachable, heads).

(** The body of the outer loop, for one revision [r]. *)
Definition heads_rev (repo : Repo) (stoprevs : zdict pyval)
    (st : zdict Z * zdict Z) (r : Z) : zdict Z * zdict Z :=
  fold_left (heads_parent stoprevs r) (changelog_parentrevs repo r) st.

Definition heads_scan (repo : Repo) (stoprevs : zdict pyval)
    (startrev max : Z) : zdict Z * zdict Z :=
  fold_left (heads_rev repo stoprevs) (py_range (startrev + 1) max)
    ([(startrev, 1)], [(startrev, 1)]).

Definition heads_start (repo : Repo) (start : option Node) : Z :=
  changelog_rev repo (match start with Some n => n | None => nullid end).

Definition heads_max (repo : Repo) (max : option Z) : Z :=
  match max with Some m => m | None => changelog_count repo end.

Definition heads_stoprevs (repo : Repo) (stop : option (list Node))
  : zdict pyval :=
  Dict.fromkeys Z.eqb
    (map (changelog_rev repo) (match stop with Some l => l | None => [] end))
    VNone.

Definition heads (repo : Repo) (start : option Node)
    (stop : option (list Node)) (max : option Z) : list (Node * bytes) :=
  let max := heads_max repo max in
  let stoprevs := heads_stoprevs repo stop in
  let startrev := heads_start repo start in
  let '(_, heads) := heads_scan repo stoprevs startrev max in
  map (fun r => (changelog_node repo r, fmt_d r)) (Dict.keys heads).

(** ** [get_branches] *)

Definition branch_state : Type := (bdict pyval * list row * list row)%type.

(** The body of the loop over the heads. *)
Definition branch_step (w : World) (repo : Repo) (marks_cache : bdict obj)
    (st : branch_state) (h : Node * bytes) : result branch_state :=
  let '(stale, changed, unchanged) := st in
  let '(_, rev) := h in
  (cs <- get_changeset w repo (RevText rev) ;;
   stale <- Dict.del String.eqb (cs_branch cs) stale ;;
   let git_sha1 := get_git_sha1 w (cs_branch cs) in
   n <- py_int rev ;;
   let cache_sha1 := Dict.get String.eqb (fmt_d (n + 1)) marks_cache in
   let entry : row :=
     [VBytes (cs_branch cs); val_of cache_sha1; VBytes rev;
      VBytes (first_line (cs_desc cs)); VBytes (cs_user cs)] in
   if negb (py_is git_sha1 None) && py_is git_sha1 cache_sha1
   then Ok (stale, changed, unchanged ++ [entry])
   else Ok (stale, changed ++ [entry], unchanged))%result.

Definition get_branches (w : World) (repo : Repo) (heads_cache : bdict obj)
    (marks_cache : bdict obj) (mapping_cache : bdict obj) (max : Z)
  : result branch_state :=
  let h := heads repo None None (Some max) in
  let stale := Dict.fromkeys String.eqb (Dict.keys heads_cache) VNone in
  ('(stale, changed, unchanged) <-
     rfold (branch_step w repo marks_cache) h (stale, [], []) ;;
   changed <- py_sort changed ;;
   unchanged <- py_sort unchanged ;;
   Ok (stale, changed, unchanged))%result.

(** ** [get_tags] *)

Definition tag_state : Type := (list row * list row)%type.

(** The body of the loop over the tags. *)
Definition tag_step (w : World) (repo : Repo) (marks_cache : bdict obj)
    (mapping_cache : bdict obj) (max : Z)
    (st : tag_state) (t : bytes * Node) : result tag_state :=
  let '(good, bad) := st in
  let '(tag, node) := t in
  if String.eqb tag "tip" then Ok (good, bad)
  else
    (m <- Dict.lookup String.eqb (hexlify node) mapping_cache ;;
     rev <- py_int (data m) ;;
     let cache_sha1 := Dict.get String.eqb (fmt_d (rev + 1)) marks_cache in
     cs <- get_changeset w repo (RevNum rev) ;;
     let entry : row :=
       [VBytes tag; VBytes (cs_branch cs); val_of cache_sha1; VInt rev;
        VBytes (first_line (cs_desc cs)); VBytes (cs_user cs)] in
     if rev >? max
     then Ok (good, bad ++ [entry])
     else Ok (good ++ [entry], bad))%result.

Definition get_tags (w : World) (repo : Repo) (marks_cache : bdict obj)
    (mapping_cache : bdict obj) (max : Z) : result tag_state :=
  ('(good, bad) <-
     rfold (tag_step w repo marks_cache mapping_cache max)
       (tagslist repo) ([], []) ;;
   good <- py_sort good ;;
   bad <- py_sort bad ;;
   Ok (good, bad))%result.

(** ** [mangle_mark] and the cache loader *)

Definition mangle_mark (mark : bytes) : result bytes :=
  (n <- py_int mark ;; Ok (fmt_d (n - 1)))%result.

(** Modelled from the spec: [load_cache] of [hg2git], which is not part of
    the source at hand.  The spec describes it as reading a line-oriented
    file of key and value pairs into a mapping, the marks being loaded with
    the off-by-one correction [mangle_mark] applied to each key.
    [cache_file w filename] is the sequence of pairs the file holds. *)
Definition load_cache (w : World) (filename : string)
    (get_key : bytes -> result bytes) : result (bdict obj) :=
  rfold (fun cache kv =>
           (k <- get_key (fst kv) ;;
            Ok (Dict.set String.eqb k (snd kv) cache))%result)
        (cache_file w filename) [].

(** ** The output streams *)

Record console : Type := mkConsole {
  stdout : list string;
  stderr : list string
}.

(** A computation that writes to the streams and may raise; what was
    written before an exception stays written. *)
Definition IO (A : Type) : Type := console -> console * result A.

Definition io_ret {A : Type} (a : A) : IO A := fun c => (c, Ok a).

Definition io_bind {A B : Type} (m : IO A) (k : A -> IO B) : IO B :=
  fun c =>
    match m c with
    | (c', Ok a) => k a c'
    | (c', Err e) => (c', Err e)
    end.

Definition io_lift {A : Type} (r : result A) : IO A := fun c => (c, r).

Declare Scope io_scope.
Delimit Scope io_scope with io.
Notation "x <- m ;; k" := (io_bind m (fun x => k))
  (at level 61, m at next level, right associativity) : io_scope.
Notation "' p <- m ;; k" := (io_bind m (fun x => match x with p => k end))
  (at level 61, p pattern, m at next level, right associativity) : io_scope.
Notation "m ;; k" := (io_bind m (fun _ => k))
  (at level 61, right associativity) : io_scope.

(** [sys.stdout.write(s)] and [sys.stderr.write(s)] *)
Definition stdout_write (s : string) : IO unit :=
  fun c => (mkConsole (stdout c ++ [s]) (stderr c), Ok tt).

Definition stderr_write (s : string) : IO unit :=
  fun c => (mkConsole (stdout c) (stderr c ++ [s]), Ok tt).

Definition nl : string := String "010" EmptyString.
Definition tab : string := String "009" EmptyString.

Definition cat (l : list string) : string := String.concat "" l.

(** [print(s)] *)
Definition print (s : string) : IO unit := stdout_write (cat [s; nl]).

(** [sys.exit(code)] *)
Definition sys_exit {A : Type} (code : Z) : IO A :=
  io_lift (Err (SystemExit code)).

(** A [for] loop of the driver. *)
Fixpoint io_for {A : Type} (l : list A) (body : A -> IO unit) : IO unit :=
  match l with
  | [] => io_ret tt
  | a :: l' => (body a ;; io_for l' body)%io
  end.

(** [parser.print_help()]: the help text goes to [file], which is
    [sys.stdout] when no file is given. *)
Definition print_help (w : World) : IO unit := stdout_write (format_help w).

(** [r[i].decode("utf8")]: [r[i]] must be there and be a [bytes] object. *)
Definition item_decode (w : World) (r : row) (i : nat) : IO string :=
  match nth_error r i with
  | None => io_lift (Err IndexError)
  | Some (VBytes b) => io_lift (utf8_decode w b)
  | Some _ => io_lift (Err AttributeError)
  end.

(** ** The driver *)

(** The result of [parser.parse_args()]: an option that was not given on
    the command line is [None]. *)
Record Options : Type := mkOptions {
  marksfile : option string;
  mappingfile : option string;
  headsfile : option string;
  statusfile : option string;
  repourl : option string;
  revision : option Z
}.

Definition bail {A : Type} (w : World) (opt : string) : IO A :=
  (stderr_write (cat ["Error: No option "; opt; " given"; nl]) ;;
   print_help w ;;
   sys_exit 2)%io.

(** [if o is None: bail(parser, opt)] *)
Definition required {A : Type} (w : World) (o : option A) (opt : string)
  : IO A :=
  match o with
  | None => bail w opt
  | Some a => io_ret a
  end.

Definition tag_line (w : World) (tag : row) : IO unit :=
  (a <- item_decode w tag 0 ;;
   b <- item_decode w tag 1 ;;
   c <- item_decode w tag 3 ;;
   stdout_write (cat [tab; a; " on "; b; " (r"; c; ")"; nl]))%io.

Definition branch_line (w : World) (branch : row) : IO unit :=
  (a <- item_decode w branch 0 ;;
   b <- item_decode w branch 2 ;;
   stdout_write (cat [tab; a; " (r"; b; ")"; nl]))%io.

Definition reset_line (w : World) (branch : row) : IO unit :=
  (a <- item_decode w branch 0 ;;
   b <- item_decode w branch 1 ;;
   c <- item_decode w branch 2 ;;
   d <- item_decode w branch 4 ;;
   e <- item_decode w branch 3 ;;
   stdout_write
     (cat [tab; ":"; a; " "; b; nl; tab; tab; "(r"; c; ": "; d; ": "; e; ")";
           nl]))%io.

Definition report (w : World) (headsfile statusfile : string) (revision : Z)
    (stale : bdict pyval) (changed unchanged good bad : list row)
  : IO unit :=
  (print "Possibly stale branches:" ;;
   io_for (Dict.keys stale)
     (fun branch =>
        s <- io_lift (utf8_decode w branch) ;;
        stdout_write (cat [tab; s; nl])) ;;
   print "Possibly stale tags:" ;;
   io_for bad (tag_line w) ;;
   print "Unchanged branches:" ;;
   io_for unchanged (branch_line w) ;;
   print "Unchanged tags:" ;;
   io_for good (tag_line w) ;;
   print (cat ["Reset branches in '"; headsfile; "' to:"]) ;;
   io_for changed (reset_line w) ;;
   print (cat ["Reset ':tip' in '"; statusfile; "' to '"; fmt_d revision;
               "'"]))%io.

(** [int(state_cache.get(b"tip", options.revision))] *)
Definition recorded_tip (state_cache : bdict obj) (revision : Z) : result Z :=
  match Dict.get String.eqb "tip" state_cache with
  | Some v => py_int (data v)
  | None => Ok revision
  end.

Definition main (w : World) (options : Options) : IO unit :=
  (marksfile <- required w (marksfile options) "--marks option" ;;
   mappingfile <- required w (mappingfile options) "--mapping option" ;;
   headsfile <- required w (headsfile options) "--heads option" ;;
   statusfile <- required w (statusfile options) "--status option" ;;
   repourl <- required w (repourl options) "--repo option" ;;
   revision <- required w (revision options) "-R/--revision" ;;
   heads_cache <- io_lift (load_cache w headsfile Ok) ;;
   marks_cache <- io_lift (load_cache w marksfile mangle_mark) ;;
   state_cache <- io_lift (load_cache w statusfile Ok) ;;
   mapping_cache <- io_lift (load_cache w mappingfile Ok) ;;
   list <- io_lift (recorded_tip state_cache revision) ;;
   (if revision + 1 >? list then
      stderr_write
        (cat ["Revision is beyond last revision imported: "; fmt_d revision;
              ">"; fmt_d list; nl]) ;;
      sys_exit 1
    else io_ret tt) ;;
   repo <- io_lift (setup_repo w repourl) ;;
   '(stale, changed, unchanged) <-
     io_lift (get_branches w repo heads_cache marks_cache mapping_cache
                (revision + 1)) ;;
   '(good, bad) <-
     io_lift (get_tags w repo marks_cache mapping_cache (revision + 1)) ;;
   report w headsfile statusfile revision stale changed unchanged good bad)%io.

(** The run of the program from empty streams. *)
Definition run (w : World) (options : Options) : console * result unit :=
  main w options (mkConsole [] []).

(** ** Vocabulary of the statements *)

Definition pyval_eq_dec (x y : pyval) : {x = y} + {x <> y}.
Proof.
  decide equality; [apply string_dec | apply Z.eq_dec].
Defined.

(** The first item of a row: the branch name or the tag name. *)
Definition row_key (r : row) : pyval := nth 0 r VNone.

(** How many rows of a collection are about the name [k]. *)
Definition occurrences (k : bytes) (rows : list row) : nat :=
  count_occ pyval_eq_dec (map row_key rows) (VBytes k).

(** How many times [k] is a key of a dictionary. *)
Definition key_count {V : Type} (k : bytes) (d : bdict V) : nat :=
  count_occ string_dec (Dict.keys d) k.

(** The names of the tags that [get_tags] classifies. *)
Definition tag_names (repo : Repo) : list bytes :=
  filter (fun t => negb (String.eqb t "tip")) (map fst (tagslist repo)).

(** The row [get_branches] builds for a head. *)
Definition branch_entry (marks_cache : bdict obj) (cs : changeset)
    (rev : bytes) (n : Z) : row :=
  [VBytes (cs_branch cs);
   val_of (Dict.get String.eqb (fmt_d (n + 1)) marks_cache);
   VBytes rev; VBytes (first_line (cs_desc cs)); VBytes (cs_user cs)].

(** The row [get_tags] builds for a tag. *)
Definition tag_entry (marks_cache : bdict obj) (tag : bytes) (cs : changeset)
    (rev : Z) : row :=
  [VBytes tag; VBytes (cs_branch cs);
   val_of (Dict.get String.eqb (fmt_d (rev + 1)) marks_cache);
   VInt rev; VBytes (first_line (cs_desc cs)); VBytes (cs_user cs)].

(** The option the driver reports as missing: the first one, in the order
    of the checks, that was not given. *)
Definition missing_option (o : Options) : option string :=
  match marksfile o with None => Some "--marks option" | Some _ =>
  match mappingfile o with None => Some "--mapping option" | Some _ =>
  match headsfile o with None => Some "--heads option" | Some _ =>
  match statusfile o with None => Some "--status option" | Some _ =>
  match repourl o with None => Some "--repo option" | Some _ =>
  match revision o with None => Some "-R/--revision" | Some _ =>
  None end end end end end end.

(** ** A sample repository

    Six revisions: the chain 0, 1, 2, 3 on branch [default] and the chain
    0, 4, 5 on branch [feature]; a missing parent is revision -1. *)

Module Sample.

Definition node_of (r : Z) : Node :=
  if r =? -1 then nullid else String "n" (fmt_d r).

Definition rev_of (n : Node) : Z :=
  match n with
  | String "n" s => match py_int s with Ok r => r | Err _ => -1 end
  | _ => -1
  end.

Definition parents (r : Z) : list Z :=
  if r =? 0 then [-1; -1]
  else if r =? 4 then [0; -1]
  else [r - 1; -1].

Definition repo : Repo :=
  mkRepo 6 rev_of node_of parents
    [("v1", node_of 2); ("v2", node_of 5); ("tip", node_of 5)].

(** A repository whose only tag besides [tip] sits on revision 10. *)
Definition tagged : Repo :=
  mkRepo 12 rev_of node_of parents
    [("release", node_of 10); ("tip", node_of 11)].

Definition changeset_of (r : Z) : changeset :=
  mkChangeset "alice"
    (cat ["change "; fmt_d r; nl; "details"])
    (if (4 <=? r) && (r <=? 5) then "feature" else "default").

Definition lookup_changeset (_ : Repo) (a : revarg) : result changeset :=
  match a with
  | RevText s => (r <- py_int s ;; Ok (changeset_of r))%result
  | RevNum r => Ok (changeset_of r)
  end.

Definition sha_a : bytes := "a3f5c1d2e4b6a7980c1d2e3f4a5b6c7d8e9f0a1b".
Definition sha_b : bytes := "0b1c2d3e4f5a69788796a5b4c3d2e1f00112233c".

(** The marks file: mark 4 and mark 6, that is revisions 3 and 5. *)
Definition marks_lines : list (bytes * obj) :=
  [("5", mkobj 1 sha_a); ("7", mkobj 2 sha_b)].

Definition files (name : string) : list (bytes * obj) :=
  if String.eqb name "marks" then marks_lines
  else if String.eqb name "heads" then
    [("default", mkobj 3 sha_a); ("feature", mkobj 4 sha_b);
     ("old", mkobj 5 sha_b)]
  else if String.eqb name "status" then [("tip", mkobj 6 "50")]
  else if String.eqb name "status-without-tip" then
    [("other", mkobj 6 "50")]
  else if String.eqb name "mapping" then
    [(hexlify (node_of 2), mkobj 7 "2"); (hexlify (node_of 5), mkobj 8 "5");
     (hexlify (node_of 10), mkobj 9 "10")]
  else [].

(** [git rev-parse] answers with a fresh object: for [default] the model
    lets it be the very object of the marks cache, for [feature] an object
    of equal content at another address. *)
Definition git_sha1 (branch : bytes) : option obj :=
  if String.eqb branch "default" then Some (mkobj 1 sha_a)
  else if String.eqb branch "feature" then Some (mkobj 20 sha_b)
  else None.

Definition world : World :=
  mkWorld lookup_changeset git_sha1 (fun _ => Ok repo) files
    (fun b => Ok b) "Usage: hg-reset.py [options]".

Definition marks_cache : bdict obj :=
  [("4", mkobj 1 sha_a); ("6", mkobj 2 sha_b)].

Definition heads_cache : bdict obj := files "heads".

Definition mapping_cache : bdict obj := files "mapping".

Definition options (status : string) (r : Z) : Options :=
  mkOptions (Some "marks") (Some "mapping") (Some "heads") (Some status)
    (Some "repo") (Some r).

(** The stop sets [[node 4]] and [[node 1]] as [heads] sees them. *)
Definition stop_at_4 : zdict pyval := heads_stoprevs repo (Some [node_of 4]).
Definition stop_at_1 : zdict pyval := heads_stoprevs repo (Some [node_of 1]).

End Sample.

(** ** Vocabulary of the further properties *)

(** Revision [r] has a parent among the keys of [reachable]; revision [h]
    is a parent of a revision of [l]. *)
Definition has_reachable_parent (repo : Repo) (reachable : zdict Z) (r : Z)
  : bool :=
  existsb (fun p => Dict.mem Z.eqb p reachable) (changelog_parentrevs repo r).

Definition has_child_in (repo : Repo) (l : list Z) (h : Z) : bool :=
  existsb (fun r => existsb (Z.eqb h) (changelog_parentrevs repo r)) l.

(** What the scan of [heads] keeps true of its two dictionaries once it has
    gone through the revisions below [m]. *)
Definition scan_inv (repo : Repo) (stoprevs : zdict pyval) (startrev m : Z)
    (st : zdict Z * zdict Z) : Prop :=
  (forall k, Dict.mem Z.eqb k (fst st) = true ->
             k = startrev \/ startrev < k < m)
  /\ (forall k, Dict.mem Z.eqb k (snd st) = true ->
                k = startrev \/ startrev < k < m)
  /\ Dict.mem Z.eqb startrev (fst st) = true
  /\ (forall k, startrev < k < m ->
        Dict.mem Z.eqb k (fst st)
        = negb (Dict.mem Z.eqb k stoprevs)
          && has_reachable_parent repo (fst st) k)
  /\ (forall h,
        Dict.mem Z.eqb h (snd st)
        = ((h =? startrev)
           || ((startrev <? h) && (h <? m)
               && has_reachable_parent repo (fst st) h))
          && (Dict.mem Z.eqb h stoprevs
              || negb (has_child_in repo (py_range (startrev + 1) m) h))).

(** The [reachable] dictionary at the end of the scan. *)
Definition heads_reachable (repo : Repo) (start : option Node)
    (stop : option (list Node)) (max : option Z) : zdict Z :=
  fst (heads_scan repo (heads_stoprevs repo stop) (heads_start repo start)
         (heads_max repo max)).

(** Order of two rows by their first item, a name. *)
Definition name_below (a b : row) : Prop :=
  exists x y,
    row_key a = VBytes x /\ row_key b = VBytes y /\ String.ltb x y = true.

(** The row [get_branches] builds for a head; the row [get_tags] builds for
    a tag. *)
Definition head_row (w : World) (repo : Repo) (marks_cache : bdict obj)
    (h : Node * bytes) (r : row) : Prop :=
  exists cs z,
    get_changeset w repo (RevText (snd h)) = Ok cs
    /\ py_int (snd h) = Ok z
    /\ r = branch_entry marks_cache cs (snd h) z.

Definition tag_row (w : World) (repo : Repo)
    (marks_cache mapping_cache : bdict obj) (t : bytes * Node) (r : row)
  : Prop :=
  exists m rev cs,
    Dict.get String.eqb (hexlify (snd t)) mapping_cache = Some m
    /\ py_int (data m) = Ok rev
    /\ get_changeset w repo (RevNum rev) = Ok cs
    /\ r = tag_entry marks_cache (fst t) cs rev.

(** The tags [get_tags] classifies, with their nodes. *)
Definition named_tags (repo : Repo) : list (bytes * Node) :=
  filter (fun t => negb (String.eqb (fst t) "tip")) (tagslist repo).


(** Item [i] of the row is a [bytes] object that the codec accepts. *)
Definition decodes_at (w : World) (r : row) (i : nat) : Prop :=
  exists b s, nth_error r i = Some (VBytes b) /\ utf8_decode w b = Ok s.

(** ** Further cases on the sample repository *)

Module Cases.

(** A world in which every changeset is on the branch [default]. *)
Definition lookup_default (_ : Repo) (a : revarg) : result changeset :=
  match a with
  | RevText s =>
      (r <- py_int s ;;
       Ok (mkChangeset "alice" (cat ["change "; fmt_d r]) "default"))%result
  | RevNum r => Ok (mkChangeset "alice" (cat ["change "; fmt_d r]) "default")
  end.

Definition one_branch : World :=
  mkWorld lookup_default Sample.git_sha1 (fun _ => Ok Sample.repo)
    Sample.files (fun b => Ok b) "Usage: hg-reset.py [options]".

(** The sample world with other marks and status files. *)
Definition files (marks status : list (bytes * obj)) (name : string)
  : list (bytes * obj) :=
  if String.eqb name "marks" then marks
  else if String.eqb name "status" then status
  else Sample.files name.

Definition world_of (marks status : list (bytes * obj)) : World :=
  mkWorld Sample.lookup_changeset Sample.git_sha1 (fun _ => Ok Sample.repo)
    (files marks status) (fun b => Ok b) "Usage: hg-reset.py [options]".

Definition bad_tip : World :=
  world_of Sample.marks_lines [("tip", mkobj 6 "fifty")].

Definition no_marks : World := world_of [] [("tip", mkobj 6 "50")].

(** What the classifiers return on the sample repository. *)
Definition changed6 : list row :=
  [[VBytes "feature"; VBytes Sample.sha_b; VBytes "5"; VBytes "change 5";
    VBytes "alice"]].

Definition unchanged6 : list row :=
  [[VBytes "default"; VBytes Sample.sha_a; VBytes "3"; VBytes "change 3";
    VBytes "alice"]].

Definition good4 : list row :=
  [[VBytes "v1"; VBytes "default"; VNone; VInt 2; VBytes "change 2";
    VBytes "alice"]].

Definition bad4 : list row :=
  [[VBytes "v2"; VBytes "feature"; VBytes Sample.sha_b; VInt 5;
    VBytes "change 5"; VBytes "alice"]].

End Cases.

(** * Properties *)

(** ** Decimal text *)

Lemma int_digits_acc (d : Decimal.uint) (acc : positive) :
  int_digits (Z.pos acc) (NilEmpty.string_of_uint d)
  = Some (Z.pos (Pos.of_uint_acc d acc)).
Proof.
  revert acc.
  induction d; intro acc;
    cbn [NilEmpty.string_of_uint int_digits Pos.of_uint_acc];
    [reflexivity | ..];
    match goal with
    | |- context [digit_val ?c] =>
        let v := eval vm_compute in (digit_val c) in
        change (digit_val c) with v
    end;
    cbv iota beta;
    match goal with
    | |- int_digits ?a _ = Some (Z.pos (Pos.of_uint_acc _ ?b)) =>
        replace a with (Z.pos b) by lia
    end;
    apply IHd.
Qed.

Lemma int_digits_zero (d : Decimal.uint) :
  int_digits 0 (NilEmpty.string_of_uint d) = Some (Z.of_N (Pos.of_uint d)).
Proof.
  induction d; cbn [NilEmpty.string_of_uint int_digits Pos.of_uint];
    [reflexivity | ..];
    match goal with
    | |- context [digit_val ?c] =>
        let v := eval vm_compute in (digit_val c) in
        change (digit_val c) with v
    end;
    cbv iota beta;
    first [ exact IHd | apply (int_digits_acc d) ].
Qed.

Lemma int_unsigned_uint (d : Decimal.uint) :
  d <> Decimal.Nil ->
  int_unsigned (NilEmpty.string_of_uint d) = Some (Z.of_N (Pos.of_uint d)).
Proof.
  intro Hd.
  rewrite <- int_digits_zero.
  destruct d; [congruence | reflexivity ..].
Qed.

Lemma lstrip_uint (d : Decimal.uint) :
  lstrip (NilEmpty.string_of_uint d) = NilEmpty.string_of_uint d.
Proof. destruct d; reflexivity. Qed.

Lemma py_int_pos (p : positive) : py_int (fmt_d (Z.pos p)) = Ok (Z.pos p).
Proof.
  unfold fmt_d, py_int. cbn [Z.to_int NilZero.string_of_int].
  pose proof (Unsigned.to_uint_nonnil p) as Hnil.
  pose proof (Unsigned.of_to p) as Hval.
  pose proof (int_unsigned_uint _ Hnil) as Hparse.
  rewrite Hval in Hparse.
  unfold NilZero.string_of_uint.
  destruct (Pos.to_uint p); [congruence | ..];
    cbn [NilEmpty.string_of_uint lstrip] in *;
    match goal with
    | |- context [is_space ?c] => change (is_space c) with false
    end;
    cbv iota;
    match goal with
    | |- context [Ascii.eqb ?c "-"] =>
        change (Ascii.eqb c "-") with false;
        change (Ascii.eqb c "+") with false
    end;
    cbv iota beta; rewrite Hparse; reflexivity.
Qed.

Lemma py_int_neg (p : positive) : py_int (fmt_d (Z.neg p)) = Ok (Z.neg p).
Proof.
  unfold fmt_d, py_int. cbn [Z.to_int NilZero.string_of_int].
  pose proof (Unsigned.to_uint_nonnil p) as Hnil.
  pose proof (Unsigned.of_to p) as Hval.
  pose proof (int_unsigned_uint _ Hnil) as Hparse.
  rewrite Hval in Hparse.
  unfold NilZero.string_of_uint.
  destruct (Pos.to_uint p); [congruence | ..];
    cbn [lstrip];
    change (is_space "-") with false; cbv iota;
    change (Ascii.eqb "-" "-") with true; cbv iota beta;
    rewrite Hparse; reflexivity.
Qed.

(** [int(b"%d" % n) == n] *)
Lemma py_int_fmt_d (n : Z) : py_int (fmt_d n) = Ok n.
Proof.
  destruct n; [reflexivity | apply py_int_pos | apply py_int_neg].
Qed.

Lemma fmt_d_inj (a b : Z) : fmt_d a = fmt_d b -> a = b.
Proof.
  intro H. pose proof (py_int_fmt_d a) as Ha. rewrite H, py_int_fmt_d in Ha.
  congruence.
Qed.

(** What [int] accepts and rejects. *)
Example py_int_sample :
  py_int " +1_000 " = Ok 1000 /\ py_int "-0" = Ok 0 /\ py_int "007" = Ok 7
  /\ py_int "1__0" = Err ValueError /\ py_int "1_" = Err ValueError
  /\ py_int "+ 1" = Err ValueError /\ py_int "12a" = Err ValueError
  /\ py_int "" = Err ValueError.
Proof. repeat split; reflexivity. Qed.

(** ** Dictionaries *)

Section DictFacts.
Context {K V : Type}.
Variable eqb : K -> K -> bool.
Hypothesis eqb_spec : forall a b, eqb a b = true <-> a = b.

Lemma eqb_refl_true (a : K) : eqb a a = true.
Proof. apply eqb_spec. reflexivity. Qed.

Lemma eqb_false_iff (a b : K) : eqb a b = false <-> a <> b.
Proof.
  rewrite <- eqb_spec. destruct (eqb a b); split; intro H; congruence.
Qed.

Lemma dict_mem_iff (k : K) (d : @Dict.t K V) :
  Dict.mem eqb k d = true <-> In k (Dict.keys d).
Proof.
  unfold Dict.mem.
  induction d as [|[k' v'] d IH]; simpl.
  - split; [discriminate | tauto].
  - destruct (eqb k k') eqn:E.
    + apply eqb_spec in E. subst. split; auto.
    + apply eqb_false_iff in E. rewrite IH. split; [tauto|].
      intros [H|H]; [congruence | exact H].
Qed.

Lemma dict_mem_false_iff (k : K) (d : @Dict.t K V) :
  Dict.mem eqb k d = false <-> ~ In k (Dict.keys d).
Proof.
  rewrite <- dict_mem_iff. destruct (Dict.mem eqb k d); split; congruence.
Qed.

Lemma dict_get_in (k : K) (v : V) (d : @Dict.t K V) :
  Dict.get eqb k d = Some v -> In k (Dict.keys d).
Proof.
  intro H. apply dict_mem_iff. unfold Dict.mem. rewrite H. reflexivity.
Qed.

Lemma dict_keys_set (x k : K) (v : V) (d : @Dict.t K V) :
  In x (Dict.keys (Dict.set eqb k v d)) <-> x = k \/ In x (Dict.keys d).
Proof.
  induction d as [|[k' v'] d IH]; simpl.
  - intuition congruence.
  - destruct (eqb k k') eqn:E; simpl.
    + apply eqb_spec in E. subst. intuition congruence.
    + rewrite IH. tauto.
Qed.

Lemma dict_nodup_set (k : K) (v : V) (d : @Dict.t K V) :
  NoDup (Dict.keys d) -> NoDup (Dict.keys (Dict.set eqb k v d)).
Proof.
  induction d as [|[k' v'] d IH]; simpl; intro H.
  - constructor; [tauto | constructor].
  - inversion H as [|? ? Hnot Hd]; subst.
    destruct (eqb k k') eqn:E; simpl.
    + constructor; assumption.
    + apply eqb_false_iff in E.
      constructor; [|apply IH; exact Hd].
      change (~ In k' (Dict.keys (Dict.set eqb k v d))).
      rewrite dict_keys_set. intros [Hk|Hk]; [congruence | tauto].
Qed.

Lemma dict_keys_remove (x k : K) (d : @Dict.t K V) :
  In x (Dict.keys (Dict.remove eqb k d)) <-> In x (Dict.keys d) /\ x <> k.
Proof.
  unfold Dict.remove, Dict.keys.
  induction d as [|[k' v'] d IH]; simpl.
  - tauto.
  - destruct (eqb k k') eqn:E; simpl.
    + apply eqb_spec in E. subst k'. rewrite IH.
      split; [tauto|]. intros [[H|H] Hne]; [congruence | tauto].
    + apply eqb_false_iff in E. rewrite IH.
      split; [|tauto]. intros [H|H]; [|tauto].
      subst. split; [tauto | congruence].
Qed.

Lemma dict_nodup_remove (k : K) (d : @Dict.t K V) :
  NoDup (Dict.keys d) -> NoDup (Dict.keys (Dict.remove eqb k d)).
Proof.
  induction d as [|[k' v'] d IH]; simpl; intro H.
  - constructor.
  - inversion H as [|? ? Hnot Hd]; subst.
    destruct (eqb k k') eqn:E; simpl; [apply IH; exact Hd|].
    constructor; [|apply IH; exact Hd].
    change (~ In k' (Dict.keys (Dict.remove eqb k d))).
    rewrite dict_keys_remove. tauto.
Qed.

Lemma dict_fromkeys_from (l : list K) (v : V) (d : @Dict.t K V) :
  let r := fold_left (fun d k => Dict.set eqb k v d) l d in
  (forall x, In x (Dict.keys r) <-> In x (Dict.keys d) \/ In x l)
  /\ (NoDup (Dict.keys d) -> NoDup (Dict.keys r)).
Proof.
  revert d.
  induction l as [|a l IH]; intro d; simpl.
  - split; [intro x; tauto | auto].
  - destruct (IH (Dict.set eqb a v d)) as [Hin Hnd].
    split.
    + intro x. rewrite Hin, dict_keys_set. intuition congruence.
    + intro H. apply Hnd, dict_nodup_set, H.
Qed.

Lemma dict_keys_fromkeys (x : K) (l : list K) (v : V) :
  In x (Dict.keys (Dict.fromkeys eqb l v)) <-> In x l.
Proof.
  destruct (dict_fromkeys_from l v []) as [H _].
  unfold Dict.fromkeys. rewrite H. simpl. tauto.
Qed.

Lemma dict_nodup_fromkeys (l : list K) (v : V) :
  NoDup (Dict.keys (Dict.fromkeys eqb l v)).
Proof.
  destruct (dict_fromkeys_from l v []) as [_ H].
  apply H. constructor.
Qed.

End DictFacts.

Lemma Z_eqb_spec (a b : Z) : Z.eqb a b = true <-> a = b.
Proof. apply Z.eqb_eq. Qed.

Lemma string_eqb_spec (a b : string) : String.eqb a b = true <-> a = b.
Proof. apply String.eqb_eq. Qed.

(** ** Loops *)

Lemma fold_left_invariant {A S : Type} (P : S -> Prop) (f : S -> A -> S)
    (l : list A) (s : S) :
  P s -> (forall s a, In a l -> P s -> P (f s a)) -> P (fold_left f l s).
Proof.
  revert s.
  induction l as [|a l IH]; intros s Hs Hstep; simpl; [exact Hs|].
  apply IH.
  - apply Hstep; [left; reflexivity | exact Hs].
  - intros s' a' Hin. apply Hstep. right. exact Hin.
Qed.

Lemma rfold_invariant {A S : Type} (P : S -> Prop) (body : S -> A -> result S)
    (l : list A) (s s' : S) :
  rfold body l s = Ok s' ->
  P s ->
  (forall s a s', In a l -> P s -> body s a = Ok s' -> P s') ->
  P s'.
Proof.
  revert s.
  induction l as [|a l IH]; intros s Hrun Hs Hstep; simpl in Hrun.
  - injection Hrun as <-. exact Hs.
  - destruct (body s a) as [s1|e] eqn:E; simpl in Hrun; [|discriminate].
    apply (IH s1 Hrun).
    + apply (Hstep s a s1); [left; reflexivity | exact Hs | exact E].
    + intros s2 a2 s3 Hin. apply Hstep. right. exact Hin.
Qed.

Lemma py_range_in (a b r : Z) : In r (py_range a b) <-> a <= r < b.
Proof.
  unfold py_range. rewrite in_map_iff. split.
  - intros [i [<- Hi]]. apply in_seq in Hi. lia.
  - intro H. exists (Z.to_nat (r - a)). split; [lia|].
    apply in_seq. lia.
Qed.

Lemma py_range_empty (a b : Z) : b <= a -> py_range a b = [].
Proof.
  intro H. unfold py_range.
  replace (Z.to_nat (b - a)) with 0%nat by lia. reflexivity.
Qed.

(** ** The head finder *)

Lemma heads_parent_keys (stoprevs : zdict pyval) (r p k : Z)
    (st : zdict Z * zdict Z) :
  In k (Dict.keys (snd (heads_parent stoprevs r st p))) ->
  k = r \/ In k (Dict.keys (snd st)).
Proof.
  destruct st as [reachable hd]. unfold heads_parent.
  destruct (Dict.mem Z.eqb p reachable);
    match goal with
    | |- context [if ?c then Dict.remove _ _ _ else _] => destruct c
    end;
    cbn [snd]; intro H;
    repeat (apply (dict_keys_remove Z.eqb Z_eqb_spec) in H;
            destruct H as [H _]);
    try (apply (dict_keys_set Z.eqb Z_eqb_spec) in H); tauto.
Qed.

Lemma heads_scan_keys (repo : Repo) (stoprevs : zdict pyval)
    (startrev max k : Z) :
  In k (Dict.keys (snd (heads_scan repo stoprevs startrev max))) ->
  k = startrev \/ startrev < k < max.
Proof.
  unfold heads_scan.
  apply (fold_left_invariant
           (fun st => In k (Dict.keys (snd st)) ->
                      k = startrev \/ startrev < k < max)).
  - simpl. intros [H|[]]. left. symmetry. exact H.
  - intros st r Hr Hst. unfold heads_rev.
    apply py_range_in in Hr.
    apply (fold_left_invariant
             (fun st => In k (Dict.keys (snd st)) ->
                        k = startrev \/ startrev < k < max)); [exact Hst|].
    intros st' p _ Hst' Hk.
    apply heads_parent_keys in Hk. destruct Hk as [-> | Hk]; [right; lia|].
    apply Hst', Hk.
Qed.

(** C1, as amended.  One step of the scan, for a parent [p] of [r]: if [p]
    is reachable then [r] is marked a head (it stays one after the step
    when [p] is another revision than [r], as in a revision graph) and [r]
    becomes reachable unless [r] is a stop revision, in which case the
    reachable set is left as it was; and if [p] is a head and not a stop
    revision then [p] is deleted from the heads. *)
Theorem heads_parent_step (stoprevs : zdict pyval) (r p : Z)
    (reachable hd reachable' hd' : zdict Z)
    (Hstep : heads_parent stoprevs r (reachable, hd) p = (reachable', hd')) :
  (In p (Dict.keys reachable) ->
     (~ In r (Dict.keys stoprevs) -> In r (Dict.keys reachable'))
     /\ (In r (Dict.keys stoprevs) -> reachable' = reachable)
     /\ (p <> r -> In r (Dict.keys hd')))
  /\ (In p (Dict.keys hd) -> ~ In p (Dict.keys stoprevs) ->
      ~ In p (Dict.keys hd')).
Proof.
  unfold heads_parent in Hstep.
  split.
  - intro Hp.
    apply (dict_mem_iff Z.eqb Z_eqb_spec) in Hp. rewrite Hp in Hstep.
    destruct (Dict.mem Z.eqb r stoprevs) eqn:Hr; cbn [negb] in Hstep.
    + apply (dict_mem_iff Z.eqb Z_eqb_spec) in Hr.
      injection Hstep as <- <-.
      split; [intro Hn; contradiction|].
      split; [reflexivity|].
      intro Hne.
      destruct (Dict.mem Z.eqb p _ && _).
      * apply (dict_keys_remove Z.eqb Z_eqb_spec). split; [|congruence].
        apply (dict_keys_set Z.eqb Z_eqb_spec). left. reflexivity.
      * apply (dict_keys_set Z.eqb Z_eqb_spec). left. reflexivity.
    + apply (dict_mem_false_iff Z.eqb Z_eqb_spec) in Hr.
      injection Hstep as <- <-.
      split; [intros _; apply (dict_keys_set Z.eqb Z_eqb_spec); tauto|].
      split; [intro Hin; contradiction|].
      intro Hne.
      destruct (Dict.mem Z.eqb p _ && _).
      * apply (dict_keys_remove Z.eqb Z_eqb_spec). split; [|congruence].
        apply (dict_keys_set Z.eqb Z_eqb_spec). left. reflexivity.
      * apply (dict_keys_set Z.eqb Z_eqb_spec). left. reflexivity.
  - intros Hp Hstop.
    apply (dict_mem_false_iff Z.eqb Z_eqb_spec) in Hstop.
    destruct (Dict.mem Z.eqb p reachable); cbv iota beta in Hstep;
      rewrite Hstop in Hstep; cbn [negb] in Hstep;
      rewrite andb_true_r in Hstep.
    + assert (Hm : Dict.mem Z.eqb p (Dict.set Z.eqb r 1 hd) = true).
      { apply (dict_mem_iff Z.eqb Z_eqb_spec).
        apply (dict_keys_set Z.eqb Z_eqb_spec). tauto. }
      rewrite Hm in Hstep. injection Hstep as _ <-.
      rewrite (dict_keys_remove Z.eqb Z_eqb_spec). tauto.
    + apply (dict_mem_iff Z.eqb Z_eqb_spec) in Hp.
      rewrite Hp in Hstep. injection Hstep as _ <-.
      rewrite (dict_keys_remove Z.eqb Z_eqb_spec). tauto.
Qed.

(** The step for [r = 1] and its parent [p = 0], revision 4 being the only
    stop revision. *)
Lemma heads_parent_step_witness :
  heads_parent Sample.stop_at_4 1 ([(0, 1)], [(0, 1)]) 0
  = ([(0, 1); (1, 1)], [(1, 1)])
  /\ In 1 (Dict.keys [(0, 1); (1, 1)])
  /\ In 1 (Dict.keys [(1, 1)])
  /\ ~ In 0 (Dict.keys [(1, 1)]).
Proof.
  assert (Hrun : heads_parent Sample.stop_at_4 1 ([(0, 1)], [(0, 1)]) 0
                 = ([(0, 1); (1, 1)], [(1, 1)])) by reflexivity.
  destruct (heads_parent_step Sample.stop_at_4 1 0 _ _ _ _ Hrun)
    as [Hreach Hhead].
  assert (Hp : In 0 (Dict.keys [(0, 1)])) by (simpl; lia).
  assert (Hstop : forall r : Z, r <> 4 -> ~ In r (Dict.keys Sample.stop_at_4))
    by (intros r Hr; simpl; lia).
  destruct (Hreach Hp) as [Hr [_ Hh]].
  split; [exact Hrun|].
  split; [apply Hr, Hstop; lia|].
  split; [apply Hh; lia|].
  apply Hhead; [exact Hp | apply Hstop; lia].
Defined.

(** C1, as stated, fails.  With revision 1 a stop revision and its parent 0
    reachable, the step marks 1 a head and does not make it reachable: the
    scan from revision 0 up to 2 ends with 0 alone reachable and 1 the
    only head. *)
Lemma heads_parent_step_counterexample :
  heads_scan Sample.repo Sample.stop_at_1 0 2 = ([(0, 1)], [(1, 1)])
  /\ In 0 (Dict.keys [(0, 1)])
  /\ In 1 (Dict.keys Sample.stop_at_1)
  /\ ~ In 1 (Dict.keys
               (fst (heads_parent Sample.stop_at_1 1 ([(0, 1)], [(0, 1)]) 0)))
  /\ In 1 (Dict.keys
             (snd (heads_parent Sample.stop_at_1 1 ([(0, 1)], [(0, 1)]) 0))).
Proof.
  split; [reflexivity|].
  split; [simpl; lia|].
  split; [simpl; lia|].
  split; simpl; lia.
Qed.

(** Every pair returned by [heads] is the node and the decimal text of a
    key of the dictionary of heads. *)
Lemma heads_entry (repo : Repo) (start : option Node)
    (stop : option (list Node)) (max : option Z) (n : Node) (s : bytes) :
  In (n, s) (heads repo start stop max) ->
  exists r,
    n = changelog_node repo r /\ s = fmt_d r /\ py_int s = Ok r
    /\ (r = heads_start repo start
        \/ heads_start repo start < r < heads_max repo max).
Proof.
  intro Hin. unfold heads in Hin.
  pose proof (heads_scan_keys repo (heads_stoprevs repo stop)
                (heads_start repo start) (heads_max repo max)) as Hkeys.
  destruct (heads_scan repo (heads_stoprevs repo stop)
              (heads_start repo start) (heads_max repo max)) as [reach hd].
  cbn [snd] in Hkeys.
  apply in_map_iff in Hin. destruct Hin as [r [Heq Hr]].
  injection Heq as <- <-.
  exists r. specialize (Hkeys r Hr).
  repeat split; try reflexivity; [apply py_int_fmt_d | exact Hkeys].
Qed.

(** C5, as amended.  Every pair returned by [heads] is the node and the
    decimal text of a revision that is the start revision itself or lies
    strictly between the start revision and [max]; so it is below [max]
    whenever the start revision is. *)
Theorem heads_revision_bound (repo : Repo) (start : option Node)
    (stop : option (list Node)) (max : option Z) (n : Node) (s : bytes)
    (Hin : In (n, s) (heads repo start stop max)) :
  exists r,
    n = changelog_node repo r /\ s = fmt_d r /\ py_int s = Ok r
    /\ (r = heads_start repo start
        \/ heads_start repo start < r < heads_max repo max)
    /\ (heads_start repo start < heads_max repo max ->
        r < heads_max repo max).
Proof.
  destruct (heads_entry _ _ _ _ _ _ Hin) as (r & Hn & Hs & Hint & Hr).
  exists r. repeat split; try assumption. intro Hlt. lia.
Qed.

Lemma heads_revision_bound_witness :
  exists r,
    "n3" = changelog_node Sample.repo r /\ "3" = fmt_d r /\ py_int "3" = Ok r
    /\ (r = heads_start Sample.repo None
        \/ heads_start Sample.repo None < r < heads_max Sample.repo (Some 4))
    /\ (heads_start Sample.repo None < heads_max Sample.repo (Some 4) ->
        r < heads_max Sample.repo (Some 4)).
Proof.
  apply (heads_revision_bound Sample.repo None None (Some 4) "n3" "3").
  vm_compute. left. reflexivity.
Defined.

(** C5, as stated, fails.  Started at revision 5 with [max = 3], [heads]
    returns revision 5, which is not below 3. *)
Lemma heads_revision_bound_counterexample :
  heads Sample.repo (Some (Sample.node_of 5)) None (Some 3) = [("n5", "5")]
  /\ py_int "5" = Ok 5
  /\ ~ 5 < 3.
Proof.
  split; [reflexivity|]. split; [reflexivity | lia].
Qed.

(** C6.  When [max] is at most the start revision plus one, the range of
    the scan is empty and [heads] returns the start revision alone. *)
Theorem heads_empty_scan (repo : Repo) (start : option Node)
    (stop : option (list Node)) (max : option Z)
    (Hmax : heads_max repo max <= heads_start repo start + 1) :
  py_range (heads_start repo start + 1) (heads_max repo max) = []
  /\ heads repo start stop max
     = [(changelog_node repo (heads_start repo start),
         fmt_d (heads_start repo start))].
Proof.
  pose proof (py_range_empty _ _ Hmax) as Hrange.
  split; [exact Hrange|].
  unfold heads, heads_scan. rewrite Hrange. reflexivity.
Qed.

Lemma heads_empty_scan_witness :
  py_range (heads_start Sample.repo (Some (Sample.node_of 3)) + 1)
    (heads_max Sample.repo (Some 4)) = []
  /\ heads Sample.repo (Some (Sample.node_of 3)) None (Some 4)
     = [(changelog_node Sample.repo
           (heads_start Sample.repo (Some (Sample.node_of 3))),
         fmt_d (heads_start Sample.repo (Some (Sample.node_of 3))))].
Proof.
  apply (heads_empty_scan Sample.repo (Some (Sample.node_of 3)) None (Some 4)).
  vm_compute. discriminate.
Defined.

Lemma heads_parent_nodup (stoprevs : zdict pyval) (r p : Z)
    (st : zdict Z * zdict Z) :
  NoDup (Dict.keys (snd st)) ->
  NoDup (Dict.keys (snd (heads_parent stoprevs r st p))).
Proof.
  destruct st as [reachable hd]. unfold heads_parent. cbn [snd]. intro H.
  destruct (Dict.mem Z.eqb p reachable);
    match goal with
    | |- context [if ?c then Dict.remove _ _ _ else _] => destruct c
    end;
    cbn [snd];
    repeat first
      [ exact H
      | apply (dict_nodup_remove Z.eqb Z_eqb_spec)
      | apply (dict_nodup_set Z.eqb Z_eqb_spec) ].
Qed.

(** The revisions [heads] returns are pairwise different. *)
Lemma heads_nodup (repo : Repo) (start : option Node)
    (stop : option (list Node)) (max : option Z) :
  NoDup (map snd (heads repo start stop max)).
Proof.
  unfold heads.
  assert (Hnd : NoDup (Dict.keys (snd (heads_scan repo
                         (heads_stoprevs repo stop) (heads_start repo start)
                         (heads_max repo max))))).
  { unfold heads_scan.
    apply (fold_left_invariant (fun st => NoDup (Dict.keys (snd st)))).
    - simpl. constructor; [tauto | constructor].
    - intros st r _ Hst. unfold heads_rev.
      apply (fold_left_invariant (fun st => NoDup (Dict.keys (snd st))));
        [exact Hst|].
      intros st' p _. apply heads_parent_nodup. }
  destruct (heads_scan repo (heads_stoprevs repo stop)
              (heads_start repo start) (heads_max repo max)) as [reach hd].
  cbn [snd] in Hnd. rewrite map_map. cbn [snd].
  apply NoDup_map_NoDup_ForallPairs; [|exact Hnd].
  intros a b _ _. apply fmt_d_inj.
Qed.

(** The chain 0, 1, 2, 3 and the branch 0, 4, 5 with [max = 4]: revision 3
    is the only head; without a ceiling both 3 and 5 are. *)
Example heads_sample :
  heads Sample.repo None None (Some 4) = [("n3", "3")]
  /\ heads Sample.repo None None None = [("n3", "3"); ("n5", "5")].
Proof. split; reflexivity. Qed.

(** ** Sorting and counting *)

Lemma sort_insert_perm (x : row) (l r : list row) :
  sort_insert x l = Ok r -> Permutation (x :: l) r.
Proof.
  revert r.
  induction l as [|y l IH]; intros r H; simpl in H.
  - injection H as <-. apply Permutation_refl.
  - destruct (row_lt y x) as [[|]|e]; simpl in H; try discriminate.
    + destruct (sort_insert x l) as [r'|e]; simpl in H; [|discriminate].
      injection H as <-.
      apply perm_trans with (y :: x :: l); [apply perm_swap|].
      apply perm_skip, IH. reflexivity.
    + injection H as <-. apply Permutation_refl.
Qed.

Lemma py_sort_perm (l r : list row) : py_sort l = Ok r -> Permutation l r.
Proof.
  revert r.
  induction l as [|x l IH]; intros r H; simpl in H.
  - injection H as <-. apply perm_nil.
  - destruct (py_sort l) as [s|e]; simpl in H; [|discriminate].
    apply perm_trans with (x :: s).
    + apply perm_skip, IH. reflexivity.
    + apply sort_insert_perm, H.
Qed.

(** Rows that start with pairwise different names are sorted without any
    comparison going past the name, so [list.sort] does not raise. *)
Lemma row_lt_names (a b : bytes) (ra rb : row) :
  a <> b -> row_lt (VBytes a :: ra) (VBytes b :: rb) = Ok (String.ltb a b).
Proof.
  intro Hne. cbn [row_lt py_eqb].
  apply String.eqb_neq in Hne. rewrite Hne. reflexivity.
Qed.

Lemma row_key_named (r : row) (k : bytes) :
  row_key r = VBytes k -> exists rest, r = VBytes k :: rest.
Proof.
  destruct r as [|x rest]; unfold row_key; cbn [nth]; intro H;
    [discriminate|].
  exists rest. congruence.
Qed.

Lemma sort_insert_total (x : row) (l : list row) :
  (forall y, In y l -> exists b, row_lt y x = Ok b) ->
  exists r, sort_insert x l = Ok r.
Proof.
  induction l as [|y l IH]; intro H; cbn [sort_insert].
  - eexists. reflexivity.
  - destruct (H y (or_introl eq_refl)) as [b ->]. cbn [rbind].
    destruct b; [|eexists; reflexivity].
    destruct IH as [r ->]; [intros z Hz; apply H; right; exact Hz|].
    eexists. reflexivity.
Qed.

Lemma py_sort_total (l : list row) :
  (forall r, In r l -> exists k, row_key r = VBytes k) ->
  NoDup (map row_key l) ->
  exists s, py_sort l = Ok s.
Proof.
  induction l as [|x l IH]; intros Hnamed Hnd; cbn [py_sort].
  - eexists. reflexivity.
  - cbn [map] in Hnd. inversion Hnd as [|? ? Hnot Hnd']; subst.
    destruct IH as [s Hs];
      [intros r Hr; apply Hnamed; right; exact Hr | exact Hnd' |].
    rewrite Hs. cbn [rbind].
    apply sort_insert_total. intros y Hy.
    apply (Permutation_in _ (Permutation_sym (py_sort_perm _ _ Hs))) in Hy.
    destruct (Hnamed x (or_introl eq_refl)) as [kx Hkx].
    destruct (Hnamed y (or_intror Hy)) as [ky Hky].
    destruct (row_key_named _ _ Hkx) as [rx ->].
    destruct (row_key_named _ _ Hky) as [ry ->].
    rewrite row_lt_names; [eexists; reflexivity|].
    intros ->. apply Hnot.
    apply (in_map row_key) in Hy. exact Hy.
Qed.

Lemma occurrences_perm (k : bytes) (l r : list row) :
  Permutation l r -> occurrences k l = occurrences k r.
Proof.
  intro H. unfold occurrences.
  apply Permutation_count_occ. apply Permutation_map. exact H.
Qed.

Lemma occurrences_snoc (k : bytes) (l : list row) (e : row) :
  occurrences k (l ++ [e])
  = (occurrences k l
     + if pyval_eq_dec (row_key e) (VBytes k) then 1 else 0)%nat.
Proof.
  unfold occurrences. rewrite map_app, count_occ_app. simpl.
  destruct (pyval_eq_dec (row_key e) (VBytes k)); reflexivity.
Qed.

(** Rows with names only, no name more than once, have distinct keys. *)
Lemma rows_nodup (l : list row) :
  (forall r, In r l -> exists k, row_key r = VBytes k) ->
  (forall k, (occurrences k l <= 1)%nat) ->
  NoDup (map row_key l).
Proof.
  intros Hnamed Hocc. apply NoDup_count_occ with (decA := pyval_eq_dec).
  intro x.
  destruct (in_dec pyval_eq_dec x (map row_key l)) as [Hin|Hout].
  - apply in_map_iff in Hin. destruct Hin as (r & <- & Hr).
    destruct (Hnamed r Hr) as [k ->]. apply Hocc.
  - apply (count_occ_not_In pyval_eq_dec) in Hout. lia.
Qed.

Lemma key_count_remove_same {V : Type} (k : bytes) (d : bdict V) :
  key_count k (Dict.remove String.eqb k d) = 0%nat.
Proof.
  unfold key_count. apply count_occ_not_In.
  rewrite (dict_keys_remove String.eqb string_eqb_spec). tauto.
Qed.

Lemma key_count_remove_other {V : Type} (k k' : bytes) (d : bdict V) :
  k <> k' ->
  key_count k (Dict.remove String.eqb k' d) = key_count k d.
Proof.
  intro Hne. unfold key_count, Dict.remove, Dict.keys.
  induction d as [|[a v] d IH]; simpl; [reflexivity|].
  destruct (String.eqb k' a) eqn:E; simpl.
  - apply String.eqb_eq in E. subst a.
    destruct (string_dec k' k); [congruence | exact IH].
  - destruct (string_dec a k); [f_equal|]; exact IH.
Qed.

Lemma key_count_nodup {V : Type} (k : bytes) (d : bdict V) :
  NoDup (Dict.keys d) -> In k (Dict.keys d) -> key_count k d = 1%nat.
Proof.
  intros Hnd Hin. unfold key_count.
  apply NoDup_count_occ'; assumption.
Qed.

(** ** The classifiers *)

Section Classifier.
Variables (w : World) (repo : Repo).
Variables (heads_cache marks_cache mapping_cache : bdict obj) (max : Z).

(** *** The tag classifier *)

(** What one iteration of the loop of [get_tags] does when it does not
    raise. *)
Lemma tag_step_ok (good bad : list row) (tag : bytes) (node : Node)
    (st' : tag_state) :
  tag_step w repo marks_cache mapping_cache max (good, bad) (tag, node)
  = Ok st' ->
  (tag = "tip" /\ st' = (good, bad))
  \/ (tag <> "tip" /\
      exists m rev cs,
        Dict.get String.eqb (hexlify node) mapping_cache = Some m
        /\ py_int (data m) = Ok rev
        /\ get_changeset w repo (RevNum rev) = Ok cs
        /\ ((max < rev
             /\ st' = (good, bad ++ [tag_entry marks_cache tag cs rev]))
            \/ (rev <= max
                /\ st' = (good ++ [tag_entry marks_cache tag cs rev], bad)))).
Proof.
  unfold tag_step. intro H.
  destruct (String.eqb tag "tip") eqn:Etip.
  - left. apply String.eqb_eq in Etip. injection H as <-. tauto.
  - right. apply String.eqb_neq in Etip. split; [exact Etip|].
    unfold Dict.lookup in H.
    destruct (Dict.get String.eqb (hexlify node) mapping_cache) as [m|];
      simpl in H; [|discriminate].
    destruct (py_int (data m)) as [rev|] eqn:Erev; simpl in H; [|discriminate].
    destruct (get_changeset w repo (RevNum rev)) as [cs|] eqn:Ecs;
      simpl in H; [|discriminate].
    exists m, rev, cs. repeat split; try assumption.
    fold (tag_entry marks_cache tag cs rev) in H.
    destruct (Z.gtb_spec rev max); injection H as <-; [left | right];
      (split; [lia | reflexivity]).
Qed.

(** The revision of a row of a tag decides the row. *)
Lemma tag_entry_rev (tag tag' : bytes)
    (cs cs' : changeset) (rev rev' : Z) :
  tag_entry marks_cache tag cs rev = tag_entry marks_cache tag' cs' rev' ->
  rev = rev'.
Proof. unfold tag_entry. intro H. congruence. Qed.

(** The loop of [get_tags], from any pair of collections: every tag other
    than [tip] got its row into the collection its revision selects, the
    rows added to [good] are at or below [max] and those added to [bad]
    above it, and each tag added one row. *)
Lemma tag_loop (l : list (bytes * Node)) :
  forall good0 bad0 good bad,
    rfold (tag_step w repo marks_cache mapping_cache max) l (good0, bad0)
    = Ok (good, bad) ->
    (forall tag node, In (tag, node) l -> tag <> "tip" ->
       exists m rev cs,
         Dict.get String.eqb (hexlify node) mapping_cache = Some m
         /\ py_int (data m) = Ok rev
         /\ get_changeset w repo (RevNum rev) = Ok cs
         /\ (max < rev -> In (tag_entry marks_cache tag cs rev) bad)
         /\ (rev <= max -> In (tag_entry marks_cache tag cs rev) good))
    /\ (forall e, In e good ->
          In e good0 \/ exists tag cs rev,
            e = tag_entry marks_cache tag cs rev /\ rev <= max)
    /\ (forall e, In e bad ->
          In e bad0 \/ exists tag cs rev,
            e = tag_entry marks_cache tag cs rev /\ max < rev)
    /\ incl good0 good /\ incl bad0 bad
    /\ (forall k,
          (occurrences k good + occurrences k bad
           = occurrences k good0 + occurrences k bad0
             + count_occ string_dec
                 (filter (fun t => negb (String.eqb t "tip")) (map fst l))
                 k)%nat).
Proof.
  induction l as [|[tag node] l IH]; intros good0 bad0 good bad H;
    cbn [rfold] in H.
  - injection H as <- <-.
    repeat split; try (intros; simpl in *; tauto); try apply incl_refl.
    intro k. simpl. lia.
  - destruct (tag_step w repo marks_cache mapping_cache max (good0, bad0)
                (tag, node)) as [[good1 bad1]|] eqn:Estep;
      cbn [rbind] in H; [|discriminate].
    destruct (IH _ _ _ _ H) as (Hall & Hgood & Hbad & Hig & Hib & Hcount).
    apply tag_step_ok in Estep.
    destruct Estep
      as [[-> Hst] | [Hne (m & rev & cs & Hm & Hrev & Hcs & Hcase)]].
    + injection Hst as -> ->.
      repeat split; try assumption.
      intros tag node' [Heq|Hin] Hnt; [congruence|].
      apply Hall; assumption.
    + assert (Hkey : forall k,
                 (if pyval_eq_dec (row_key (tag_entry marks_cache tag cs rev))
                       (VBytes k) then 1 else 0)%nat
                 = if string_dec tag k then 1%nat else 0%nat).
      { intro k. unfold row_key, tag_entry. cbn [nth].
        destruct (pyval_eq_dec (VBytes tag) (VBytes k)) as [E|E];
          destruct (string_dec tag k); congruence. }
      assert (Hfilter : forall k,
                 count_occ string_dec
                   (filter (fun t => negb (String.eqb t "tip"))
                      (map fst ((tag, node) :: l))) k
                 = ((if string_dec tag k then 1 else 0)
                    + count_occ string_dec
                        (filter (fun t => negb (String.eqb t "tip"))
                           (map fst l)) k)%nat).
      { intro k. simpl.
        apply String.eqb_neq in Hne. rewrite Hne. simpl.
        destruct (string_dec tag k); reflexivity. }
      destruct Hcase as [[Hlt Hst] | [Hle Hst]]; injection Hst as -> ->.
      * split.
        { intros tag' node' [Heq|Hin] Hnt; [|apply Hall; assumption].
          injection Heq as <- <-.
          exists m, rev, cs. repeat split; try assumption; [|lia].
          intros _. apply Hib, in_or_app. right. left. reflexivity. }
        split; [exact Hgood|].
        split.
        { intros e He. destruct (Hbad e He) as [Hin|Hex]; [|tauto].
          apply in_app_or in Hin. destruct Hin as [Hin|[<-|[]]]; [tauto|].
          right. exists tag, cs, rev. tauto. }
        split; [exact Hig|].
        split; [intros e He; apply Hib, in_or_app; tauto|].
        intro k. rewrite Hcount, occurrences_snoc, Hkey, Hfilter. lia.
      * split.
        { intros tag' node' [Heq|Hin] Hnt; [|apply Hall; assumption].
          injection Heq as <- <-.
          exists m, rev, cs. repeat split; try assumption; [lia|].
          intros _. apply Hig, in_or_app. right. left. reflexivity. }
        split.
        { intros e He. destruct (Hgood e He) as [Hin|Hex]; [|tauto].
          apply in_app_or in Hin. destruct Hin as [Hin|[<-|[]]]; [tauto|].
          right. exists tag, cs, rev. tauto. }
        split; [exact Hbad|].
        split; [intros e He; apply Hig, in_or_app; tauto|].
        split; [exact Hib|].
        intro k. rewrite Hcount, occurrences_snoc, Hkey, Hfilter. lia.
Qed.

Lemma get_tags_loop (good bad : list row) :
  get_tags w repo marks_cache mapping_cache max = Ok (good, bad) ->
  exists good0 bad0,
    rfold (tag_step w repo marks_cache mapping_cache max) (tagslist repo)
      ([], []) = Ok (good0, bad0)
    /\ Permutation good0 good /\ Permutation bad0 bad.
Proof.
  unfold get_tags. intro H.
  destruct (rfold (tag_step w repo marks_cache mapping_cache max)
              (tagslist repo) ([], [])) as [[good0 bad0]|];
    cbn [rbind] in H; [|discriminate].
  destruct (py_sort good0) as [g|] eqn:Eg; cbn [rbind] in H; [|discriminate].
  destruct (py_sort bad0) as [b|] eqn:Eb; cbn [rbind] in H; [|discriminate].
  injection H as <- <-.
  exists good0, bad0. split; [reflexivity|].
  split; apply py_sort_perm; assumption.
Qed.

(** Each tag other than [tip] has as many rows in [good] and [bad] together
    as it has entries in the list of tags. *)
Lemma get_tags_count (good bad : list row)
    (t : bytes) :
  get_tags w repo marks_cache mapping_cache max = Ok (good, bad) ->
  (occurrences t good + occurrences t bad
   = count_occ string_dec (tag_names repo) t)%nat.
Proof.
  intro Hrun.
  destruct (get_tags_loop _ _ Hrun) as (good0 & bad0 & Hloop & Pg & Pb).
  destruct (tag_loop _ _ _ _ _ Hloop) as (_ & _ & _ & _ & _ & Hcount).
  rewrite <- (occurrences_perm t _ _ Pg), <- (occurrences_perm t _ _ Pb).
  rewrite Hcount. reflexivity.
Qed.

Lemma tag_loop_total (l : list (bytes * Node)) :
  (forall tag node, In (tag, node) l -> tag <> "tip" ->
     exists m rev cs,
       Dict.get String.eqb (hexlify node) mapping_cache = Some m
       /\ py_int (data m) = Ok rev
       /\ get_changeset w repo (RevNum rev) = Ok cs) ->
  forall st, exists st',
    rfold (tag_step w repo marks_cache mapping_cache max) l st = Ok st'.
Proof.
  induction l as [|[tag node] l IH]; intros Hres st; cbn [rfold].
  - eexists. reflexivity.
  - assert (Hstep : exists st1,
               tag_step w repo marks_cache mapping_cache max st (tag, node)
               = Ok st1).
    { destruct st as [good bad]. unfold tag_step.
      destruct (String.eqb tag "tip") eqn:Etip; [eexists; reflexivity|].
      apply String.eqb_neq in Etip.
      destruct (Hres tag node (or_introl eq_refl) Etip)
        as (m & rev & cs & Hm & Hrev & Hcs).
      unfold Dict.lookup. rewrite Hm. cbn [rbind]. rewrite Hrev. cbn [rbind].
      rewrite Hcs. cbn [rbind].
      destruct (rev >? max); eexists; reflexivity. }
    destruct Hstep as [st1 ->]. cbn [rbind].
    apply IH. intros tag' node' Hin. apply Hres. right. exact Hin.
Qed.

(** [get_tags] returns when every tag other than [tip] has its changeset
    in [mapping_cache] under a number that [get_changeset] accepts, the
    names in the list of tags being distinct. *)
Lemma get_tags_returns :
  (forall tag node, In (tag, node) (tagslist repo) -> tag <> "tip" ->
     exists m rev cs,
       Dict.get String.eqb (hexlify node) mapping_cache = Some m
       /\ py_int (data m) = Ok rev
       /\ get_changeset w repo (RevNum rev) = Ok cs) ->
  NoDup (map fst (tagslist repo)) ->
  exists good bad,
    get_tags w repo marks_cache mapping_cache max = Ok (good, bad).
Proof.
  intros Hres Hnames.
  destruct (tag_loop_total _ Hres ([], []))
    as [[good0 bad0] Hloop].
  destruct (tag_loop _ _ _ _ _ Hloop)
    as (_ & Hgood & Hbad & _ & _ & Hcount).
  assert (Hone : forall k,
             (occurrences k good0 + occurrences k bad0 <= 1)%nat).
  { intro k. rewrite Hcount. cbn [occurrences map count_occ plus].
    apply NoDup_count_occ. apply NoDup_filter. exact Hnames. }
  assert (Hng : forall r, In r good0 -> exists k, row_key r = VBytes k).
  { intros r Hr. destruct (Hgood r Hr) as [[]|(tag & cs & rev & -> & _)].
    exists tag. reflexivity. }
  assert (Hnb : forall r, In r bad0 -> exists k, row_key r = VBytes k).
  { intros r Hr. destruct (Hbad r Hr) as [[]|(tag & cs & rev & -> & _)].
    exists tag. reflexivity. }
  destruct (py_sort_total good0 Hng) as [good Hsg].
  { apply rows_nodup; [exact Hng|]. intro k. specialize (Hone k). lia. }
  destruct (py_sort_total bad0 Hnb) as [bad Hsb].
  { apply rows_nodup; [exact Hnb|]. intro k. specialize (Hone k). lia. }
  exists good, bad. unfold get_tags.
  destruct (rfold (tag_step w repo marks_cache mapping_cache max)
              (tagslist repo) ([], [])) as [[g b]|]; [|discriminate].
  injection Hloop as -> ->. cbn [rbind].
  rewrite Hsg. cbn [rbind]. rewrite Hsb. reflexivity.
Qed.

(** C3.  [get_tags] returns when every tag other than [tip] has its
    changeset in [mapping_cache] and its changeset can be read, the names
    of the tags being distinct.  Whenever it returns, a tag other than
    [tip] has its revision in [mapping_cache], and the row of the tag is in
    [bad] exactly when that revision is above [max] and in [good] exactly
    when it is not. *)
Theorem get_tags_classification (tag : bytes) (node : Node)
    (Hin : In (tag, node) (tagslist repo))
    (Htip : tag <> "tip") :
  ((forall tag' node', In (tag', node') (tagslist repo) -> tag' <> "tip" ->
      exists m rev cs,
        Dict.get String.eqb (hexlify node') mapping_cache = Some m
        /\ py_int (data m) = Ok rev
        /\ get_changeset w repo (RevNum rev) = Ok cs) ->
   NoDup (map fst (tagslist repo)) ->
   exists good bad,
     get_tags w repo marks_cache mapping_cache max = Ok (good, bad))
  /\ (forall good bad,
        get_tags w repo marks_cache mapping_cache max = Ok (good, bad) ->
        exists m rev cs,
          Dict.get String.eqb (hexlify node) mapping_cache = Some m
          /\ py_int (data m) = Ok rev
          /\ get_changeset w repo (RevNum rev) = Ok cs
          /\ (In (tag_entry marks_cache tag cs rev) bad <-> max < rev)
          /\ (In (tag_entry marks_cache tag cs rev) good <-> rev <= max)).
Proof.
  split; [apply get_tags_returns|].
  intros good bad Hrun.
  destruct (get_tags_loop _ _ Hrun) as (good0 & bad0 & Hloop & Pg & Pb).
  destruct (tag_loop _ _ _ _ _ Hloop)
    as (Hall & Hgood & Hbad & _ & _ & _).
  destruct (Hall tag node Hin Htip)
    as (m & rev & cs & Hm & Hrev & Hcs & Hb & Hg).
  exists m, rev, cs. repeat split; try assumption.
  - intro He. apply (Permutation_in _ (Permutation_sym Pb)) in He.
    destruct (Hbad _ He) as [[]|(tag' & cs' & rev' & Heq & Hlt)].
    apply tag_entry_rev in Heq. lia.
  - intro Hlt. apply (Permutation_in _ Pb), Hb, Hlt.
  - intro He. apply (Permutation_in _ (Permutation_sym Pg)) in He.
    destruct (Hgood _ He) as [[]|(tag' & cs' & rev' & Heq & Hle)].
    apply tag_entry_rev in Heq. lia.
  - intro Hle. apply (Permutation_in _ Pg), Hg, Hle.
Qed.

(** *** The branch classifier *)

(** The test [git_sha1 is cache_sha1] compares addresses. *)
Lemma py_is_objects (a b : obj) :
  py_is (Some a) (Some b) = true <-> addr a = addr b.
Proof. simpl. apply Pos.eqb_eq. Qed.

(** What one iteration of the loop of [get_branches] does when it does not
    raise: the branch of the head leaves [stale], and the row of the head
    goes to [unchanged] when [get_git_sha1] answers with the very object
    the marks cache holds, to [changed] otherwise. *)
Lemma branch_step_ok (stale : bdict pyval) (changed unchanged : list row)
    (n : Node)
    (rev : bytes) (st' : branch_state) :
  branch_step w repo marks_cache (stale, changed, unchanged) (n, rev)
  = Ok st' ->
  exists cs z,
    get_changeset w repo (RevText rev) = Ok cs
    /\ In (cs_branch cs) (Dict.keys stale)
    /\ py_int rev = Ok z
    /\ st' =
       if negb (py_is (get_git_sha1 w (cs_branch cs)) None)
          && py_is (get_git_sha1 w (cs_branch cs))
               (Dict.get String.eqb (fmt_d (z + 1)) marks_cache)
       then (Dict.remove String.eqb (cs_branch cs) stale, changed,
             unchanged ++ [branch_entry marks_cache cs rev z])
       else (Dict.remove String.eqb (cs_branch cs) stale,
             changed ++ [branch_entry marks_cache cs rev z], unchanged).
Proof.
  unfold branch_step. intro H.
  destruct (get_changeset w repo (RevText rev)) as [cs|]; cbn [rbind] in H;
    [|discriminate].
  unfold Dict.del in H.
  destruct (Dict.mem String.eqb (cs_branch cs) stale) eqn:Hmem;
    cbn [rbind] in H; [|discriminate].
  destruct (py_int rev) as [z|]; cbn [rbind] in H; [|discriminate].
  exists cs, z.
  split; [reflexivity|].
  split; [apply (dict_mem_iff String.eqb string_eqb_spec), Hmem|].
  split; [reflexivity|].
  fold (branch_entry marks_cache cs rev z) in H.
  destruct (negb _ && _); injection H as <-; reflexivity.
Qed.

Lemma branch_entry_key (cs : changeset)
    (rev : bytes) (z : Z) (k : bytes) :
  (if pyval_eq_dec (row_key (branch_entry marks_cache cs rev z)) (VBytes k)
   then 1 else 0)%nat
  = if string_dec (cs_branch cs) k then 1%nat else 0%nat.
Proof.
  unfold row_key, branch_entry. cbn [nth].
  destruct (pyval_eq_dec (VBytes (cs_branch cs)) (VBytes k));
    destruct (string_dec (cs_branch cs) k); congruence.
Qed.

(** The loop of [get_branches] keeps, for every name, the number of its
    appearances in the three collections together. *)
Lemma branch_loop (l : list (Node * bytes)) :
  forall stale0 changed0 unchanged0 stale changed unchanged,
    rfold (branch_step w repo marks_cache) l (stale0, changed0, unchanged0)
    = Ok (stale, changed, unchanged) ->
    NoDup (Dict.keys stale0) ->
    NoDup (Dict.keys stale)
    /\ forall k,
         (key_count k stale + occurrences k changed + occurrences k unchanged
          = key_count k stale0 + occurrences k changed0
            + occurrences k unchanged0)%nat.
Proof.
  induction l as [|[n rev] l IH];
    intros stale0 changed0 unchanged0 stale changed unchanged H Hnd;
    cbn [rfold] in H.
  - injection H as <- <- <-. split; [exact Hnd | reflexivity].
  - destruct (branch_step w repo marks_cache (stale0, changed0, unchanged0)
                (n, rev)) as [[[stale1 changed1] unchanged1]|] eqn:Estep;
      cbn [rbind] in H; [|discriminate].
    apply branch_step_ok in Estep.
    destruct Estep as (cs & z & _ & Hin & _ & Hst).
    assert (Hkeys : forall k,
               (key_count k (Dict.remove String.eqb (cs_branch cs) stale0)
                + (if string_dec (cs_branch cs) k then 1 else 0)
                = key_count k stale0)%nat).
    { intro k. destruct (string_dec (cs_branch cs) k) as [<-|Hne].
      - rewrite key_count_remove_same, (key_count_nodup _ _ Hnd Hin).
        reflexivity.
      - rewrite key_count_remove_other by congruence. lia. }
    pose proof (dict_nodup_remove String.eqb string_eqb_spec (cs_branch cs)
                  stale0 Hnd) as Hnd1.
    destruct (negb _ && _); injection Hst as -> -> ->;
      destruct (IH _ _ _ _ _ _ H Hnd1) as [Hnd' Hcount];
      (split; [exact Hnd'|]);
      intro k; rewrite Hcount, occurrences_snoc, branch_entry_key;
      specialize (Hkeys k); lia.
Qed.

Lemma get_branches_loop (stale : bdict pyval) (changed unchanged : list row) :
  get_branches w repo heads_cache marks_cache mapping_cache max
  = Ok (stale, changed, unchanged) ->
  exists changed0 unchanged0,
    rfold (branch_step w repo marks_cache) (heads repo None None (Some max))
      (Dict.fromkeys String.eqb (Dict.keys heads_cache) VNone, [], [])
    = Ok (stale, changed0, unchanged0)
    /\ Permutation changed0 changed /\ Permutation unchanged0 unchanged.
Proof.
  unfold get_branches. intro H.
  destruct (rfold (branch_step w repo marks_cache)
              (heads repo None None (Some max))
              (Dict.fromkeys String.eqb (Dict.keys heads_cache) VNone, [], []))
    as [[[stale0 changed0] unchanged0]|]; cbn [rbind] in H; [|discriminate].
  destruct (py_sort changed0) as [c|] eqn:Ec; cbn [rbind] in H; [|discriminate].
  destruct (py_sort unchanged0) as [u|] eqn:Eu; cbn [rbind] in H;
    [|discriminate].
  injection H as <- <- <-.
  exists changed0, unchanged0. split; [reflexivity|].
  split; apply py_sort_perm; assumption.
Qed.

(** Every branch name of [heads_cache] has one appearance in the three
    collections [get_branches] returns. *)
Lemma get_branches_count (stale : bdict pyval)
    (changed unchanged : list row) (b : bytes) :
  get_branches w repo heads_cache marks_cache mapping_cache max
  = Ok (stale, changed, unchanged) ->
  In b (Dict.keys heads_cache) ->
  (key_count b stale + occurrences b changed + occurrences b unchanged
   = 1)%nat.
Proof.
  intros Hrun Hb.
  destruct (get_branches_loop _ _ _ Hrun)
    as (changed0 & unchanged0 & Hloop & Pc & Pu).
  pose proof (dict_nodup_fromkeys String.eqb string_eqb_spec
                (Dict.keys heads_cache) VNone) as Hnd.
  destruct (branch_loop _ _ _ _ _ _ _ Hloop Hnd) as [_ Hcount].
  rewrite <- (occurrences_perm b _ _ Pc), <- (occurrences_perm b _ _ Pu).
  rewrite Hcount.
  rewrite (key_count_nodup _ _ Hnd).
  - reflexivity.
  - apply (dict_keys_fromkeys String.eqb string_eqb_spec). exact Hb.
Qed.

(** C4.  After a pass in which both classifiers return: every branch name
    of [heads_cache] appears once in [stale], [changed] and [unchanged]
    together; and, the names in the list of tags being distinct, every tag
    other than [tip] appears once in [good] and [bad] together. *)
Theorem classification_complete (stale : bdict pyval)
    (changed unchanged good bad : list row)
    (Hbranches : get_branches w repo heads_cache marks_cache mapping_cache max
                 = Ok (stale, changed, unchanged))
    (Htags : get_tags w repo marks_cache mapping_cache max = Ok (good, bad))
    (Hnames : NoDup (map fst (tagslist repo))) :
  (forall b, In b (Dict.keys heads_cache) ->
     (key_count b stale + occurrences b changed + occurrences b unchanged
      = 1)%nat)
  /\ (forall t, In t (map fst (tagslist repo)) -> t <> "tip" ->
        (occurrences t good + occurrences t bad = 1)%nat).
Proof.
  split.
  - intros b Hb. apply (get_branches_count _ _ _ _ Hbranches Hb).
  - intros t Ht Htip.
    rewrite (get_tags_count _ _ t Htags).
    apply NoDup_count_occ'.
    + unfold tag_names. apply NoDup_filter. exact Hnames.
    + unfold tag_names. apply filter_In. split; [exact Ht|].
      apply String.eqb_neq in Htip. rewrite Htip. reflexivity.
Qed.

(** A head whose branch is not a key of [stale] ends the loop of
    [get_branches] with an exception, which is [KeyError] when the lookup
    of the changeset and the conversion of the revision succeed for every
    head. *)
Lemma branch_loop_unknown (l : list (Node * bytes)) :
  forall (stale : bdict pyval) (changed unchanged : list row),
    (exists n rev cs,
        In (n, rev) l
        /\ get_changeset w repo (RevText rev) = Ok cs
        /\ ~ In (cs_branch cs) (Dict.keys stale)) ->
    (forall st',
        rfold (branch_step w repo marks_cache) l (stale, changed, unchanged)
        <> Ok st')
    /\ ((forall n rev, In (n, rev) l ->
           (exists cs, get_changeset w repo (RevText rev) = Ok cs)
           /\ (exists z, py_int rev = Ok z)) ->
        rfold (branch_step w repo marks_cache) l (stale, changed, unchanged)
        = Err KeyError).
Proof.
  induction l as [|[n0 rev0] l IH]; intros stale changed unchanged
    (n & rev & cs & Hin & Hcs & Hnew); [destruct Hin|].
  cbn [rfold].
  assert (Hnext : forall (stale1 : bdict pyval) cs0,
             get_changeset w repo (RevText rev0) = Ok cs0 ->
             In (cs_branch cs0) (Dict.keys stale) ->
             stale1 = Dict.remove String.eqb (cs_branch cs0) stale ->
             exists n rev cs,
               In (n, rev) l
               /\ get_changeset w repo (RevText rev) = Ok cs
               /\ ~ In (cs_branch cs) (Dict.keys stale1)).
  { intros stale1 cs0 Hcs0 Hin0 ->.
    destruct Hin as [Heq|Hin].
    - injection Heq as <- <-. congruence.
    - exists n, rev, cs. repeat split; try assumption.
      rewrite (dict_keys_remove String.eqb string_eqb_spec). tauto. }
  split.
  - intros st' Hrun.
    destruct (branch_step w repo marks_cache (stale, changed, unchanged)
                (n0, rev0)) as [[[stale1 changed1] unchanged1]|] eqn:Estep;
      cbn [rbind] in Hrun; [|discriminate].
    apply branch_step_ok in Estep.
    destruct Estep as (cs0 & z & Hcs0 & Hin0 & _ & Hst).
    assert (Hstale : stale1 = Dict.remove String.eqb (cs_branch cs0) stale)
      by (destruct (negb _ && _); congruence).
    destruct (IH stale1 changed1 unchanged1
                (Hnext _ _ Hcs0 Hin0 Hstale)) as [Hno _].
    apply (Hno st' Hrun).
  - intro Hall.
    destruct (Hall n0 rev0 (or_introl eq_refl)) as [[cs0 Hcs0] [z Hz]].
    unfold branch_step at 1. rewrite Hcs0. cbn [rbind]. unfold Dict.del.
    destruct (Dict.mem String.eqb (cs_branch cs0) stale) eqn:Hmem;
      cbn [rbind]; [|reflexivity].
    apply (dict_mem_iff String.eqb string_eqb_spec) in Hmem.
    rewrite Hz. cbn [rbind].
    destruct (negb _ && _); cbn [rbind];
      (eapply IH;
       [ eapply Hnext; [exact Hcs0 | exact Hmem | reflexivity]
       | intros n' rev' Hin'; apply (Hall n' rev'); right; exact Hin' ]).
Qed.

(** C9.  When [heads] returns a head whose branch is not a key of
    [heads_cache], [get_branches] returns no classification; the exception
    is the [KeyError] of the deletion from [stale] when the changeset of
    every head can be read. *)
Theorem get_branches_unknown_branch (n : Node) (rev : bytes) (cs : changeset)
    (Hhead : In (n, rev) (heads repo None None (Some max)))
    (Hcs : get_changeset w repo (RevText rev) = Ok cs)
    (Hnew : ~ In (cs_branch cs) (Dict.keys heads_cache)) :
  (forall res,
      get_branches w repo heads_cache marks_cache mapping_cache max <> Ok res)
  /\ ((forall n' rev', In (n', rev') (heads repo None None (Some max)) ->
         exists cs', get_changeset w repo (RevText rev') = Ok cs') ->
      get_branches w repo heads_cache marks_cache mapping_cache max
      = Err KeyError).
Proof.
  assert (Hoff : exists n rev cs,
             In (n, rev) (heads repo None None (Some max))
             /\ get_changeset w repo (RevText rev) = Ok cs
             /\ ~ In (cs_branch cs)
                  (Dict.keys
                     (Dict.fromkeys String.eqb (Dict.keys heads_cache)
                        (VNone : pyval)))).
  { exists n, rev, cs. repeat split; try assumption.
    rewrite (dict_keys_fromkeys String.eqb string_eqb_spec). exact Hnew. }
  destruct (branch_loop_unknown _ _ [] [] Hoff)
    as [Hno Hkey].
  unfold get_branches. cbv zeta.
  split.
  - intros res Hrun.
    destruct (rfold (branch_step w repo marks_cache)
                (heads repo None None (Some max))
                (Dict.fromkeys String.eqb (Dict.keys heads_cache) VNone,
                 [], [])) as [st|] eqn:E; cbn [rbind] in Hrun;
      [|discriminate].
    apply (Hno st). exact E.
  - intro Hall.
    assert (Hk : rfold (branch_step w repo marks_cache)
                   (heads repo None None (Some max))
                   (Dict.fromkeys String.eqb (Dict.keys heads_cache) VNone,
                    [], []) = Err KeyError).
    { apply Hkey. intros n' rev' Hin'. split; [apply (Hall n' rev' Hin')|].
      destruct (heads_entry _ _ _ _ _ _ Hin') as (r & _ & _ & Hr & _).
      exists r. exact Hr. }
    destruct (rfold (branch_step w repo marks_cache)
                (heads repo None None (Some max))
                (Dict.fromkeys String.eqb (Dict.keys heads_cache) VNone,
                 [], [])) as [st|e]; cbn [rbind]; [discriminate | exact Hk].
Qed.

(** The loop of [get_branches] puts the row of every head into [unchanged]
    when the identity test holds and into [changed] when it does not. *)
Lemma branch_loop_class (l : list (Node * bytes)) :
  forall stale0 changed0 unchanged0 stale changed unchanged,
    rfold (branch_step w repo marks_cache) l (stale0, changed0, unchanged0)
    = Ok (stale, changed, unchanged) ->
    incl changed0 changed /\ incl unchanged0 unchanged
    /\ forall n rev, In (n, rev) l ->
         exists cs z,
           get_changeset w repo (RevText rev) = Ok cs
           /\ py_int rev = Ok z
           /\ In (branch_entry marks_cache cs rev z)
                (if negb (py_is (get_git_sha1 w (cs_branch cs)) None)
                    && py_is (get_git_sha1 w (cs_branch cs))
                         (Dict.get String.eqb (fmt_d (z + 1)) marks_cache)
                 then unchanged else changed).
Proof.
  induction l as [|[n0 rev0] l IH];
    intros stale0 changed0 unchanged0 stale changed unchanged H;
    cbn [rfold] in H.
  - injection H as <- <- <-.
    split; [apply incl_refl|]. split; [apply incl_refl|].
    intros n rev [].
  - destruct (branch_step w repo marks_cache (stale0, changed0, unchanged0)
                (n0, rev0)) as [[[stale1 changed1] unchanged1]|] eqn:Estep;
      cbn [rbind] in H; [|discriminate].
    destruct (IH _ _ _ _ _ _ H) as (Hic & Hiu & Hall).
    apply branch_step_ok in Estep.
    destruct Estep as (cs & z & Hcs & _ & Hz & Hst).
    assert (Hmono : incl changed0 changed1 /\ incl unchanged0 unchanged1).
    { destruct (negb _ && _); injection Hst as -> -> ->;
        split; try apply incl_refl; apply incl_appl, incl_refl. }
    destruct Hmono as [Hc01 Hu01].
    split; [eapply incl_tran; eassumption|].
    split; [eapply incl_tran; eassumption|].
    intros n rev [Heq|Hin]; [|apply (Hall n rev Hin)].
    injection Heq as <- <-.
    exists cs, z. split; [exact Hcs|]. split; [exact Hz|].
    destruct (negb _ && _); injection Hst as -> -> ->;
      [apply Hiu | apply Hic]; apply in_or_app; right; left; reflexivity.
Qed.

(** The classification [get_branches] returns for a head: [unchanged] when
    [get_git_sha1] gives an object and that object is, by address, the one
    of the marks cache under the key [int(rev) + 1]; [changed] in every
    other case, equal content included. *)
Lemma get_branches_head_class (stale : bdict pyval)
    (changed unchanged : list row)
    (n : Node) (rev : bytes) :
  get_branches w repo heads_cache marks_cache mapping_cache max
  = Ok (stale, changed, unchanged) ->
  In (n, rev) (heads repo None None (Some max)) ->
  exists cs z,
    get_changeset w repo (RevText rev) = Ok cs
    /\ py_int rev = Ok z
    /\ In (branch_entry marks_cache cs rev z)
         (if negb (py_is (get_git_sha1 w (cs_branch cs)) None)
             && py_is (get_git_sha1 w (cs_branch cs))
                  (Dict.get String.eqb (fmt_d (z + 1)) marks_cache)
          then unchanged else changed).
Proof.
  intros Hrun Hin.
  destruct (get_branches_loop _ _ _ Hrun)
    as (changed0 & unchanged0 & Hloop & Pc & Pu).
  destruct (branch_loop_class _ _ _ _ _ _ _ Hloop) as (_ & _ & Hall).
  destruct (Hall n rev Hin) as (cs & z & Hcs & Hz & He).
  exists cs, z. split; [exact Hcs|]. split; [exact Hz|].
  destruct (negb _ && _);
    [apply (Permutation_in _ Pu) | apply (Permutation_in _ Pc)]; exact He.
Qed.

Lemma branch_loop_total (l : list (Node * bytes)) :
  NoDup (map snd l) ->
  (forall n1 rev1 n2 rev2 cs1 cs2,
      In (n1, rev1) l -> In (n2, rev2) l ->
      get_changeset w repo (RevText rev1) = Ok cs1 ->
      get_changeset w repo (RevText rev2) = Ok cs2 ->
      cs_branch cs1 = cs_branch cs2 -> rev1 = rev2) ->
  forall (stale : bdict pyval) (changed unchanged : list row),
    (forall n rev, In (n, rev) l ->
       exists cs z,
         get_changeset w repo (RevText rev) = Ok cs
         /\ py_int rev = Ok z
         /\ In (cs_branch cs) (Dict.keys stale)) ->
    exists st',
      rfold (branch_step w repo marks_cache) l (stale, changed, unchanged)
      = Ok st'.
Proof.
  induction l as [|[n0 rev0] l IH]; intros Hnd Hdist stale changed unchanged
    Hall; cbn [rfold].
  - eexists. reflexivity.
  - cbn [map snd] in Hnd. inversion Hnd as [|? ? Hnot Hnd']; subst.
    destruct (Hall n0 rev0 (or_introl eq_refl))
      as (cs0 & z0 & Hcs0 & Hz0 & Hin0).
    assert (Hrest : forall n rev, In (n, rev) l ->
               exists cs z,
                 get_changeset w repo (RevText rev) = Ok cs
                 /\ py_int rev = Ok z
                 /\ In (cs_branch cs)
                      (Dict.keys
                         (Dict.remove String.eqb (cs_branch cs0) stale))).
    { intros n rev Hin.
      destruct (Hall n rev (or_intror Hin)) as (cs & z & Hcs & Hz & Hb).
      exists cs, z. split; [exact Hcs|]. split; [exact Hz|].
      apply (dict_keys_remove String.eqb string_eqb_spec). split; [exact Hb|].
      intro Heq. apply Hnot.
      rewrite <- (Hdist n rev n0 rev0 cs cs0 (or_intror Hin)
                    (or_introl eq_refl) Hcs Hcs0 Heq).
      apply (in_map snd) in Hin. exact Hin. }
    assert (Hdist' : forall n1 rev1 n2 rev2 cs1 cs2,
               In (n1, rev1) l -> In (n2, rev2) l ->
               get_changeset w repo (RevText rev1) = Ok cs1 ->
               get_changeset w repo (RevText rev2) = Ok cs2 ->
               cs_branch cs1 = cs_branch cs2 -> rev1 = rev2).
    { intros n1 rev1 n2 rev2 cs1 cs2 H1 H2.
      apply (Hdist n1 rev1 n2 rev2); right; assumption. }
    unfold branch_step at 1. rewrite Hcs0. cbn [rbind]. unfold Dict.del.
    apply (dict_mem_iff String.eqb string_eqb_spec) in Hin0. rewrite Hin0.
    cbn [rbind]. rewrite Hz0. cbn [rbind].
    destruct (negb _ && _); cbn [rbind]; apply (IH Hnd' Hdist'); exact Hrest.
Qed.

Lemma branch_loop_named (l : list (Node * bytes)) (stale0 : bdict pyval)
    (st : branch_state) :
  rfold (branch_step w repo marks_cache) l (stale0, [], []) = Ok st ->
  forall r, In r (snd (fst st)) \/ In r (snd st) ->
            exists k, row_key r = VBytes k.
Proof.
  intro Hrun.
  apply (rfold_invariant
           (fun st : branch_state =>
              forall r, In r (snd (fst st)) \/ In r (snd st) ->
                        exists k, row_key r = VBytes k)
           _ _ _ _ Hrun).
  - cbn [fst snd]. intros r [[]|[]].
  - intros [[stale changed] unchanged] [n rev] st' _ Hst Hstep.
    apply branch_step_ok in Hstep.
    destruct Hstep as (cs & z & _ & _ & _ & ->).
    cbn [fst snd] in Hst.
    destruct (negb _ && _); cbn [fst snd]; intros r [Hr|Hr];
      try (apply Hst; tauto);
      (apply in_app_or in Hr; destruct Hr as [Hr|[<-|[]]];
       [apply Hst; tauto | exists (cs_branch cs); reflexivity]).
Qed.

(** [get_branches] returns when the changeset of every head can be read,
    the branches of the heads are keys of [heads_cache], and no two heads
    are on the same branch. *)
Lemma get_branches_returns :
  (forall n rev, In (n, rev) (heads repo None None (Some max)) ->
     exists cs,
       get_changeset w repo (RevText rev) = Ok cs
       /\ In (cs_branch cs) (Dict.keys heads_cache)) ->
  (forall n1 rev1 n2 rev2 cs1 cs2,
      In (n1, rev1) (heads repo None None (Some max)) ->
      In (n2, rev2) (heads repo None None (Some max)) ->
      get_changeset w repo (RevText rev1) = Ok cs1 ->
      get_changeset w repo (RevText rev2) = Ok cs2 ->
      cs_branch cs1 = cs_branch cs2 -> rev1 = rev2) ->
  exists stale changed unchanged,
    get_branches w repo heads_cache marks_cache mapping_cache max
    = Ok (stale, changed, unchanged).
Proof.
  intros Hcs Hdist.
  pose proof (dict_nodup_fromkeys String.eqb string_eqb_spec
                (Dict.keys heads_cache) (VNone : pyval)) as Hnd.
  destruct (branch_loop_total
              (heads repo None None (Some max))
              (heads_nodup repo None None (Some max)) Hdist
              (Dict.fromkeys String.eqb (Dict.keys heads_cache) VNone) [] [])
    as [[[stale changed0] unchanged0] Hloop].
  { intros n rev Hin. destruct (Hcs n rev Hin) as (cs & Hc & Hb).
    destruct (heads_entry _ _ _ _ _ _ Hin) as (z & _ & _ & Hz & _).
    exists cs, z. split; [exact Hc|]. split; [exact Hz|].
    apply (dict_keys_fromkeys String.eqb string_eqb_spec). exact Hb. }
  destruct (branch_loop _ _ _ _ _ _ _ Hloop Hnd) as [_ Hcount].
  pose proof (branch_loop_named _ _ _ Hloop) as Hnamed.
  cbn [fst snd] in Hnamed.
  assert (Hone : forall k,
             (occurrences k changed0 + occurrences k unchanged0 <= 1)%nat).
  { intro k. specialize (Hcount k).
    cbn [occurrences map count_occ] in Hcount.
    assert (key_count k (Dict.fromkeys String.eqb (Dict.keys heads_cache)
                           (VNone : pyval)) <= 1)%nat
      by (apply NoDup_count_occ, Hnd).
    lia. }
  destruct (py_sort_total changed0) as [changed Hsc].
  { intros r Hr. apply Hnamed. left. exact Hr. }
  { apply rows_nodup; [intros r Hr; apply Hnamed; left; exact Hr|].
    intro k. specialize (Hone k). lia. }
  destruct (py_sort_total unchanged0) as [unchanged Hsu].
  { intros r Hr. apply Hnamed. right. exact Hr. }
  { apply rows_nodup; [intros r Hr; apply Hnamed; right; exact Hr|].
    intro k. specialize (Hone k). lia. }
  exists stale, changed, unchanged. unfold get_branches. cbv zeta.
  destruct (rfold (branch_step w repo marks_cache)
              (heads repo None None (Some max))
              (Dict.fromkeys String.eqb (Dict.keys heads_cache) VNone, [], []))
    as [[[s c] u]|e] eqn:E.
  - assert (Heq : Ok (s, c, u) = Ok (stale, changed0, unchanged0))
      by exact (eq_trans (eq_sym E) Hloop).
    injection Heq as -> -> ->. cbn [rbind].
    rewrite Hsc. cbn [rbind]. rewrite Hsu. reflexivity.
  - assert (Heq : Err e = Ok (stale, changed0, unchanged0))
      by exact (eq_trans (eq_sym E) Hloop).
    discriminate Heq.
Qed.

End Classifier.

(** ** The classifiers on the sample repository *)

(** The tag [release] sits on revision 10: [get_tags] returns, and with
    [max = 6] the row of the tag is in [bad], with [max = 11] in [good]. *)
Lemma get_tags_classification_witness :
  (exists good bad,
     get_tags Sample.world Sample.tagged Sample.marks_cache
       Sample.mapping_cache 6 = Ok (good, bad))
  /\ (exists m rev cs,
        Dict.get String.eqb (hexlify (Sample.node_of 10)) Sample.mapping_cache
        = Some m
        /\ py_int (data m) = Ok rev
        /\ get_changeset Sample.world Sample.tagged (RevNum rev) = Ok cs
        /\ (In (tag_entry Sample.marks_cache "release" cs rev)
              [tag_entry Sample.marks_cache "release"
                 (Sample.changeset_of 10) 10]
            <-> 6 < rev)
        /\ (In (tag_entry Sample.marks_cache "release" cs rev) []
            <-> rev <= 6))
  /\ (exists m rev cs,
        Dict.get String.eqb (hexlify (Sample.node_of 10)) Sample.mapping_cache
        = Some m
        /\ py_int (data m) = Ok rev
        /\ get_changeset Sample.world Sample.tagged (RevNum rev) = Ok cs
        /\ (In (tag_entry Sample.marks_cache "release" cs rev) []
            <-> 11 < rev)
        /\ (In (tag_entry Sample.marks_cache "release" cs rev)
              [tag_entry Sample.marks_cache "release"
                 (Sample.changeset_of 10) 10]
            <-> rev <= 11)).
Proof.
  assert (Hin : In ("release", Sample.node_of 10) (tagslist Sample.tagged))
    by (simpl; left; reflexivity).
  assert (Htip : "release" <> "tip") by discriminate.
  destruct (get_tags_classification Sample.world Sample.tagged
              Sample.marks_cache Sample.mapping_cache 6
              "release" (Sample.node_of 10) Hin Htip) as [Hret Hclass6].
  destruct (get_tags_classification Sample.world Sample.tagged
              Sample.marks_cache Sample.mapping_cache 11
              "release" (Sample.node_of 10) Hin Htip) as [_ Hclass11].
  split; [|split].
  - apply Hret.
    + intros tag' node' [Heq|[Heq|[]]] Hnt; injection Heq as <- <-.
      * exists (mkobj 9 "10"), 10, (Sample.changeset_of 10).
        repeat split; reflexivity.
      * exfalso. apply Hnt. reflexivity.
    + simpl. repeat constructor; simpl; intuition discriminate.
  - apply Hclass6. reflexivity.
  - apply Hclass11. reflexivity.
Defined.

(** The scenario of C3 by evaluation. *)
Lemma get_tags_scenario :
  get_tags Sample.world Sample.tagged Sample.marks_cache Sample.mapping_cache 6
  = Ok ([], [[VBytes "release"; VBytes "default"; VNone; VInt 10;
              VBytes "change 10"; VBytes "alice"]])
  /\ get_tags Sample.world Sample.tagged Sample.marks_cache
       Sample.mapping_cache 11
     = Ok ([[VBytes "release"; VBytes "default"; VNone; VInt 10;
             VBytes "change 10"; VBytes "alice"]], []).
Proof. split; reflexivity. Qed.

Lemma classification_complete_witness :
  (forall b, In b (Dict.keys Sample.heads_cache) ->
     (key_count b [("old", VNone)]
      + occurrences b
          [branch_entry Sample.marks_cache (Sample.changeset_of 5) "5" 5]
      + occurrences b
          [branch_entry Sample.marks_cache (Sample.changeset_of 3) "3" 3]
      = 1)%nat)
  /\ (forall t, In t (map fst (tagslist Sample.repo)) -> t <> "tip" ->
        (occurrences t
           [tag_entry Sample.marks_cache "v1" (Sample.changeset_of 2) 2;
            tag_entry Sample.marks_cache "v2" (Sample.changeset_of 5) 5]
         + occurrences t [] = 1)%nat).
Proof.
  apply (classification_complete Sample.world Sample.repo Sample.heads_cache
           Sample.marks_cache Sample.mapping_cache 6).
  - reflexivity.
  - reflexivity.
  - simpl. repeat constructor; simpl; intuition discriminate.
Defined.

(** The heads cache knows [default] only; [heads] finds revision 5 on
    [feature]. *)
Lemma get_branches_unknown_branch_witness :
  (forall res,
      get_branches Sample.world Sample.repo [("default", mkobj 3 Sample.sha_a)]
        Sample.marks_cache Sample.mapping_cache 6 <> Ok res)
  /\ ((forall n' rev',
         In (n', rev') (heads Sample.repo None None (Some 6)) ->
         exists cs',
           get_changeset Sample.world Sample.repo (RevText rev') = Ok cs') ->
      get_branches Sample.world Sample.repo [("default", mkobj 3 Sample.sha_a)]
        Sample.marks_cache Sample.mapping_cache 6 = Err KeyError).
Proof.
  apply (get_branches_unknown_branch Sample.world Sample.repo
           [("default", mkobj 3 Sample.sha_a)] Sample.marks_cache
           Sample.mapping_cache 6 "n5" "5" (Sample.changeset_of 5)).
  - vm_compute. right. left. reflexivity.
  - reflexivity.
  - simpl. intuition discriminate.
Defined.

(** C2 fails on the code.  The branch [feature] has the identifier [sha_b]
    recorded, the marks cache holds an entry of the same content under the
    key 6 for the head of revision 5, and the two are different objects:
    the head is classified changed. *)
Theorem get_branches_equal_content_changed :
  get_git_sha1 Sample.world "feature" = Some (mkobj 20 Sample.sha_b)
  /\ Dict.get String.eqb (fmt_d (5 + 1)) Sample.marks_cache
     = Some (mkobj 2 Sample.sha_b)
  /\ In ("n5", "5") (heads Sample.repo None None (Some 6))
  /\ get_branches Sample.world Sample.repo Sample.heads_cache
       Sample.marks_cache Sample.mapping_cache 6
     = Ok ([("old", VNone)],
           [[VBytes "feature"; VBytes Sample.sha_b; VBytes "5";
             VBytes "change 5"; VBytes "alice"]],
           [[VBytes "default"; VBytes Sample.sha_a; VBytes "3";
             VBytes "change 3"; VBytes "alice"]]).
Proof.
  split; [reflexivity|]. split; [reflexivity|].
  split; [vm_compute; tauto | reflexivity].
Qed.

(** ** The driver *)

(** The marks 5 and 7 of the file are stored under the keys 4 and 6. *)
Example load_marks_sample :
  mangle_mark "5" = Ok "4"
  /\ load_cache Sample.world "marks" mangle_mark = Ok Sample.marks_cache.
Proof. split; reflexivity. Qed.

Lemma load_cache_plain (w : World) (filename : string) :
  exists cache, load_cache w filename Ok = Ok cache.
Proof.
  unfold load_cache.
  assert (H : forall (l : list (bytes * obj)) (acc : bdict obj),
             exists cache,
               rfold (fun cache kv =>
                        (k <- Ok (fst kv) ;;
                         Ok (Dict.set String.eqb k (snd kv) cache))%result)
                 l acc = Ok cache).
  { induction l as [|kv l IH]; intro acc; cbn [rfold rbind].
    - exists acc. reflexivity.
    - apply IH. }
  apply H.
Qed.

(** C7.  With all six options given and the caches loaded, a target
    revision whose successor exceeds the recorded [tip] makes the driver
    write one line to the error stream and exit with status 1, nothing
    having been written to the output stream. *)
Theorem main_revision_beyond_tip (w : World)
    (marks mapping hfile status url : string)
    (target tip : Z) (marks_cache state_cache : bdict obj) (v : obj)
    (Hmarks : load_cache w marks mangle_mark = Ok marks_cache)
    (Hstate : load_cache w status Ok = Ok state_cache)
    (Htip : Dict.get String.eqb "tip" state_cache = Some v)
    (Hint : py_int (data v) = Ok tip)
    (Hbeyond : target + 1 > tip) :
  run w (mkOptions (Some marks) (Some mapping) (Some hfile)
           (Some status) (Some url) (Some target))
  = (mkConsole []
       [cat ["Revision is beyond last revision imported: "; fmt_d target;
             ">"; fmt_d tip; nl]],
     Err (SystemExit 1)).
Proof.
  destruct (load_cache_plain w hfile) as [heads_cache Hheads].
  destruct (load_cache_plain w mapping) as [mapping_cache Hmapping].
  unfold run, main, required, io_bind, io_lift, io_ret.
  cbn [marksfile mappingfile headsfile statusfile repourl revision].
  rewrite Hheads, Hmarks, Hstate, Hmapping.
  unfold recorded_tip. rewrite Htip, Hint.
  replace (target + 1 >? tip) with true by (symmetry; apply Z.gtb_lt; lia).
  reflexivity.
Qed.

(** [--revision 100] against a recorded tip of 50. *)
Lemma main_revision_beyond_tip_witness :
  run Sample.world (Sample.options "status" 100)
  = (mkConsole []
       [cat ["Revision is beyond last revision imported: "; fmt_d 100;
             ">"; fmt_d 50; nl]],
     Err (SystemExit 1)).
Proof.
  apply (main_revision_beyond_tip Sample.world "marks" "mapping" "heads"
           "status" "repo" 100 50 Sample.marks_cache
           [("tip", mkobj 6 "50")] (mkobj 6 "50")).
  - reflexivity.
  - reflexivity.
  - reflexivity.
  - reflexivity.
  - lia.
Defined.

(** C10.  With all six options given and the caches loaded, a status cache
    without the key [tip] makes the driver compare the revision with
    itself: it writes the line to the error stream and exits with status 1,
    whatever the revision. *)
Theorem main_status_without_tip (w : World)
    (marks mapping hfile status url : string)
    (target : Z) (marks_cache state_cache : bdict obj)
    (Hmarks : load_cache w marks mangle_mark = Ok marks_cache)
    (Hstate : load_cache w status Ok = Ok state_cache)
    (Htip : Dict.get String.eqb "tip" state_cache = None) :
  recorded_tip state_cache target = Ok target
  /\ (target + 1 >? target) = true
  /\ run w (mkOptions (Some marks) (Some mapping) (Some hfile)
              (Some status) (Some url) (Some target))
     = (mkConsole []
          [cat ["Revision is beyond last revision imported: ";
                fmt_d target; ">"; fmt_d target; nl]],
        Err (SystemExit 1)).
Proof.
  assert (Hgt : (target + 1 >? target) = true) by (apply Z.gtb_lt; lia).
  split; [unfold recorded_tip; rewrite Htip; reflexivity|].
  split; [exact Hgt|].
  destruct (load_cache_plain w hfile) as [heads_cache Hheads].
  destruct (load_cache_plain w mapping) as [mapping_cache Hmapping].
  unfold run, main, required, io_bind, io_lift, io_ret.
  cbn [marksfile mappingfile headsfile statusfile repourl revision].
  rewrite Hheads, Hmarks, Hstate, Hmapping.
  unfold recorded_tip. rewrite Htip, Hgt.
  reflexivity.
Qed.

Lemma main_status_without_tip_witness :
  recorded_tip [("other", mkobj 6 "50")] 3 = Ok 3
  /\ (3 + 1 >? 3) = true
  /\ run Sample.world (Sample.options "status-without-tip" 3)
     = (mkConsole []
          [cat ["Revision is beyond last revision imported: "; fmt_d 3; ">";
                fmt_d 3; nl]],
        Err (SystemExit 1)).
Proof.
  apply (main_status_without_tip Sample.world "marks" "mapping" "heads"
           "status-without-tip" "repo" 3 Sample.marks_cache
           [("other", mkobj 6 "50")]).
  - reflexivity.
  - reflexivity.
  - reflexivity.
Defined.

Lemma missing_option_some (o : Options) :
  marksfile o = None \/ mappingfile o = None \/ headsfile o = None
  \/ statusfile o = None \/ repourl o = None \/ revision o = None ->
  exists opt,
    missing_option o = Some opt
    /\ In opt ["--marks option"; "--mapping option"; "--heads option";
               "--status option"; "--repo option"; "-R/--revision"].
Proof.
  intro H. unfold missing_option.
  destruct (marksfile o); [|eexists; split; [reflexivity | simpl; tauto]].
  destruct (mappingfile o); [|eexists; split; [reflexivity | simpl; tauto]].
  destruct (headsfile o); [|eexists; split; [reflexivity | simpl; tauto]].
  destruct (statusfile o); [|eexists; split; [reflexivity | simpl; tauto]].
  destruct (repourl o); [|eexists; split; [reflexivity | simpl; tauto]].
  destruct (revision o); [|eexists; split; [reflexivity | simpl; tauto]].
  exfalso. intuition discriminate.
Qed.

(** C8, as amended.  When one of the six options is not given, the driver
    writes the line naming the first missing one to the error stream,
    prints the help text of the parser to the output stream, and exits
    with status 2. *)
Theorem main_missing_option (w : World) (o : Options)
    (Hmissing : marksfile o = None \/ mappingfile o = None
                \/ headsfile o = None \/ statusfile o = None
                \/ repourl o = None \/ revision o = None) :
  exists opt,
    missing_option o = Some opt
    /\ run w o
       = (mkConsole [format_help w]
            [cat ["Error: No option "; opt; " given"; nl]],
          Err (SystemExit 2)).
Proof.
  destruct (missing_option_some o Hmissing) as (opt & Hopt & _).
  exists opt. split; [exact Hopt|].
  unfold missing_option in Hopt.
  unfold run, main, required, io_bind.
  destruct (marksfile o); [|injection Hopt as <-; reflexivity].
  destruct (mappingfile o); [|injection Hopt as <-; reflexivity].
  destruct (headsfile o); [|injection Hopt as <-; reflexivity].
  destruct (statusfile o); [|injection Hopt as <-; reflexivity].
  destruct (repourl o); [|injection Hopt as <-; reflexivity].
  destruct (revision o); [discriminate | injection Hopt as <-; reflexivity].
Qed.

Lemma main_missing_option_witness :
  exists opt,
    missing_option
      (mkOptions (Some "marks") None (Some "heads") None (Some "repo")
         (Some 3))
    = Some opt
    /\ run Sample.world
         (mkOptions (Some "marks") None (Some "heads") None (Some "repo")
            (Some 3))
       = (mkConsole [format_help Sample.world]
            [cat ["Error: No option "; opt; " given"; nl]],
          Err (SystemExit 2)).
Proof.
  apply (main_missing_option Sample.world
           (mkOptions (Some "marks") None (Some "heads") None (Some "repo")
              (Some 3))).
  simpl. right. left. reflexivity.
Defined.

(** C8, as stated, fails.  Without [--marks] the run ends with status 2,
    but the help text is written to the output stream; the error stream
    holds the line about the missing option and nothing else. *)
Lemma main_missing_option_counterexample :
  run Sample.world
    (mkOptions None (Some "mapping") (Some "heads") (Some "status")
       (Some "repo") (Some 3))
  = (mkConsole ["Usage: hg-reset.py [options]"]
       [cat ["Error: No option --marks option given"; nl]],
     Err (SystemExit 2))
  /\ format_help Sample.world = "Usage: hg-reset.py [options]"
  /\ ~ In (format_help Sample.world)
       (stderr (fst (run Sample.world
                       (mkOptions None (Some "mapping") (Some "heads")
                          (Some "status") (Some "repo") (Some 3))))).
Proof.
  split; [reflexivity|]. split; [reflexivity|].
  simpl. intuition discriminate.
Qed.

(** A reset to revision 3: the branch [feature] and the tag [v2] are past
    the target; the line of the stale tag cannot be written, its revision
    being a number and not a [bytes] object. *)
Example run_sample :
  get_branches Sample.world Sample.repo Sample.heads_cache Sample.marks_cache
    Sample.mapping_cache 4
  = Ok ([("feature", VNone); ("old", VNone)], [],
        [[VBytes "default"; VBytes Sample.sha_a; VBytes "3";
          VBytes "change 3"; VBytes "alice"]])
  /\ get_tags Sample.world Sample.repo Sample.marks_cache Sample.mapping_cache 4
     = Ok ([[VBytes "v1"; VBytes "default"; VNone; VInt 2;
             VBytes "change 2"; VBytes "alice"]],
           [[VBytes "v2"; VBytes "feature"; VBytes Sample.sha_b; VInt 5;
             VBytes "change 5"; VBytes "alice"]])
  /\ run Sample.world (Sample.options "status" 3)
     = (mkConsole
          [cat ["Possibly stale branches:"; nl]; cat [tab; "feature"; nl];
           cat [tab; "old"; nl]; cat ["Possibly stale tags:"; nl]]
          [],
        Err AttributeError).
Proof. repeat split; reflexivity. Qed.

(** * Further properties *)

(** ** The head finder, without its loop *)

Lemma zmem_set {V : Type} (k k' : Z) (v : V) (d : zdict V) :
  Dict.mem Z.eqb k (Dict.set Z.eqb k' v d) = (k =? k') || Dict.mem Z.eqb k d.
Proof.
  apply eq_true_iff_eq.
  rewrite orb_true_iff, Z.eqb_eq, !(dict_mem_iff Z.eqb Z_eqb_spec).
  apply dict_keys_set. apply Z_eqb_spec.
Qed.

Lemma zmem_remove {V : Type} (k k' : Z) (d : zdict V) :
  Dict.mem Z.eqb k (Dict.remove Z.eqb k' d)
  = negb (k =? k') && Dict.mem Z.eqb k d.
Proof.
  apply eq_true_iff_eq.
  rewrite andb_true_iff, negb_true_iff, Z.eqb_neq,
    !(dict_mem_iff Z.eqb Z_eqb_spec).
  rewrite (dict_keys_remove Z.eqb Z_eqb_spec). tauto.
Qed.

(** One parent. *)
Lemma heads_parent_mem (stoprevs : zdict pyval) (r p : Z)
    (reachable hd : zdict Z) :
  p <> r ->
  let st' := heads_parent stoprevs r (reachable, hd) p in
  (forall k,
      Dict.mem Z.eqb k (fst st')
      = Dict.mem Z.eqb k reachable
        || ((k =? r) && Dict.mem Z.eqb p reachable
            && negb (Dict.mem Z.eqb r stoprevs)))
  /\ (forall h,
        Dict.mem Z.eqb h (snd st')
        = if h =? r
          then Dict.mem Z.eqb r hd || Dict.mem Z.eqb p reachable
          else Dict.mem Z.eqb h hd
               && negb ((h =? p) && negb (Dict.mem Z.eqb p stoprevs))).
Proof.
  intros Hne st'. subst st'. unfold heads_parent.
  assert (Hpr : (p =? r) = false) by (apply Z.eqb_neq; exact Hne).
  destruct (Dict.mem Z.eqb p reachable) eqn:Hp;
    destruct (Dict.mem Z.eqb r stoprevs) eqn:Hr;
    destruct (Dict.mem Z.eqb p stoprevs) eqn:Hs;
    cbn [negb andb orb fst snd];
    rewrite ?zmem_set, ?Hpr; cbn [orb];
    destruct (Dict.mem Z.eqb p hd) eqn:Hh; cbn [andb negb fst snd];
    (split; intro x;
     [ rewrite ?zmem_set; destruct (x =? r) eqn:E; cbn;
       rewrite ?orb_false_r, ?orb_true_r; try reflexivity;
       try (apply Z.eqb_eq in E; subst x; auto)
     | rewrite ?zmem_remove, ?zmem_set;
       destruct (x =? r) eqn:E; destruct (x =? p) eqn:E'; cbn;
       rewrite ?andb_true_r, ?andb_false_r, ?orb_false_r, ?orb_true_r;
       try reflexivity;
       try (apply Z.eqb_eq in E; subst x);
       try (apply Z.eqb_eq in E'; subst x);
       try congruence; try lia; auto ]).
Qed.

Lemma existsb_ext_in {A : Type} (f g : A -> bool) (l : list A) :
  (forall a, In a l -> f a = g a) -> existsb f l = existsb g l.
Proof.
  induction l as [|a l IH]; intro H; cbn [existsb]; [reflexivity|].
  rewrite (H a (or_introl eq_refl)), IH; [reflexivity|].
  intros b Hb. apply H. right. exact Hb.
Qed.

(** All the parents of [r]. *)
Lemma heads_parents_mem (stoprevs : zdict pyval) (r : Z) (ps : list Z) :
  (forall p, In p ps -> p <> r) ->
  forall reachable hd,
    let st' := fold_left (heads_parent stoprevs r) ps (reachable, hd) in
    (forall k,
        Dict.mem Z.eqb k (fst st')
        = Dict.mem Z.eqb k reachable
          || ((k =? r) && existsb (fun p => Dict.mem Z.eqb p reachable) ps
              && negb (Dict.mem Z.eqb r stoprevs)))
    /\ (forall h,
          Dict.mem Z.eqb h (snd st')
          = if h =? r
            then Dict.mem Z.eqb r hd
                 || existsb (fun p => Dict.mem Z.eqb p reachable) ps
            else Dict.mem Z.eqb h hd
                 && negb (existsb (Z.eqb h) ps
                          && negb (Dict.mem Z.eqb h stoprevs))).
Proof.
  induction ps as [|p ps IH]; intros Hne reachable hd; cbn [fold_left].
  - cbn [existsb fst snd]. split; intro x.
    + rewrite andb_false_r. cbn. rewrite orb_false_r. reflexivity.
    + destruct (x =? r) eqn:E; [apply Z.eqb_eq in E; subst x|]; cbn;
        rewrite ?orb_false_r, ?andb_true_r; reflexivity.
  - assert (Hp : p <> r) by (apply Hne; left; reflexivity).
    assert (Hps : forall q, In q ps -> q <> r)
      by (intros q Hq; apply Hne; right; exact Hq).
    destruct (heads_parent_mem stoprevs r p reachable hd Hp) as [H1 H2].
    destruct (heads_parent stoprevs r (reachable, hd) p) as [reach1 hd1].
    cbn [fst snd] in H1, H2.
    destruct (IH Hps reach1 hd1) as [IH1 IH2].
    assert (Hex : existsb (fun q => Dict.mem Z.eqb q reach1) ps
                  = existsb (fun q => Dict.mem Z.eqb q reachable) ps).
    { apply existsb_ext_in. intros q Hq. rewrite H1.
      assert (Hqr : (q =? r) = false) by (apply Z.eqb_neq, Hps, Hq).
      rewrite Hqr. cbn. rewrite orb_false_r. reflexivity. }
    split; intro x.
    + rewrite IH1, Hex, H1. cbn [existsb]. btauto.
    + rewrite IH2, Hex, !H2. cbn [existsb].
      rewrite Z.eqb_refl.
      destruct (x =? r) eqn:E.
      * apply Z.eqb_eq in E. subst x. btauto.
      * destruct (x =? p) eqn:E'.
        -- apply Z.eqb_eq in E'. subst x. btauto.
        -- btauto.
Qed.

Lemma py_range_snoc (a b : Z) :
  a <= b -> py_range a (b + 1) = py_range a b ++ [b].
Proof.
  intro H. unfold py_range.
  replace (Z.to_nat (b + 1 - a)) with (S (Z.to_nat (b - a))) by lia.
  rewrite seq_S, map_app. cbn [map plus]. f_equal. f_equal. lia.
Qed.

Lemma heads_scan_snoc (repo : Repo) (stoprevs : zdict pyval) (startrev m : Z) :
  startrev + 1 <= m ->
  heads_scan repo stoprevs startrev (m + 1)
  = heads_rev repo stoprevs (heads_scan repo stoprevs startrev m) m.
Proof.
  intro H. unfold heads_scan.
  rewrite (py_range_snoc _ _ H), fold_left_app. reflexivity.
Qed.

Lemma scan_inv_start (repo : Repo) (stoprevs : zdict pyval) (startrev : Z) :
  scan_inv repo stoprevs startrev (startrev + 1)
    ([(startrev, 1)], [(startrev, 1)]).
Proof.
  unfold scan_inv, Dict.mem. cbn [fst snd Dict.get].
  assert (Hk : forall k, (if k =? startrev then Some 1 else None)
                         = Some 1 \/ (k =? startrev) = false).
  { intro k. destruct (k =? startrev); auto. }
  repeat split.
  - intros k. destruct (k =? startrev) eqn:E; [|discriminate].
    apply Z.eqb_eq in E. auto.
  - intros k. destruct (k =? startrev) eqn:E; [|discriminate].
    apply Z.eqb_eq in E. auto.
  - rewrite Z.eqb_refl. reflexivity.
  - intros k Hk'. lia.
  - intro h. rewrite py_range_empty by lia. cbn [has_child_in existsb negb].
    rewrite orb_true_r, andb_true_r.
    destruct (h =? startrev) eqn:E; cbn [orb]; [reflexivity|].
    destruct (Z.ltb_spec startrev h); destruct (Z.ltb_spec h (startrev + 1));
      cbn [andb]; try reflexivity. lia.
Qed.

Lemma scan_inv_step (repo : Repo) (stoprevs : zdict pyval) (startrev m : Z)
    (st : zdict Z * zdict Z) :
  startrev + 1 <= m ->
  (forall p, In p (changelog_parentrevs repo m) -> p < m) ->
  (forall r p, startrev < r < m -> In p (changelog_parentrevs repo r) ->
               p < r) ->
  scan_inv repo stoprevs startrev m st ->
  scan_inv repo stoprevs startrev (m + 1) (heads_rev repo stoprevs st m).
Proof.
  intros Hm Hpm Hdag (HA & HB & HC & HD & HE).
  destruct st as [reach hd]. cbn [fst snd] in *.
  unfold heads_rev.
  assert (Hne : forall p, In p (changelog_parentrevs repo m) -> p <> m)
    by (intros p Hp; specialize (Hpm p Hp); lia).
  destruct (heads_parents_mem stoprevs m _ Hne reach hd) as [H1 H2].
  destruct (fold_left (heads_parent stoprevs m) (changelog_parentrevs repo m)
              (reach, hd)) as [reach' hd'].
  cbn [fst snd] in H1, H2.
  fold (has_reachable_parent repo reach m) in H1, H2.
  assert (Hmr : Dict.mem Z.eqb m reach = false).
  { destruct (Dict.mem Z.eqb m reach) eqn:E; [|reflexivity].
    destruct (HA m E); lia. }
  assert (Hmh : Dict.mem Z.eqb m hd = false).
  { destruct (Dict.mem Z.eqb m hd) eqn:E; [|reflexivity].
    destruct (HB m E); lia. }
  assert (Hrp : forall k, startrev < k <= m ->
              has_reachable_parent repo reach' k
              = has_reachable_parent repo reach k).
  { intros k Hk. unfold has_reachable_parent. apply existsb_ext_in.
    intros p Hp. rewrite H1.
    assert (p < k).
    { destruct (Z.eq_dec k m) as [->|Hkm]; [apply Hpm, Hp|].
      apply (Hdag k p); [lia | exact Hp]. }
    replace (p =? m) with false by (symmetry; apply Z.eqb_neq; lia).
    cbn. rewrite orb_false_r. reflexivity. }
  unfold scan_inv. cbn [fst snd].
  split; [|split; [|split; [|split]]].
  - intros k Hk. rewrite H1 in Hk. apply orb_true_iff in Hk.
    destruct Hk as [Hk|Hk].
    + destruct (HA k Hk); [auto | right; lia].
    + apply andb_true_iff in Hk. destruct Hk as [Hk _].
      apply andb_true_iff in Hk. destruct Hk as [Hk _].
      apply Z.eqb_eq in Hk. right. lia.
  - intros k Hk. rewrite H2 in Hk.
    destruct (k =? m) eqn:E; [apply Z.eqb_eq in E; right; lia|].
    apply andb_true_iff in Hk. destruct Hk as [Hk _].
    destruct (HB k Hk); [auto | right; lia].
  - rewrite H1, HC. reflexivity.
  - intros k Hk. rewrite H1, (Hrp k) by lia.
    destruct (k =? m) eqn:E.
    + apply Z.eqb_eq in E. subst k. rewrite Hmr. btauto.
    + apply Z.eqb_neq in E. rewrite (HD k) by lia. btauto.
  - intro h. rewrite H2.
    rewrite (py_range_snoc (startrev + 1) m Hm).
    unfold has_child_in at 1. rewrite existsb_app. cbn [existsb].
    fold (has_child_in repo (py_range (startrev + 1) m) h).
    rewrite orb_false_r.
    destruct (h =? m) eqn:E.
    + apply Z.eqb_eq in E. subst h. rewrite Hmh, (Hrp m) by lia.
      assert (Hc : has_child_in repo (py_range (startrev + 1) m) m = false).
      { unfold has_child_in. apply not_true_is_false. intro Hex.
        apply existsb_exists in Hex. destruct Hex as (r & Hr & Hex).
        apply existsb_exists in Hex. destruct Hex as (p & Hp & Hpe).
        apply Z.eqb_eq in Hpe. subst p. apply py_range_in in Hr.
        assert (m < r) by (apply (Hdag r m); [lia | exact Hp]). lia. }
      assert (Hs : existsb (Z.eqb m) (changelog_parentrevs repo m) = false).
      { apply not_true_is_false. intro Hex.
        apply existsb_exists in Hex. destruct Hex as (p & Hp & Hpe).
        apply Z.eqb_eq in Hpe. subst p. specialize (Hpm m Hp). lia. }
      rewrite Hc, Hs.
      replace (m =? startrev) with false by (symmetry; apply Z.eqb_neq; lia).
      replace (startrev <? m) with true by (symmetry; apply Z.ltb_lt; lia).
      replace (m <? m + 1) with true by (symmetry; apply Z.ltb_lt; lia).
      btauto.
    + apply Z.eqb_neq in E. rewrite HE.
      assert (Hsame : (startrev <? h) && (h <? m + 1)
                      && has_reachable_parent repo reach' h
                      = (startrev <? h) && (h <? m)
                        && has_reachable_parent repo reach h).
      { destruct (Z.ltb_spec startrev h); cbn [andb]; [|reflexivity].
        destruct (Z.ltb_spec h (m + 1)); destruct (Z.ltb_spec h m);
          cbn [andb]; try reflexivity; try lia.
        apply Hrp. lia. }
      rewrite Hsame. btauto.
Qed.

Lemma heads_scan_inv (repo : Repo) (stoprevs : zdict pyval) (startrev : Z)
    (n : nat) :
  (forall r p, startrev < r < startrev + 1 + Z.of_nat n ->
               In p (changelog_parentrevs repo r) -> p < r) ->
  scan_inv repo stoprevs startrev (startrev + 1 + Z.of_nat n)
    (heads_scan repo stoprevs startrev (startrev + 1 + Z.of_nat n)).
Proof.
  induction n as [|n IH]; intro Hdag.
  - replace (startrev + 1 + Z.of_nat 0) with (startrev + 1) by lia.
    unfold heads_scan. rewrite py_range_empty by lia. apply scan_inv_start.
  - replace (startrev + 1 + Z.of_nat (S n))
      with (startrev + 1 + Z.of_nat n + 1) by lia.
    rewrite heads_scan_snoc by lia.
    apply scan_inv_step.
    + lia.
    + intros p Hp. apply (Hdag _ p); [lia | exact Hp].
    + intros r p Hr Hp. apply (Hdag r p); [lia | exact Hp].
    + apply IH. intros r p Hr Hp. apply (Hdag r p); [lia | exact Hp].
Qed.

Lemma heads_scan_clip (repo : Repo) (stoprevs : zdict pyval) (startrev m : Z) :
  heads_scan repo stoprevs startrev m
  = heads_scan repo stoprevs startrev
      (startrev + 1 + Z.of_nat (Z.to_nat (m - startrev - 1))).
Proof.
  destruct (Z.le_gt_cases (startrev + 1) m) as [H|H].
  - f_equal. lia.
  - unfold heads_scan. rewrite !py_range_empty by lia. reflexivity.
Qed.

Lemma heads_scan_spec (repo : Repo) (stoprevs : zdict pyval) (startrev m : Z) :
  (forall r p, startrev < r < m -> In p (changelog_parentrevs repo r) ->
               p < r) ->
  let st := heads_scan repo stoprevs startrev m in
  (forall k,
      In k (Dict.keys (fst st)) <->
      k = startrev
      \/ (startrev < k < m /\ ~ In k (Dict.keys stoprevs)
          /\ exists p, In p (changelog_parentrevs repo k)
                       /\ In p (Dict.keys (fst st))))
  /\ (forall h,
        In h (Dict.keys (snd st)) <->
        (h = startrev
         \/ (startrev < h < m
             /\ exists p, In p (changelog_parentrevs repo h)
                          /\ In p (Dict.keys (fst st))))
        /\ (In h (Dict.keys stoprevs)
            \/ forall r, startrev < r < m ->
                         ~ In h (changelog_parentrevs repo r))).
Proof.
  intros Hdag st. subst st.
  rewrite heads_scan_clip.
  set (n := Z.to_nat (m - startrev - 1)).
  assert (Hrange : forall k, startrev < k < startrev + 1 + Z.of_nat n
                             <-> startrev < k < m) by (intro k; lia).
  destruct (heads_scan_inv repo stoprevs startrev n)
    as (HA & _ & HC & HD & HE).
  { intros r p Hr. apply Hdag. lia. }
  destruct (heads_scan repo stoprevs startrev (startrev + 1 + Z.of_nat n))
    as [reach hd].
  cbn [fst snd] in *.
  assert (Hrp : forall k,
             has_reachable_parent repo reach k = true <->
             exists p, In p (changelog_parentrevs repo k)
                       /\ In p (Dict.keys reach)).
  { intro k. unfold has_reachable_parent. rewrite existsb_exists.
    split; intros (p & Hp & Hm); exists p; (split; [exact Hp|]);
      apply (dict_mem_iff Z.eqb Z_eqb_spec); exact Hm. }
  split.
  - intro k. rewrite <- (dict_mem_iff Z.eqb Z_eqb_spec). split.
    + intro Hk. destruct (HA k Hk) as [->|Hin]; [left; reflexivity|].
      right. rewrite (HD k Hin) in Hk.
      apply andb_true_iff in Hk. destruct Hk as [Hs Hp].
      apply negb_true_iff in Hs.
      apply (dict_mem_false_iff Z.eqb Z_eqb_spec) in Hs.
      split; [lia|]. split; [exact Hs|]. apply Hrp, Hp.
    + intros [->|(Hin & Hs & Hp)]; [exact HC|].
      rewrite (HD k) by lia. apply andb_true_iff. split.
      * apply negb_true_iff, (dict_mem_false_iff Z.eqb Z_eqb_spec), Hs.
      * apply Hrp, Hp.
  - intro h. rewrite <- (dict_mem_iff Z.eqb Z_eqb_spec), HE.
    rewrite andb_true_iff, !orb_true_iff, !andb_true_iff, negb_true_iff.
    rewrite Z.eqb_eq, !Z.ltb_lt, Hrp, (dict_mem_iff Z.eqb Z_eqb_spec).
    assert (Hch : has_child_in repo
                    (py_range (startrev + 1) (startrev + 1 + Z.of_nat n)) h
                  = false <->
                  forall r, startrev < r < m ->
                            ~ In h (changelog_parentrevs repo r)).
    { unfold has_child_in. split.
      - intros Hf r Hr Hp.
        assert (Ht : existsb
                       (fun r => existsb (Z.eqb h) (changelog_parentrevs repo r))
                       (py_range (startrev + 1) (startrev + 1 + Z.of_nat n))
                     = true).
        { apply existsb_exists. exists r. split; [apply py_range_in; lia|].
          apply existsb_exists. exists h. split; [exact Hp|].
          apply Z.eqb_refl. }
        congruence.
      - intro Hno. apply not_true_is_false. intro Hex.
        apply existsb_exists in Hex. destruct Hex as (r & Hr & Hex).
        apply existsb_exists in Hex. destruct Hex as (p & Hp & Hpe).
        apply Z.eqb_eq in Hpe. subst p. apply py_range_in in Hr.
        apply (Hno r); [lia | exact Hp]. }
    rewrite Hch. split.
    + intros [[->|[[H1 H2] H3]] H4]; (split; [|exact H4]);
        [left; reflexivity | right; split; [lia | exact H3]].
    + intros [[->|[H1 H3]] H4]; (split; [|exact H4]);
        [left; reflexivity | right; split; [lia | exact H3]].
Qed.

(** Invariant without the order on parents: every head is reachable or a
    stop revision, and there is a head. *)
Lemma heads_scan_nonempty (repo : Repo) (stoprevs : zdict pyval)
    (startrev m : Z) :
  (forall r p, startrev < r < m -> In p (changelog_parentrevs repo r) ->
               p <> r) ->
  let st := heads_scan repo stoprevs startrev m in
  (forall h, Dict.mem Z.eqb h (snd st) = true ->
             Dict.mem Z.eqb h (fst st) = true
             \/ Dict.mem Z.eqb h stoprevs = true)
  /\ exists h, Dict.mem Z.eqb h (snd st) = true.
Proof.
  intros Hne st. subst st. unfold heads_scan.
  apply (fold_left_invariant
           (fun st : zdict Z * zdict Z =>
              (forall h, Dict.mem Z.eqb h (snd st) = true ->
                         Dict.mem Z.eqb h (fst st) = true
                         \/ Dict.mem Z.eqb h stoprevs = true)
              /\ exists h, Dict.mem Z.eqb h (snd st) = true)).
  - cbn [fst snd]. split; [intros h Hh; left; exact Hh|].
    exists startrev. unfold Dict.mem. cbn. rewrite Z.eqb_refl. reflexivity.
  - intros st r Hr Hst. apply py_range_in in Hr. unfold heads_rev.
    apply (fold_left_invariant
             (fun st : zdict Z * zdict Z =>
                (forall h, Dict.mem Z.eqb h (snd st) = true ->
                           Dict.mem Z.eqb h (fst st) = true
                           \/ Dict.mem Z.eqb h stoprevs = true)
                /\ exists h, Dict.mem Z.eqb h (snd st) = true)
             (heads_parent stoprevs r) (changelog_parentrevs repo r) st).
    + exact Hst.
    + intros [reach hd] p Hp (Hsub & h0 & Hh0). cbn [fst snd] in *.
      assert (Hpr : p <> r) by (apply (Hne r p); [lia | exact Hp]).
      destruct (heads_parent_mem stoprevs r p reach hd Hpr) as [H1 H2].
      destruct (heads_parent stoprevs r (reach, hd) p) as [reach' hd'].
      cbn [fst snd] in *.
      split.
      * intros h Hh. rewrite H2 in Hh. rewrite H1.
        destruct (h =? r) eqn:E.
        -- apply Z.eqb_eq in E. subst h.
           apply orb_true_iff in Hh. destruct Hh as [Hh|Hh].
           ++ destruct (Hsub r Hh) as [Hr'|Hr']; [|right; exact Hr'].
              left. rewrite Hr'. reflexivity.
           ++ rewrite Hh.
              destruct (Dict.mem Z.eqb r stoprevs); [right; reflexivity|].
              left. cbn. apply orb_true_r.
        -- apply andb_true_iff in Hh. destruct Hh as [Hh _].
           destruct (Hsub h Hh) as [Hr'|Hr']; [|right; exact Hr'].
           left. rewrite Hr'. reflexivity.
      * destruct (Dict.mem Z.eqb h0 hd') eqn:Hin; [exists h0; exact Hin|].
        exists r. rewrite H2, Z.eqb_refl. rewrite H2 in Hin.
        destruct (h0 =? r) eqn:E.
        -- apply Z.eqb_eq in E. subst h0. rewrite Hh0. reflexivity.
        -- rewrite Hh0 in Hin. cbn [andb] in Hin.
           apply negb_false_iff, andb_true_iff in Hin.
           destruct Hin as [Hhp Hs]. apply Z.eqb_eq in Hhp. subst h0.
           apply negb_true_iff in Hs.
           destruct (Hsub p Hh0) as [Hr'|Hr']; [|congruence].
           rewrite Hr'. apply orb_true_r.
Qed.

Lemma sample_parents_below (r p : Z) :
  -1 < r -> In p (Sample.parents r) -> p < r.
Proof.
  intros Hr Hp. unfold Sample.parents in Hp.
  destruct (r =? 0) eqn:E0; [apply Z.eqb_eq in E0|];
    [|destruct (r =? 4) eqn:E4; [apply Z.eqb_eq in E4|]];
    simpl in Hp; lia.
Qed.

(** X1 ([heads], lines 26-37).  When every parent of a scanned revision is
    older than the revision, the [reachable] dictionary at the end of the scan
    is the closure it is meant to be: it holds the start revision and exactly
    the scanned revisions that are not stop revisions and have a parent in
    it. *)
Theorem heads_reachable_closure (repo : Repo) (start : option Node)
    (stop : option (list Node)) (max : option Z)
    (Hdag : forall r p,
        heads_start repo start < r < heads_max repo max ->
        In p (changelog_parentrevs repo r) -> p < r) :
  forall k,
    In k (Dict.keys (heads_reachable repo start stop max)) <->
    k = heads_start repo start
    \/ (heads_start repo start < k < heads_max repo max
        /\ ~ In k (Dict.keys (heads_stoprevs repo stop))
        /\ exists p,
             In p (changelog_parentrevs repo k)
             /\ In p (Dict.keys (heads_reachable repo start stop max))).
Proof.
  unfold heads_reachable.
  apply (heads_scan_spec repo (heads_stoprevs repo stop)
           (heads_start repo start) (heads_max repo max) Hdag).
Qed.

Lemma heads_reachable_closure_witness :
  In 3 (Dict.keys (heads_reachable Sample.repo None None (Some 6))) <->
  3 = heads_start Sample.repo None
  \/ (heads_start Sample.repo None < 3 < heads_max Sample.repo (Some 6)
      /\ ~ In 3 (Dict.keys (heads_stoprevs Sample.repo None))
      /\ exists p,
           In p (changelog_parentrevs Sample.repo 3)
           /\ In p (Dict.keys
                      (heads_reachable Sample.repo None None (Some 6)))).
Proof.
  refine (heads_reachable_closure Sample.repo None None (Some 6) _ 3).
  intros r p Hr. apply sample_parents_below.
  change (heads_start Sample.repo None) with (-1) in Hr. lia.
Defined.

(** X2 ([heads], lines 14-39).  What [heads] returns, said without the loop:
    under the same ordering of parents, a pair is returned exactly when it is
    the node and the decimal text of a revision that is the start revision or
    has a reachable parent, and that is a stop revision or has no child among
    the scanned revisions. *)
Theorem heads_exact (repo : Repo) (start : option Node)
    (stop : option (list Node)) (max : option Z)
    (Hdag : forall r p,
        heads_start repo start < r < heads_max repo max ->
        In p (changelog_parentrevs repo r) -> p < r) :
  forall n s,
    In (n, s) (heads repo start stop max) <->
    exists h,
      n = changelog_node repo h /\ s = fmt_d h
      /\ (h = heads_start repo start
          \/ (heads_start repo start < h < heads_max repo max
              /\ exists p,
                   In p (changelog_parentrevs repo h)
                   /\ In p (Dict.keys (heads_reachable repo start stop max))))
      /\ (In h (Dict.keys (heads_stoprevs repo stop))
          \/ forall r, heads_start repo start < r < heads_max repo max ->
                       ~ In h (changelog_parentrevs repo r)).
Proof.
  intros n s. unfold heads, heads_reachable.
  destruct (heads_scan_spec repo (heads_stoprevs repo stop)
              (heads_start repo start) (heads_max repo max) Hdag)
    as [_ Hheads].
  destruct (heads_scan repo (heads_stoprevs repo stop)
              (heads_start repo start) (heads_max repo max)) as [reach hd].
  cbn [fst snd] in *. rewrite in_map_iff. split.
  - intros (h & Heq & Hh). injection Heq as <- <-.
    exists h. split; [reflexivity|]. split; [reflexivity|].
    apply Hheads, Hh.
  - intros (h & -> & -> & Hh). exists h. split; [reflexivity|].
    apply Hheads, Hh.
Qed.

Lemma heads_exact_witness :
  In (Sample.node_of 3, "3") (heads Sample.repo None None (Some 6)) <->
  exists h,
    Sample.node_of 3 = changelog_node Sample.repo h /\ "3" = fmt_d h
    /\ (h = heads_start Sample.repo None
        \/ (heads_start Sample.repo None < h < heads_max Sample.repo (Some 6)
            /\ exists p,
                 In p (changelog_parentrevs Sample.repo h)
                 /\ In p (Dict.keys
                            (heads_reachable Sample.repo None None
                               (Some 6)))))
    /\ (In h (Dict.keys (heads_stoprevs Sample.repo None))
        \/ forall r,
             heads_start Sample.repo None < r
             < heads_max Sample.repo (Some 6) ->
             ~ In h (changelog_parentrevs Sample.repo r)).
Proof.
  refine (heads_exact Sample.repo None None (Some 6) _ (Sample.node_of 3)
            "3").
  intros r p Hr. apply sample_parents_below.
  change (heads_start Sample.repo None) with (-1) in Hr. lia.
Defined.

(** X3 ([heads], lines 26-39).  As long as no scanned revision lists itself
    as its own parent, [heads] returns at least one head. *)
Theorem heads_never_empty (repo : Repo) (start : option Node)
    (stop : option (list Node)) (max : option Z)
    (Hself : forall r p,
        heads_start repo start < r < heads_max repo max ->
        In p (changelog_parentrevs repo r) -> p <> r) :
  heads repo start stop max <> [].
Proof.
  unfold heads.
  destruct (heads_scan_nonempty repo (heads_stoprevs repo stop)
              (heads_start repo start) (heads_max repo max) Hself)
    as [_ [h Hh]].
  destruct (heads_scan repo (heads_stoprevs repo stop)
              (heads_start repo start) (heads_max repo max)) as [reach hd].
  cbn [snd] in Hh. apply (dict_mem_iff Z.eqb Z_eqb_spec) in Hh.
  intro Hnil. apply (in_map (fun r => (changelog_node repo r, fmt_d r))) in Hh.
  rewrite Hnil in Hh. exact Hh.
Qed.

Lemma heads_never_empty_witness :
  heads Sample.repo None None (Some 6) <> [].
Proof.
  apply (heads_never_empty Sample.repo None None (Some 6)).
  intros r p Hr Hp.
  assert (p < r); [|lia].
  apply sample_parents_below; [|exact Hp].
  change (heads_start Sample.repo None) with (-1) in Hr. lia.
Defined.

(** X4 ([heads], lines 27-39).  No revision is returned twice: the revision
    texts of the result are pairwise different, and so are the pairs. *)
Theorem heads_distinct (repo : Repo) (start : option Node)
    (stop : option (list Node)) (max : option Z) :
  NoDup (map snd (heads repo start stop max))
  /\ NoDup (heads repo start stop max).
Proof.
  pose proof (heads_nodup repo start stop max) as H.
  split; [exact H|]. apply (NoDup_map_inv snd), H.
Qed.

(** ** The branch classifier *)

Lemma string_ltb_total (a b : string) :
  String.ltb a b = false -> a <> b -> String.ltb b a = true.
Proof.
  unfold String.ltb. intros Hlt Hne.
  rewrite String.compare_antisym.
  destruct (String.compare a b) eqn:E; try discriminate; [|reflexivity].
  apply String.compare_eq_iff in E. contradiction.
Qed.

Lemma sort_insert_cases (x : row) (l r : list row) :
  sort_insert x l = Ok r ->
  match r with
  | [] => False
  | y :: _ => y = x \/ exists l', l = y :: l'
  end.
Proof.
  destruct l as [|y l]; cbn [sort_insert]; intro H.
  - injection H as <-. left. reflexivity.
  - destruct (row_lt y x) as [[|]|]; cbn [rbind] in H; try discriminate.
    + destruct (sort_insert x l) as [r'|]; cbn [rbind] in H; [|discriminate].
      injection H as <-. right. exists l. reflexivity.
    + injection H as <-. left. reflexivity.
Qed.

Lemma sort_insert_sorted (x : row) (l : list row) :
  (exists k, row_key x = VBytes k) ->
  (forall y, In y l -> exists k, row_key y = VBytes k) ->
  (forall y, In y l -> row_key y <> row_key x) ->
  Sorted name_below l ->
  forall r, sort_insert x l = Ok r -> Sorted name_below r.
Proof.
  intros [kx Hkx]. destruct (row_key_named _ _ Hkx) as [rx ->].
  induction l as [|y l IH]; intros Hnamed Hdiff Hsorted r H;
    cbn [sort_insert] in H.
  - injection H as <-. repeat constructor.
  - destruct (Hnamed y (or_introl eq_refl)) as [ky Hky].
    destruct (row_key_named _ _ Hky) as [ry ->].
    assert (Hne : ky <> kx).
    { intros ->. apply (Hdiff _ (or_introl eq_refl)). reflexivity. }
    rewrite (row_lt_names ky kx ry rx Hne) in H. cbn [rbind] in H.
    apply Sorted_inv in Hsorted. destruct Hsorted as [Hs Hhd].
    destruct (String.ltb ky kx) eqn:Elt.
    + destruct (sort_insert (VBytes kx :: rx) l) as [r'|] eqn:Eins;
        cbn [rbind] in H; [|discriminate].
      injection H as <-.
      assert (Hs' : Sorted name_below r').
      { apply IH; try assumption; try reflexivity.
        - intros z Hz. apply Hnamed. right. exact Hz.
        - intros z Hz. apply Hdiff. right. exact Hz. }
      constructor; [exact Hs'|].
      pose proof (sort_insert_cases _ _ _ Eins) as Hc.
      destruct r' as [|z r'']; [contradiction|].
      constructor.
      destruct Hc as [->|[l' ->]].
      * exists ky, kx. repeat split; try reflexivity. exact Elt.
      * apply HdRel_inv in Hhd. exact Hhd.
    + injection H as <-.
      constructor; [constructor; assumption|].
      constructor. exists kx, ky. repeat split; try reflexivity.
      apply string_ltb_total; [exact Elt | exact Hne].
Qed.

Lemma py_sort_sorted (l : list row) :
  (forall r, In r l -> exists k, row_key r = VBytes k) ->
  NoDup (map row_key l) ->
  forall s, py_sort l = Ok s -> Sorted name_below s.
Proof.
  induction l as [|x l IH]; intros Hnamed Hnd s H; cbn [py_sort] in H.
  - injection H as <-. constructor.
  - cbn [map] in Hnd. inversion Hnd as [|? ? Hnot Hnd']; subst.
    destruct (py_sort l) as [s'|] eqn:Es; cbn [rbind] in H; [|discriminate].
    pose proof (py_sort_perm _ _ Es) as Hperm.
    apply (sort_insert_sorted x s').
    + apply Hnamed. left. reflexivity.
    + intros y Hy. apply Hnamed. right.
      apply (Permutation_in _ (Permutation_sym Hperm)). exact Hy.
    + intros y Hy Heq. apply Hnot. rewrite <- Heq. apply in_map.
      apply (Permutation_in _ (Permutation_sym Hperm)). exact Hy.
    + apply IH; try assumption; [|reflexivity].
      intros r Hr. apply Hnamed. right. exact Hr.
    + exact H.
Qed.

Section BranchFacts.
Variables (w : World) (repo : Repo).
Variables (heads_cache marks_cache mapping_cache : bdict obj) (max : Z).

Lemma get_branches_inv (stale : bdict pyval) (changed unchanged : list row) :
  get_branches w repo heads_cache marks_cache mapping_cache max
  = Ok (stale, changed, unchanged) ->
  exists changed0 unchanged0,
    rfold (branch_step w repo marks_cache) (heads repo None None (Some max))
      (Dict.fromkeys String.eqb (Dict.keys heads_cache) VNone, [], [])
    = Ok (stale, changed0, unchanged0)
    /\ py_sort changed0 = Ok changed
    /\ py_sort unchanged0 = Ok unchanged.
Proof.
  unfold get_branches. intro H.
  destruct (rfold (branch_step w repo marks_cache)
              (heads repo None None (Some max))
              (Dict.fromkeys String.eqb (Dict.keys heads_cache) VNone, [], []))
    as [[[stale0 changed0] unchanged0]|]; cbn [rbind] in H; [|discriminate].
  destruct (py_sort changed0) as [c|] eqn:Ec; cbn [rbind] in H; [|discriminate].
  destruct (py_sort unchanged0) as [u|] eqn:Eu; cbn [rbind] in H;
    [|discriminate].
  injection H as <- <- <-.
  exists changed0, unchanged0. repeat split; assumption.
Qed.

(** The rows collected by the loop carry names, each name once. *)
Lemma branch_rows_ready (stale : bdict pyval) (changed0 unchanged0 : list row) :
  rfold (branch_step w repo marks_cache) (heads repo None None (Some max))
    (Dict.fromkeys String.eqb (Dict.keys heads_cache) VNone, [], [])
  = Ok (stale, changed0, unchanged0) ->
  (forall r, In r changed0 \/ In r unchanged0 ->
             exists k, row_key r = VBytes k)
  /\ (forall k, (occurrences k changed0 + occurrences k unchanged0 <= 1)%nat)
  /\ NoDup (map row_key changed0) /\ NoDup (map row_key unchanged0).
Proof.
  intro Hloop.
  pose proof (dict_nodup_fromkeys String.eqb string_eqb_spec
                (Dict.keys heads_cache) (VNone : pyval)) as Hnd.
  destruct (branch_loop _ _ _ _ _ _ _ _ _ _ Hloop Hnd) as [_ Hcount].
  pose proof (branch_loop_named _ _ _ _ _ _ Hloop) as Hnamed.
  cbn [fst snd] in Hnamed.
  assert (Hone : forall k,
             (occurrences k changed0 + occurrences k unchanged0 <= 1)%nat).
  { intro k. specialize (Hcount k).
    cbn [occurrences map count_occ] in Hcount.
    assert (key_count k (Dict.fromkeys String.eqb (Dict.keys heads_cache)
                           (VNone : pyval)) <= 1)%nat
      by (apply NoDup_count_occ, Hnd).
    lia. }
  split; [exact Hnamed|]. split; [exact Hone|].
  split; apply rows_nodup;
    try (intros r Hr; apply Hnamed; tauto);
    intro k; specialize (Hone k); lia.
Qed.

(** X5 ([get_branches], lines 56-58).  Both lists come back in strictly
    increasing order of branch name. *)
Theorem get_branches_sorted (stale : bdict pyval)
    (changed unchanged : list row)
    (Hrun : get_branches w repo heads_cache marks_cache mapping_cache max
            = Ok (stale, changed, unchanged)) :
  Sorted name_below changed /\ Sorted name_below unchanged.
Proof.
  destruct (get_branches_inv _ _ _ Hrun) as (c0 & u0 & Hloop & Hc & Hu).
  destruct (branch_rows_ready _ _ _ Hloop) as (Hnamed & _ & Hndc & Hndu).
  split.
  - apply (py_sort_sorted c0); [intros r Hr; apply Hnamed; tauto | | ];
      assumption.
  - apply (py_sort_sorted u0); [intros r Hr; apply Hnamed; tauto | | ];
      assumption.
Qed.

Lemma branch_loop_rows (l : list (Node * bytes)) :
  forall stale0 changed0 unchanged0 stale changed unchanged,
    rfold (branch_step w repo marks_cache) l (stale0, changed0, unchanged0)
    = Ok (stale, changed, unchanged) ->
    exists rows,
      Forall2 (head_row w repo marks_cache) l rows
      /\ Permutation (changed0 ++ unchanged0 ++ rows) (changed ++ unchanged).
Proof.
  induction l as [|[n rev] l IH];
    intros stale0 changed0 unchanged0 stale changed unchanged H;
    cbn [rfold] in H.
  - injection H as <- <- <-. exists []. split; [constructor|].
    rewrite app_nil_r. apply Permutation_refl.
  - destruct (branch_step w repo marks_cache (stale0, changed0, unchanged0)
                (n, rev)) as [[[stale1 changed1] unchanged1]|] eqn:Estep;
      cbn [rbind] in H; [|discriminate].
    destruct (IH _ _ _ _ _ _ H) as (rows & Hrows & Hperm).
    apply branch_step_ok in Estep.
    destruct Estep as (cs & z & Hcs & _ & Hz & Hst).
    exists (branch_entry marks_cache cs rev z :: rows).
    split.
    { constructor; [|exact Hrows]. exists cs, z. cbn [snd]. tauto. }
    destruct (negb _ && _); injection Hst as -> -> ->.
    + rewrite <- app_assoc in Hperm. cbn [app] in Hperm. exact Hperm.
    + eapply perm_trans; [|exact Hperm].
      rewrite <- app_assoc. cbn [app].
      apply Permutation_app_head.
      apply Permutation_sym, Permutation_middle.
Qed.

(** X6 ([get_branches], lines 47-58).  A run that returns has built one row
    per head, from that head's changeset and revision text, and [changed] and
    [unchanged] together hold exactly these rows: none lost, none added. *)
Theorem get_branches_rows (stale : bdict pyval) (changed unchanged : list row)
    (Hrun : get_branches w repo heads_cache marks_cache mapping_cache max
            = Ok (stale, changed, unchanged)) :
  exists rows,
    Forall2 (head_row w repo marks_cache) (heads repo None None (Some max))
      rows
    /\ Permutation rows (changed ++ unchanged)
    /\ (List.length changed + List.length unchanged
        = List.length (heads repo None None (Some max)))%nat.
Proof.
  destruct (get_branches_loop _ _ _ _ _ _ _ _ _ Hrun)
    as (c0 & u0 & Hloop & Pc & Pu).
  destruct (branch_loop_rows _ _ _ _ _ _ _ Hloop) as (rows & Hrows & Hperm).
  cbn [app] in Hperm.
  assert (Hp : Permutation rows (changed ++ unchanged)).
  { eapply perm_trans; [exact Hperm|]. apply Permutation_app; assumption. }
  exists rows. split; [exact Hrows|]. split; [exact Hp|].
  rewrite <- List.length_app, <- (Permutation_length Hp).
  symmetry. apply (Forall2_length Hrows).
Qed.
End BranchFacts.

Section BranchFacts2.
Variables (w : World) (repo : Repo).
Variables (heads_cache marks_cache mapping_cache : bdict obj) (max : Z).

Lemma branch_loop_stale (l : list (Node * bytes)) :
  forall (stale0 : bdict pyval) changed0 unchanged0 stale changed unchanged,
    rfold (branch_step w repo marks_cache) l (stale0, changed0, unchanged0)
    = Ok (stale, changed, unchanged) ->
    forall b,
      In b (Dict.keys stale) <->
      In b (Dict.keys stale0)
      /\ ~ exists n rev cs,
             In (n, rev) l
             /\ get_changeset w repo (RevText rev) = Ok cs
             /\ cs_branch cs = b.
Proof.
  induction l as [|[n0 rev0] l IH];
    intros stale0 changed0 unchanged0 stale changed unchanged H b;
    cbn [rfold] in H.
  - injection H as <- <- <-. split; [|tauto].
    intro Hb. split; [exact Hb|]. intros (n & rev & cs & [] & _).
  - destruct (branch_step w repo marks_cache (stale0, changed0, unchanged0)
                (n0, rev0)) as [[[stale1 changed1] unchanged1]|] eqn:Estep;
      cbn [rbind] in H; [|discriminate].
    apply branch_step_ok in Estep.
    destruct Estep as (cs0 & z & Hcs0 & _ & _ & Hst).
    assert (Hs1 : stale1 = Dict.remove String.eqb (cs_branch cs0) stale0)
      by (destruct (negb _ && _); congruence).
    rewrite (IH _ _ _ _ _ _ H b), Hs1.
    rewrite (dict_keys_remove String.eqb string_eqb_spec).
    split.
    + intros [[Hb Hne] Hno]. split; [exact Hb|].
      intros (n & rev & cs & [Heq|Hin] & Hcs & Hbr).
      * injection Heq as <- <-. congruence.
      * apply Hno. exists n, rev, cs. tauto.
    + intros [Hb Hno]. split; [split; [exact Hb|]|].
      * intros ->. apply Hno. exists n0, rev0, cs0.
        split; [left; reflexivity | tauto].
      * intros (n & rev & cs & Hin & Hcs & Hbr). apply Hno.
        exists n, rev, cs. split; [right; exact Hin | tauto].
Qed.

(** X7 ([get_branches], lines 44-49 and 58).  The returned [stale]
    dictionary holds, once each, the names of [heads_cache] that are the
    branch of no head. *)
Theorem get_branches_stale (stale : bdict pyval)
    (changed unchanged : list row)
    (Hrun : get_branches w repo heads_cache marks_cache mapping_cache max
            = Ok (stale, changed, unchanged)) :
  NoDup (Dict.keys stale)
  /\ forall b,
       In b (Dict.keys stale) <->
       In b (Dict.keys heads_cache)
       /\ ~ exists n rev cs,
              In (n, rev) (heads repo None None (Some max))
              /\ get_changeset w repo (RevText rev) = Ok cs
              /\ cs_branch cs = b.
Proof.
  destruct (get_branches_loop _ _ _ _ _ _ _ _ _ Hrun)
    as (c0 & u0 & Hloop & _ & _).
  pose proof (dict_nodup_fromkeys String.eqb string_eqb_spec
                (Dict.keys heads_cache) (VNone : pyval)) as Hnd.
  split.
  - apply (branch_loop _ _ _ _ _ _ _ _ _ _ Hloop Hnd).
  - intro b. rewrite (branch_loop_stale _ _ _ _ _ _ _ Hloop b).
    rewrite (dict_keys_fromkeys String.eqb string_eqb_spec). tauto.
Qed.

(** Two heads on one branch: the second deletion from [stale] raises. *)
Lemma branch_loop_twice (l : list (Node * bytes)) :
  NoDup (map snd l) ->
  (forall n rev, In (n, rev) l ->
     (exists cs, get_changeset w repo (RevText rev) = Ok cs)
     /\ (exists z, py_int rev = Ok z)) ->
  (exists n1 rev1 n2 rev2 cs1 cs2,
      In (n1, rev1) l /\ In (n2, rev2) l /\ rev1 <> rev2
      /\ get_changeset w repo (RevText rev1) = Ok cs1
      /\ get_changeset w repo (RevText rev2) = Ok cs2
      /\ cs_branch cs1 = cs_branch cs2) ->
  forall (stale : bdict pyval) (changed unchanged : list row),
    rfold (branch_step w repo marks_cache) l (stale, changed, unchanged)
    = Err KeyError.
Proof.
  induction l as [|[n0 rev0] l IH]; intros Hnd Hall Hpair stale changed
    unchanged.
  - destruct Hpair as (n1 & rev1 & n2 & rev2 & cs1 & cs2 & [] & _).
  - cbn [map snd] in Hnd. inversion Hnd as [|? ? Hnot Hnd']; subst.
    assert (Hall' : forall n rev, In (n, rev) l ->
               (exists cs, get_changeset w repo (RevText rev) = Ok cs)
               /\ (exists z, py_int rev = Ok z))
      by (intros n rev Hin; apply (Hall n rev); right; exact Hin).
    destruct (Hall n0 rev0 (or_introl eq_refl)) as [[cs0 Hcs0] [z0 Hz0]].
    cbn [rfold]. unfold branch_step at 1. rewrite Hcs0. cbn [rbind].
    unfold Dict.del.
    destruct (Dict.mem String.eqb (cs_branch cs0) stale) eqn:Hmem;
      cbn [rbind]; [|reflexivity].
    rewrite Hz0. cbn [rbind].
    assert (Hrest : forall changed' unchanged',
               rfold (branch_step w repo marks_cache) l
                 (Dict.remove String.eqb (cs_branch cs0) stale, changed',
                  unchanged') = Err KeyError).
    { intros changed' unchanged'.
      destruct Hpair as (n1 & rev1 & n2 & rev2 & cs1 & cs2 & H1 & H2 & Hne
                         & Hc1 & Hc2 & Hbr).
      assert (Hoff : forall n rev cs,
                 In (n, rev) l ->
                 get_changeset w repo (RevText rev) = Ok cs ->
                 cs_branch cs = cs_branch cs0 ->
                 rfold (branch_step w repo marks_cache) l
                   (Dict.remove String.eqb (cs_branch cs0) stale, changed',
                    unchanged') = Err KeyError).
      { intros n rev cs Hin Hcs Hb.
        apply (branch_loop_unknown w repo marks_cache l); [|exact Hall'].
        exists n, rev, cs. split; [exact Hin|]. split; [exact Hcs|].
        rewrite (dict_keys_remove String.eqb string_eqb_spec). tauto. }
      destruct H1 as [E1|H1]; destruct H2 as [E2|H2].
      - injection E1 as <- <-. injection E2 as <- <-. congruence.
      - injection E1 as <- <-.
        apply (Hoff n2 rev2 cs2 H2 Hc2). congruence.
      - injection E2 as <- <-.
        apply (Hoff n1 rev1 cs1 H1 Hc1). congruence.
      - apply (IH Hnd' Hall').
        exists n1, rev1, n2, rev2, cs1, cs2. tauto. }
    destruct (negb _ && _); cbn [rbind]; apply Hrest.
Qed.

(** X8 ([get_branches], lines 47-49).  Two heads on one branch: when the
    changeset of every head can be read and two different heads carry the
    same branch name, the second deletion from [stale] raises [KeyError] (or
    an earlier one does) and nothing is returned. *)
Theorem get_branches_two_heads_one_branch
    (n1 n2 : Node) (rev1 rev2 : bytes) (cs1 cs2 : changeset)
    (Hall : forall n rev, In (n, rev) (heads repo None None (Some max)) ->
              exists cs, get_changeset w repo (RevText rev) = Ok cs)
    (H1 : In (n1, rev1) (heads repo None None (Some max)))
    (H2 : In (n2, rev2) (heads repo None None (Some max)))
    (Hne : rev1 <> rev2)
    (Hcs1 : get_changeset w repo (RevText rev1) = Ok cs1)
    (Hcs2 : get_changeset w repo (RevText rev2) = Ok cs2)
    (Hsame : cs_branch cs1 = cs_branch cs2) :
  get_branches w repo heads_cache marks_cache mapping_cache max
  = Err KeyError.
Proof.
  assert (Hk : rfold (branch_step w repo marks_cache)
                 (heads repo None None (Some max))
                 (Dict.fromkeys String.eqb (Dict.keys heads_cache) VNone,
                  [], []) = Err KeyError).
  { apply branch_loop_twice.
    - apply heads_nodup.
    - intros n rev Hin. split; [apply (Hall n rev Hin)|].
      destruct (heads_entry _ _ _ _ _ _ Hin) as (r & _ & _ & Hr & _).
      exists r. exact Hr.
    - exists n1, rev1, n2, rev2, cs1, cs2. tauto. }
  unfold get_branches. cbv zeta.
  destruct (rfold (branch_step w repo marks_cache)
              (heads repo None None (Some max))
              (Dict.fromkeys String.eqb (Dict.keys heads_cache) VNone,
               [], [])) as [st|e]; cbn [rbind]; [discriminate | exact Hk].
Qed.

Lemma occurrences_in (k : bytes) (l : list row) (e : row) :
  In e l -> row_key e = VBytes k -> (1 <= occurrences k l)%nat.
Proof.
  intros Hin Hk. unfold occurrences.
  apply (count_occ_In pyval_eq_dec). rewrite <- Hk. apply in_map. exact Hin.
Qed.

(** X9 ([get_branches], lines 50-55).  A head whose branch has no git
    reference, or whose mark has no entry in [marks_cache], is listed in
    [changed] and not in [unchanged]. *)
Theorem get_branches_missing_is_changed (stale : bdict pyval)
    (changed unchanged : list row) (n : Node) (rev : bytes)
    (cs : changeset) (z : Z)
    (Hrun : get_branches w repo heads_cache marks_cache mapping_cache max
            = Ok (stale, changed, unchanged))
    (Hin : In (n, rev) (heads repo None None (Some max)))
    (Hcs : get_changeset w repo (RevText rev) = Ok cs)
    (Hz : py_int rev = Ok z)
    (Hmissing : get_git_sha1 w (cs_branch cs) = None
                \/ Dict.get String.eqb (fmt_d (z + 1)) marks_cache = None) :
  In (branch_entry marks_cache cs rev z) changed
  /\ ~ In (branch_entry marks_cache cs rev z) unchanged.
Proof.
  destruct (get_branches_head_class _ _ _ _ _ _ _ _ _ _ _ Hrun Hin)
    as (cs' & z' & Hcs' & Hz' & Hclass).
  assert (cs' = cs) by congruence. assert (z' = z) by congruence. subst.
  assert (Htest : negb (py_is (get_git_sha1 w (cs_branch cs)) None)
                  && py_is (get_git_sha1 w (cs_branch cs))
                       (Dict.get String.eqb (fmt_d (z + 1)) marks_cache)
                  = false).
  { destruct Hmissing as [-> | ->]; [reflexivity|].
    destruct (get_git_sha1 w (cs_branch cs)); reflexivity. }
  rewrite Htest in Hclass. split; [exact Hclass|].
  intro Hun.
  destruct (get_branches_loop _ _ _ _ _ _ _ _ _ Hrun)
    as (c0 & u0 & Hloop & Pc & Pu).
  pose proof (dict_nodup_fromkeys String.eqb string_eqb_spec
                (Dict.keys heads_cache) (VNone : pyval)) as Hnd.
  destruct (branch_loop _ _ _ _ _ _ _ _ _ _ Hloop Hnd) as [_ Hcount].
  specialize (Hcount (cs_branch cs)).
  cbn [occurrences map count_occ] in Hcount.
  assert (key_count (cs_branch cs)
            (Dict.fromkeys String.eqb (Dict.keys heads_cache) (VNone : pyval))
          <= 1)%nat by (apply NoDup_count_occ, Hnd).
  pose proof (occurrences_in (cs_branch cs) changed _ Hclass eq_refl) as Hc1.
  pose proof (occurrences_in (cs_branch cs) unchanged _ Hun eq_refl) as Hu1.
  rewrite <- (occurrences_perm _ _ _ Pc) in Hc1.
  rewrite <- (occurrences_perm _ _ _ Pu) in Hu1.
  fold (occurrences (cs_branch cs) c0) in Hcount.
  fold (occurrences (cs_branch cs) u0) in Hcount.
  lia.
Qed.
End BranchFacts2.

Lemma get_branches_rows_witness :
  exists rows,
    Forall2 (head_row Sample.world Sample.repo Sample.marks_cache)
      (heads Sample.repo None None (Some 6)) rows
    /\ Permutation rows (Cases.changed6 ++ Cases.unchanged6)
    /\ (List.length Cases.changed6 + List.length Cases.unchanged6)%nat
       = List.length (heads Sample.repo None None (Some 6)).
Proof.
  apply (get_branches_rows Sample.world Sample.repo Sample.heads_cache
           Sample.marks_cache Sample.mapping_cache 6 [("old", VNone)]).
  reflexivity.
Defined.

Lemma get_branches_stale_witness :
  NoDup (Dict.keys [("old", VNone)])
  /\ forall b,
       In b (Dict.keys [("old", VNone)]) <->
       In b (Dict.keys Sample.heads_cache)
       /\ ~ exists n rev cs,
              In (n, rev) (heads Sample.repo None None (Some 6))
              /\ get_changeset Sample.world Sample.repo (RevText rev) = Ok cs
              /\ cs_branch cs = b.
Proof.
  apply (get_branches_stale Sample.world Sample.repo Sample.heads_cache
           Sample.marks_cache Sample.mapping_cache 6 [("old", VNone)]
           Cases.changed6 Cases.unchanged6).
  reflexivity.
Defined.

Lemma get_branches_sorted_witness :
  Sorted name_below
    [[VBytes "default"; VNone; VBytes "3"; VBytes "change 3"; VBytes "alice"];
     [VBytes "feature"; VNone; VBytes "5"; VBytes "change 5"; VBytes "alice"]]
  /\ Sorted name_below [].
Proof.
  apply (get_branches_sorted Sample.world Sample.repo Sample.heads_cache []
           Sample.mapping_cache 6 [("old", VNone)]).
  reflexivity.
Defined.

Lemma get_branches_two_heads_one_branch_witness :
  get_branches Cases.one_branch Sample.repo Sample.heads_cache
    Sample.marks_cache Sample.mapping_cache 6 = Err KeyError.
Proof.
  apply (get_branches_two_heads_one_branch Cases.one_branch Sample.repo
           Sample.heads_cache Sample.marks_cache Sample.mapping_cache 6
           "n3" "n5" "3" "5"
           (mkChangeset "alice" (cat ["change "; fmt_d 3]) "default")
           (mkChangeset "alice" (cat ["change "; fmt_d 5]) "default")).
  - intros n rev Hin. vm_compute in Hin.
    destruct Hin as [Heq|[Heq|[]]]; injection Heq as <- <-;
      eexists; reflexivity.
  - vm_compute. left. reflexivity.
  - vm_compute. right. left. reflexivity.
  - discriminate.
  - reflexivity.
  - reflexivity.
  - reflexivity.
Defined.

Lemma get_branches_missing_is_changed_witness :
  In (branch_entry [] (Sample.changeset_of 5) "5" 5)
    [branch_entry [] (Sample.changeset_of 3) "3" 3;
     branch_entry [] (Sample.changeset_of 5) "5" 5]
  /\ ~ In (branch_entry [] (Sample.changeset_of 5) "5" 5) [].
Proof.
  apply (get_branches_missing_is_changed Sample.world Sample.repo
           Sample.heads_cache [] Sample.mapping_cache 6 [("old", VNone)]
           _ _ "n5" "5" (Sample.changeset_of 5) 5).
  - reflexivity.
  - vm_compute. right. left. reflexivity.
  - reflexivity.
  - reflexivity.
  - right. reflexivity.
Defined.

(** ** The tag classifier *)

Section TagFacts.
Variables (w : World) (repo : Repo).
Variables (marks_cache mapping_cache : bdict obj) (max : Z).

Lemma get_tags_inv (good bad : list row) :
  get_tags w repo marks_cache mapping_cache max = Ok (good, bad) ->
  exists good0 bad0,
    rfold (tag_step w repo marks_cache mapping_cache max) (tagslist repo)
      ([], []) = Ok (good0, bad0)
    /\ py_sort good0 = Ok good /\ py_sort bad0 = Ok bad.
Proof.
  unfold get_tags. intro H.
  destruct (rfold (tag_step w repo marks_cache mapping_cache max)
              (tagslist repo) ([], [])) as [[good0 bad0]|];
    cbn [rbind] in H; [|discriminate].
  destruct (py_sort good0) as [g|] eqn:Eg; cbn [rbind] in H; [|discriminate].
  destruct (py_sort bad0) as [b|] eqn:Eb; cbn [rbind] in H; [|discriminate].
  injection H as <- <-.
  exists good0, bad0. repeat split; assumption.
Qed.

Lemma tag_loop_rows (l : list (bytes * Node)) :
  forall good0 bad0 good bad,
    rfold (tag_step w repo marks_cache mapping_cache max) l (good0, bad0)
    = Ok (good, bad) ->
    exists rows,
      Forall2 (tag_row w repo marks_cache mapping_cache)
        (filter (fun t => negb (String.eqb (fst t) "tip")) l) rows
      /\ Permutation (good0 ++ bad0 ++ rows) (good ++ bad).
Proof.
  induction l as [|[tag node] l IH]; intros good0 bad0 good bad H;
    cbn [rfold] in H.
  - injection H as <- <-. exists []. split; [constructor|].
    rewrite app_nil_r. apply Permutation_refl.
  - destruct (tag_step w repo marks_cache mapping_cache max (good0, bad0)
                (tag, node)) as [[good1 bad1]|] eqn:Estep;
      cbn [rbind] in H; [|discriminate].
    destruct (IH _ _ _ _ H) as (rows & Hrows & Hperm).
    apply tag_step_ok in Estep.
    destruct Estep
      as [[-> Hst] | [Hne (m & rev & cs & Hm & Hrev & Hcs & Hcase)]].
    + injection Hst as -> ->. exists rows. cbn [filter fst String.eqb negb].
      split; [exact Hrows | exact Hperm].
    + exists (tag_entry marks_cache tag cs rev :: rows).
      cbn [filter fst]. apply String.eqb_neq in Hne. rewrite Hne.
      cbn [negb]. split.
      { constructor; [|exact Hrows]. exists m, rev, cs. cbn [fst snd]. tauto. }
      destruct Hcase as [[_ Hst] | [_ Hst]]; injection Hst as -> ->.
      * eapply perm_trans; [|exact Hperm].
        apply Permutation_app_head.
        rewrite <- app_assoc. apply Permutation_app_head.
        apply Permutation_sym. apply (Permutation_middle [] rows).
      * eapply perm_trans; [|exact Hperm].
        rewrite <- app_assoc. cbn [app].
        apply Permutation_app_head.
        apply Permutation_sym, Permutation_middle.
Qed.

Lemma get_tags_rows_perm (good bad : list row) :
  get_tags w repo marks_cache mapping_cache max = Ok (good, bad) ->
  exists rows,
    Forall2 (tag_row w repo marks_cache mapping_cache) (named_tags repo) rows
    /\ Permutation rows (good ++ bad).
Proof.
  intro Hrun.
  destruct (get_tags_loop _ _ _ _ _ _ _ Hrun) as (g0 & b0 & Hloop & Pg & Pb).
  destruct (tag_loop_rows _ _ _ _ _ Hloop) as (rows & Hrows & Hperm).
  cbn [app] in Hperm.
  exists rows. split; [exact Hrows|].
  eapply perm_trans; [exact Hperm|]. apply Permutation_app; assumption.
Qed.

(** X10 ([get_tags], lines 62-76).  A run that returns has built one row per
    tag other than [tip], from the revision recorded for the tag's node and
    that revision's changeset, and [good] and [bad] together hold exactly
    these rows. *)
Theorem get_tags_rows (good bad : list row)
    (Hrun : get_tags w repo marks_cache mapping_cache max = Ok (good, bad)) :
  exists rows,
    Forall2 (tag_row w repo marks_cache mapping_cache) (named_tags repo) rows
    /\ Permutation rows (good ++ bad)
    /\ (List.length good + List.length bad
        = List.length (named_tags repo))%nat.
Proof.
  destruct (get_tags_rows_perm _ _ Hrun) as (rows & Hrows & Hp).
  exists rows. split; [exact Hrows|]. split; [exact Hp|].
  rewrite <- List.length_app, <- (Permutation_length Hp).
  symmetry. apply (Forall2_length Hrows).
Qed.

(** X11 ([get_tags], lines 74-76).  When the repository lists no tag name
    twice, both lists come back in strictly increasing order of tag name. *)
Theorem get_tags_sorted (good bad : list row)
    (Hrun : get_tags w repo marks_cache mapping_cache max = Ok (good, bad))
    (Hnames : NoDup (map fst (tagslist repo))) :
  Sorted name_below good /\ Sorted name_below bad.
Proof.
  destruct (get_tags_inv _ _ Hrun) as (good0 & bad0 & Hloop & Hg & Hb).
  destruct (tag_loop _ _ _ _ _ _ _ _ _ _ Hloop)
    as (_ & Hgood & Hbad & _ & _ & Hcount).
  assert (Hone : forall k,
             (occurrences k good0 + occurrences k bad0 <= 1)%nat).
  { intro k. rewrite Hcount. cbn [occurrences map count_occ plus].
    apply NoDup_count_occ. apply NoDup_filter. exact Hnames. }
  assert (Hng : forall r, In r good0 -> exists k, row_key r = VBytes k).
  { intros r Hr. destruct (Hgood r Hr) as [[]|(tag & cs & rev & -> & _)].
    exists tag. reflexivity. }
  assert (Hnb : forall r, In r bad0 -> exists k, row_key r = VBytes k).
  { intros r Hr. destruct (Hbad r Hr) as [[]|(tag & cs & rev & -> & _)].
    exists tag. reflexivity. }
  split.
  - apply (py_sort_sorted good0 Hng); [|exact Hg].
    apply rows_nodup; [exact Hng|]. intro k. specialize (Hone k). lia.
  - apply (py_sort_sorted bad0 Hnb); [|exact Hb].
    apply rows_nodup; [exact Hnb|]. intro k. specialize (Hone k). lia.
Qed.

(** A tag whose node has no entry in [mapping_cache]. *)
Lemma tag_loop_unmapped (l : list (bytes * Node)) :
  (exists tag node,
      In (tag, node) l /\ tag <> "tip"
      /\ Dict.get String.eqb (hexlify node) mapping_cache = None) ->
  forall st,
    (forall st', rfold (tag_step w repo marks_cache mapping_cache max) l st
                 <> Ok st')
    /\ ((forall tag node m, In (tag, node) l -> tag <> "tip" ->
           Dict.get String.eqb (hexlify node) mapping_cache = Some m ->
           exists rev cs,
             py_int (data m) = Ok rev
             /\ get_changeset w repo (RevNum rev) = Ok cs) ->
        rfold (tag_step w repo marks_cache mapping_cache max) l st
        = Err KeyError).
Proof.
  induction l as [|[tag0 node0] l IH]; intros (tag & node & Hin & Hne & Hnone)
    st; [destruct Hin|].
  cbn [rfold].
  split.
  - intros st' Hrun.
    destruct (tag_step w repo marks_cache mapping_cache max st (tag0, node0))
      as [st1|] eqn:Estep; cbn [rbind] in Hrun; [|discriminate].
    destruct Hin as [Heq|Hin].
    + injection Heq as -> ->. destruct st as [good bad].
      apply tag_step_ok in Estep.
      destruct Estep as [[Ht _]|[_ (m & rev & cs & Hm & _)]]; congruence.
    + destruct (IH (ex_intro _ tag (ex_intro _ node
                      (conj Hin (conj Hne Hnone)))) st1) as [Hno _].
      apply (Hno st' Hrun).
  - intro Hok.
    assert (Hok' : forall tag node m, In (tag, node) l -> tag <> "tip" ->
               Dict.get String.eqb (hexlify node) mapping_cache = Some m ->
               exists rev cs,
                 py_int (data m) = Ok rev
                 /\ get_changeset w repo (RevNum rev) = Ok cs).
    { intros t n m Ht. apply Hok. right. exact Ht. }
    destruct st as [good bad]. unfold tag_step at 1.
    destruct (String.eqb tag0 "tip") eqn:Etip.
    + cbn [rbind]. destruct Hin as [Heq|Hin].
      * injection Heq as -> ->. apply String.eqb_eq in Etip. contradiction.
      * apply IH; [|exact Hok'].
        exists tag, node. tauto.
    + apply String.eqb_neq in Etip. unfold Dict.lookup.
      destruct (Dict.get String.eqb (hexlify node0) mapping_cache) as [m|]
        eqn:Hm; cbn [rbind]; [|reflexivity].
      destruct (Hok tag0 node0 m (or_introl eq_refl) Etip Hm)
        as (rev & cs & Hrev & Hcs).
      rewrite Hrev. cbn [rbind]. rewrite Hcs. cbn [rbind].
      assert (Hin' : In (tag, node) l).
      { destruct Hin as [Heq|Hin]; [|exact Hin].
        injection Heq as -> ->. congruence. }
      destruct (rev >? max); cbn [rbind];
        (apply IH; [exists tag, node; tauto | exact Hok']).
Qed.

(** X12 ([get_tags], line 67).  A tag other than [tip] whose node has no
    entry in [mapping_cache] keeps [get_tags] from returning; when the
    recorded revision of every mapped tag is a number whose changeset can be
    read, the exception is [KeyError]. *)
Theorem get_tags_unmapped (tag : bytes) (node : Node)
    (Hin : In (tag, node) (tagslist repo))
    (Htip : tag <> "tip")
    (Hnone : Dict.get String.eqb (hexlify node) mapping_cache = None) :
  (forall res, get_tags w repo marks_cache mapping_cache max <> Ok res)
  /\ ((forall tag' node' m, In (tag', node') (tagslist repo) ->
         tag' <> "tip" ->
         Dict.get String.eqb (hexlify node') mapping_cache = Some m ->
         exists rev cs,
           py_int (data m) = Ok rev
           /\ get_changeset w repo (RevNum rev) = Ok cs) ->
      get_tags w repo marks_cache mapping_cache max = Err KeyError).
Proof.
  destruct (tag_loop_unmapped (tagslist repo)
              (ex_intro _ tag (ex_intro _ node (conj Hin (conj Htip Hnone))))
              ([], [])) as [Hno Hkey].
  unfold get_tags. split.
  - intros res Hrun.
    destruct (rfold (tag_step w repo marks_cache mapping_cache max)
                (tagslist repo) ([], [])) as [st|] eqn:E;
      cbn [rbind] in Hrun; [|discriminate].
    apply (Hno st). reflexivity.
  - intro Hok. rewrite (Hkey Hok). reflexivity.
Qed.
End TagFacts.

Lemma get_tags_rows_witness :
  exists rows,
    Forall2 (tag_row Sample.world Sample.repo Sample.marks_cache
               Sample.mapping_cache) (named_tags Sample.repo) rows
    /\ Permutation rows (Cases.good4 ++ Cases.bad4)
    /\ (List.length Cases.good4 + List.length Cases.bad4
        = List.length (named_tags Sample.repo))%nat.
Proof.
  apply (get_tags_rows Sample.world Sample.repo Sample.marks_cache
           Sample.mapping_cache 4).
  reflexivity.
Defined.

Lemma get_tags_sorted_witness :
  Sorted name_below
    [tag_entry Sample.marks_cache "v1" (Sample.changeset_of 2) 2;
     tag_entry Sample.marks_cache "v2" (Sample.changeset_of 5) 5]
  /\ Sorted name_below [].
Proof.
  apply (get_tags_sorted Sample.world Sample.repo Sample.marks_cache
           Sample.mapping_cache 6).
  - reflexivity.
  - simpl. repeat constructor; simpl; intuition discriminate.
Defined.

Lemma get_tags_unmapped_witness :
  (forall res,
      get_tags Sample.world Sample.tagged Sample.marks_cache [] 6 <> Ok res)
  /\ ((forall tag' node' m,
         In (tag', node') (tagslist Sample.tagged) -> tag' <> "tip" ->
         Dict.get String.eqb (hexlify node') [] = Some m ->
         exists rev cs,
           py_int (data m) = Ok rev
           /\ get_changeset Sample.world Sample.tagged (RevNum rev) = Ok cs) ->
      get_tags Sample.world Sample.tagged Sample.marks_cache [] 6
      = Err KeyError).
Proof.
  apply (get_tags_unmapped Sample.world Sample.tagged Sample.marks_cache []
           6 "release" (Sample.node_of 10)).
  - simpl. left. reflexivity.
  - discriminate.
  - reflexivity.
Defined.

(** ** The mark correction *)


(** X14 ([mangle_mark], lines 79-80).  Two mark texts stored under the same
    key denote the same number: the correction merges only spellings of one
    mark. *)
Theorem mangle_mark_same_key (s t k : bytes)
    (Hs : mangle_mark s = Ok k)
    (Ht : mangle_mark t = Ok k) :
  py_int s = py_int t.
Proof.
  unfold mangle_mark in Hs, Ht.
  destruct (py_int s) as [a|]; cbn [rbind] in Hs; [|discriminate].
  destruct (py_int t) as [b|]; cbn [rbind] in Ht; [|discriminate].
  injection Hs as Hs. injection Ht as Ht. rewrite <- Ht in Hs.
  apply fmt_d_inj in Hs. f_equal. lia.
Qed.

Lemma mangle_mark_same_key_witness : py_int " 5" = py_int "+5".
Proof.
  apply (mangle_mark_same_key " 5" "+5" "4"); reflexivity.
Defined.

(** ** The driver and its report *)








Lemma io_bind_ret {A B : Type} (a : A) (k : A -> IO B) :
  io_bind (io_ret a) k = k a.
Proof. reflexivity. Qed.

Lemma io_bind_lift_ok {A B : Type} (a : A) (k : A -> IO B) :
  io_bind (io_lift (Ok a)) k = k a.
Proof. reflexivity. Qed.

Lemma io_bind_lift_err {A B : Type} (e : exn) (k : A -> IO B) :
  io_bind (io_lift (Err e)) k = io_lift (Err e).
Proof. reflexivity. Qed.

(** The driver once the six options are there. *)
Lemma main_given (w : World) (mf pf hf sf url : string) (rv : Z) :
  main w (mkOptions (Some mf) (Some pf) (Some hf) (Some sf) (Some url)
            (Some rv))
  = (heads_cache <- io_lift (load_cache w hf Ok) ;;
     marks_cache <- io_lift (load_cache w mf mangle_mark) ;;
     state_cache <- io_lift (load_cache w sf Ok) ;;
     mapping_cache <- io_lift (load_cache w pf Ok) ;;
     list <- io_lift (recorded_tip state_cache rv) ;;
     (if rv + 1 >? list then
        stderr_write
          (cat ["Revision is beyond last revision imported: "; fmt_d rv;
                ">"; fmt_d list; nl]) ;;
        sys_exit 1
      else io_ret tt) ;;
     repo <- io_lift (setup_repo w url) ;;
     '(stale, changed, unchanged) <-
       io_lift (get_branches w repo heads_cache marks_cache mapping_cache
                  (rv + 1)) ;;
     '(good, bad) <-
       io_lift (get_tags w repo marks_cache mapping_cache (rv + 1)) ;;
     report w hf sf rv stale changed unchanged good bad)%io.
Proof. reflexivity. Qed.



(** X16 (driver, lines 124-129).  A status file whose [tip] value is not
    the text of an integer: the run ends with [ValueError] at line 129 and
    has written nothing to either stream. *)
Theorem main_tip_not_integer (w : World) (mf pf hf sf url : string)
    (rv : Z) (marks_cache state_cache : bdict obj) (v : obj) (e : exn)
    (Hmarks : load_cache w mf mangle_mark = Ok marks_cache)
    (Hstate : load_cache w sf Ok = Ok state_cache)
    (Htip : Dict.get String.eqb "tip" state_cache = Some v)
    (Hint : py_int (data v) = Err e) :
  e = ValueError
  /\ run w (mkOptions (Some mf) (Some pf) (Some hf) (Some sf) (Some url)
              (Some rv))
     = (mkConsole [] [], Err ValueError).
Proof.
  assert (He : e = ValueError).
  { unfold py_int in Hint.
    destruct (lstrip (data v)) as [|c s];
      [|destruct (Ascii.eqb c "-"); [|destruct (Ascii.eqb c "+")]];
      match type of Hint with
      | context [int_unsigned ?b] => destruct (int_unsigned b)
      end; congruence. }
  split; [exact He|]. subst e.
  destruct (load_cache_plain w hf) as [heads_cache Hheads].
  destruct (load_cache_plain w pf) as [mapping_cache Hmapping].
  unfold run. rewrite main_given.
  rewrite Hheads, Hmarks, Hstate, Hmapping. rewrite !io_bind_lift_ok.
  unfold recorded_tip. rewrite Htip, Hint. reflexivity.
Qed.

Lemma io_bind_ok {A B : Type} (m : IO A) (k : A -> IO B) (c c2 : console)
    (b : B) :
  io_bind m k c = (c2, Ok b) ->
  exists a c1, m c = (c1, Ok a) /\ k a c1 = (c2, Ok b).
Proof.
  unfold io_bind. destruct (m c) as [c1 [a|e]]; intro H; [|discriminate].
  exists a, c1. split; [reflexivity | exact H].
Qed.

Lemma io_lift_ok {A : Type} (r : result A) (c c1 : console) (a : A) :
  io_lift r c = (c1, Ok a) -> r = Ok a /\ c1 = c.
Proof. unfold io_lift. intro H. injection H as <- ->. tauto. Qed.

Lemma io_for_ok {A : Type} (l : list A) (body : A -> IO unit)
    (c c' : console) :
  io_for l body c = (c', Ok tt) ->
  forall a, In a l -> exists c1 c2, body a c1 = (c2, Ok tt).
Proof.
  revert c. induction l as [|x l IH]; intros c H a Hin; [destruct Hin|].
  cbn [io_for] in H. apply io_bind_ok in H.
  destruct H as ([] & c1 & Hx & Hrest).
  destruct Hin as [<-|Hin]; [exists c, c1; exact Hx|].
  apply (IH c1 Hrest a Hin).
Qed.

Lemma item_decode_ok (w : World) (r : row) (i : nat) (c c' : console)
    (s : string) :
  item_decode w r i c = (c', Ok s) ->
  exists b, nth_error r i = Some (VBytes b) /\ utf8_decode w b = Ok s.
Proof.
  unfold item_decode, io_lift.
  destruct (nth_error r i) as [[|b|n]|]; intro H; try discriminate.
  injection H as _ H. exists b. tauto.
Qed.

Lemma tag_line_ok (w : World) (r : row) (c c' : console) :
  tag_line w r c = (c', Ok tt) ->
  exists b, nth_error r 3 = Some (VBytes b).
Proof.
  unfold tag_line. intro H.
  apply io_bind_ok in H. destruct H as (s0 & c0 & _ & H).
  apply io_bind_ok in H. destruct H as (s1 & c1 & _ & H).
  apply io_bind_ok in H. destruct H as (s3 & c3 & H3 & _).
  apply item_decode_ok in H3. destruct H3 as (b & Hb & _).
  exists b. exact Hb.
Qed.

Lemma reset_line_ok (w : World) (r : row) (c c' : console) :
  reset_line w r c = (c', Ok tt) ->
  exists b, nth_error r 1 = Some (VBytes b).
Proof.
  unfold reset_line. intro H.
  apply io_bind_ok in H. destruct H as (s0 & c0 & _ & H).
  apply io_bind_ok in H. destruct H as (s1 & c1 & H1 & _).
  apply item_decode_ok in H1. destruct H1 as (b & Hb & _).
  exists b. exact Hb.
Qed.

(** A report that is written to its end. *)
Lemma report_ok (w : World) (headsfile statusfile : string) (revision : Z)
    (stale : bdict pyval) (changed unchanged good bad : list row)
    (c c' : console) :
  report w headsfile statusfile revision stale changed unchanged good bad c
  = (c', Ok tt) ->
  (forall r, In r good \/ In r bad ->
             exists b, nth_error r 3 = Some (VBytes b))
  /\ (forall r, In r changed -> exists b, nth_error r 1 = Some (VBytes b)).
Proof.
  unfold report. intro H.
  apply io_bind_ok in H. destruct H as ([] & c1 & _ & H).
  apply io_bind_ok in H. destruct H as ([] & c2 & _ & H).
  apply io_bind_ok in H. destruct H as ([] & c3 & _ & H).
  apply io_bind_ok in H. destruct H as ([] & c4 & Hbad & H).
  apply io_bind_ok in H. destruct H as ([] & c5 & _ & H).
  apply io_bind_ok in H. destruct H as ([] & c6 & _ & H).
  apply io_bind_ok in H. destruct H as ([] & c7 & _ & H).
  apply io_bind_ok in H. destruct H as ([] & c8 & Hgood & H).
  apply io_bind_ok in H. destruct H as ([] & c9 & _ & H).
  apply io_bind_ok in H. destruct H as ([] & c10 & Hchanged & _).
  split.
  - intros r [Hr|Hr].
    + destruct (io_for_ok _ _ _ _ Hgood r Hr) as (ca & cb & Hl).
      apply (tag_line_ok _ _ _ _ Hl).
    + destruct (io_for_ok _ _ _ _ Hbad r Hr) as (ca & cb & Hl).
      apply (tag_line_ok _ _ _ _ Hl).
  - intros r Hr.
    destruct (io_for_ok _ _ _ _ Hchanged r Hr) as (ca & cb & Hl).
    apply (reset_line_ok _ _ _ _ Hl).
Qed.

(** A run that ends normally went through every stage. *)
Lemma run_ok (w : World) (o : Options) (cf : console) :
  run w o = (cf, Ok tt) ->
  exists mf pf hf sf url rv heads_cache marks_cache state_cache mapping_cache
         tip repo stale changed unchanged good bad,
    o = mkOptions (Some mf) (Some pf) (Some hf) (Some sf) (Some url) (Some rv)
    /\ load_cache w hf Ok = Ok heads_cache
    /\ load_cache w mf mangle_mark = Ok marks_cache
    /\ load_cache w sf Ok = Ok state_cache
    /\ load_cache w pf Ok = Ok mapping_cache
    /\ recorded_tip state_cache rv = Ok tip
    /\ rv + 1 <= tip
    /\ setup_repo w url = Ok repo
    /\ get_branches w repo heads_cache marks_cache mapping_cache (rv + 1)
       = Ok (stale, changed, unchanged)
    /\ get_tags w repo marks_cache mapping_cache (rv + 1) = Ok (good, bad)
    /\ report w hf sf rv stale changed unchanged good bad (mkConsole [] [])
       = (cf, Ok tt).
Proof.
  destruct o as [[mf|] [pf|] [hf|] [sf|] [url|] [rv|]];
    try (intro H; discriminate H).
  unfold run. rewrite main_given. intro H.
  apply io_bind_ok in H. destruct H as (heads_cache & c1 & H1 & H).
  apply io_lift_ok in H1. destruct H1 as [H1 ->].
  apply io_bind_ok in H. destruct H as (marks_cache & c2 & H2 & H).
  apply io_lift_ok in H2. destruct H2 as [H2 ->].
  apply io_bind_ok in H. destruct H as (state_cache & c3 & H3 & H).
  apply io_lift_ok in H3. destruct H3 as [H3 ->].
  apply io_bind_ok in H. destruct H as (mapping_cache & c4 & H4 & H).
  apply io_lift_ok in H4. destruct H4 as [H4 ->].
  apply io_bind_ok in H. destruct H as (tip & c5 & H5 & H).
  apply io_lift_ok in H5. destruct H5 as [H5 ->].
  apply io_bind_ok in H. destruct H as ([] & c6 & H6 & H).
  destruct (Z.gtb_spec (rv + 1) tip) as [Hgt|Hle]; [discriminate H6|].
  injection H6 as <-.
  apply io_bind_ok in H. destruct H as (repo & c7 & H7 & H).
  apply io_lift_ok in H7. destruct H7 as [H7 ->].
  apply io_bind_ok in H.
  destruct H as ([[stale changed] unchanged] & c8 & H8 & H).
  apply io_lift_ok in H8. destruct H8 as [H8 ->].
  apply io_bind_ok in H. destruct H as ([good bad] & c9 & H9 & H).
  apply io_lift_ok in H9. destruct H9 as [H9 ->].
  exists mf, pf, hf, sf, url, rv, heads_cache, marks_cache, state_cache,
    mapping_cache, tip, repo, stale, changed, unchanged, good, bad.
  repeat split; assumption.
Qed.

(** X17 (driver, lines 142-155 and 163-168; [get_tags], lines 67-73).  The
    rows of [get_tags] carry the revision as an [int], and the report calls
    [decode] on it: in a repository with any tag other than [tip], no run
    completes its report. *)
Theorem main_tags_never_complete (w : World) (o : Options) (url : string)
    (repo : Repo)
    (Hurl : repourl o = Some url)
    (Hrepo : setup_repo w url = Ok repo)
    (Htags : named_tags repo <> []) :
  snd (run w o) <> Ok tt.
Proof.
  destruct (run w o) as [cf r] eqn:Hrun. cbn [snd]. intros ->.
  apply run_ok in Hrun.
  destruct Hrun as (mf & pf & hf & sf & url' & rv & heads_cache & marks_cache
                    & state_cache & mapping_cache & tip & repo' & stale
                    & changed & unchanged & good & bad & -> & _ & _ & _ & _
                    & _ & _ & Hrepo' & _ & Hget & Hrep).
  cbn [repourl] in Hurl. injection Hurl as ->.
  rewrite Hrepo in Hrepo'. injection Hrepo' as <-.
  destruct (get_tags_rows_perm _ _ _ _ _ _ _ Hget) as (rows & Hrows & Hperm).
  destruct (report_ok _ _ _ _ _ _ _ _ _ _ _ Hrep) as [Hint _].
  destruct (named_tags repo) as [|t ts]; [contradiction|].
  inversion Hrows as [|? r ? rows' (m & rv' & cs & _ & _ & _ & Hr) ?];
    subst.
  destruct (Hint (tag_entry marks_cache (fst t) cs rv')) as [b Hb].
  { apply in_app_or. apply (Permutation_in _ Hperm). left. reflexivity. }
  discriminate Hb.
Qed.

(** X18 (driver, lines 139-141 and 170-181; [get_branches], lines 51-55).
    A head whose mark has no entry in the marks file is listed in [changed]
    with [None] as its identifier, and the report calls [decode] on it: no
    run completes its report. *)
Theorem main_unmarked_head_never_complete (w : World)
    (mf pf hf sf url : string) (rv : Z) (marks_cache : bdict obj)
    (repo : Repo) (n : Node) (rev : bytes) (z : Z)
    (Hmarks : load_cache w mf mangle_mark = Ok marks_cache)
    (Hrepo : setup_repo w url = Ok repo)
    (Hhead : In (n, rev) (heads repo None None (Some (rv + 1))))
    (Hz : py_int rev = Ok z)
    (Hnone : Dict.get String.eqb (fmt_d (z + 1)) marks_cache = None) :
  snd (run w (mkOptions (Some mf) (Some pf) (Some hf) (Some sf) (Some url)
                (Some rv)))
  <> Ok tt.
Proof.
  destruct (run w _) as [cf r] eqn:Hrun. cbn [snd]. intros ->.
  apply run_ok in Hrun.
  destruct Hrun as (mf' & pf' & hf' & sf' & url' & rv' & heads_cache
                    & marks_cache' & state_cache & mapping_cache & tip & repo'
                    & stale & changed & unchanged & good & bad & Ho & _
                    & Hm & _ & _ & _ & _ & Hrepo' & Hget & _ & Hrep).
  injection Ho as <- <- <- <- <- <-.
  rewrite Hmarks in Hm. injection Hm as <-.
  rewrite Hrepo in Hrepo'. injection Hrepo' as <-.
  destruct (get_branches_head_class _ _ _ _ _ _ _ _ _ _ _ Hget Hhead)
    as (cs & z' & Hcs & Hz' & Hclass).
  rewrite Hz in Hz'. injection Hz' as <-.
  rewrite Hnone in Hclass.
  replace (negb (py_is (get_git_sha1 w (cs_branch cs)) None)
           && py_is (get_git_sha1 w (cs_branch cs)) None)
    with false in Hclass
    by (destruct (get_git_sha1 w (cs_branch cs)); reflexivity).
  destruct (report_ok _ _ _ _ _ _ _ _ _ _ _ Hrep) as [_ Hentry].
  destruct (Hentry _ Hclass) as [b Hb].
  unfold branch_entry in Hb. rewrite Hnone in Hb. discriminate Hb.
Qed.

Lemma io_bind_step {A B : Type} (m : IO A) (k : A -> IO B) (c c1 : console)
    (a : A) :
  m c = (c1, Ok a) -> io_bind m k c = k a c1.
Proof. intro H. unfold io_bind. rewrite H. reflexivity. Qed.

(** A loop whose body writes one chunk to the output stream writes one
    chunk for each element. *)
Lemma io_for_lines {A : Type} (l : list A) (body : A -> IO unit) :
  (forall a, In a l -> forall c, exists s,
       body a c = (mkConsole (stdout c ++ [s]) (stderr c), Ok tt)) ->
  forall c, exists out,
    io_for l body c = (mkConsole (stdout c ++ out) (stderr c), Ok tt)
    /\ List.length out = List.length l.
Proof.
  induction l as [|a l IH]; intros Hb c; cbn [io_for].
  - exists []. rewrite app_nil_r. destruct c. split; reflexivity.
  - destruct (Hb a (or_introl eq_refl) c) as [s Hs].
    rewrite (io_bind_step _ _ _ _ _ Hs).
    destruct (IH (fun x Hx => Hb x (or_intror Hx))
                (mkConsole (stdout c ++ [s]) (stderr c))) as (out & Ho & Hlen).
    exists (s :: out). rewrite Ho. cbn [stdout stderr List.length].
    rewrite <- app_assoc. cbn [app]. split; [reflexivity | lia].
Qed.

Lemma item_decode_bytes (w : World) (r : row) (i : nat) :
  decodes_at w r i -> exists s, item_decode w r i = io_lift (Ok s).
Proof.
  intros (b & s & Hb & Hs).
  exists s. unfold item_decode. rewrite Hb, Hs. reflexivity.
Qed.

(** X19 (driver, lines 146-183).  Without tag rows, and with rows whose
    printed items are [bytes] that decode, the report is written to its end:
    the six headers in their fixed order, one chunk per stale branch, per
    unchanged branch and per changed branch between them, and nothing on the
    error stream. *)
Theorem report_completes (w : World) (headsfile statusfile : string)
    (revision : Z) (stale : bdict pyval) (changed unchanged : list row)
    (c : console)
    (Hst : forall b, In b (Dict.keys stale) ->
                     exists s, utf8_decode w b = Ok s)
    (Hun : forall r, In r unchanged ->
                     decodes_at w r 0 /\ decodes_at w r 2)
    (Hch : forall r, In r changed ->
                     decodes_at w r 0 /\ decodes_at w r 1
                     /\ decodes_at w r 2 /\ decodes_at w r 3
                     /\ decodes_at w r 4) :
  exists o1 o3 o5,
    report w headsfile statusfile revision stale changed unchanged [] [] c
    = (mkConsole
         (stdout c
          ++ cat ["Possibly stale branches:"; nl] :: o1
          ++ cat ["Possibly stale tags:"; nl]
             :: cat ["Unchanged branches:"; nl] :: o3
          ++ cat ["Unchanged tags:"; nl]
             :: cat [cat ["Reset branches in '"; headsfile; "' to:"]; nl] :: o5
          ++ [cat [cat ["Reset ':tip' in '"; statusfile; "' to '";
                        fmt_d revision; "'"]; nl]])
         (stderr c), Ok tt)
    /\ List.length o1 = List.length (Dict.keys stale)
    /\ List.length o3 = List.length unchanged
    /\ List.length o5 = List.length changed.
Proof.
  assert (Hstale : forall c, exists out,
             io_for (Dict.keys stale)
               (fun branch =>
                  (s <- io_lift (utf8_decode w branch) ;;
                   stdout_write (cat [tab; s; nl]))%io) c
             = (mkConsole (stdout c ++ out) (stderr c), Ok tt)
             /\ List.length out = List.length (Dict.keys stale)).
  { apply io_for_lines. intros b Hb c0. destruct (Hst b Hb) as [s Hs].
    rewrite Hs. eexists. reflexivity. }
  assert (Hunch : forall c, exists out,
             io_for unchanged (branch_line w) c
             = (mkConsole (stdout c ++ out) (stderr c), Ok tt)
             /\ List.length out = List.length unchanged).
  { apply io_for_lines. intros r Hr c0. destruct (Hun r Hr) as [H0 H2].
    unfold branch_line.
    destruct (item_decode_bytes w r 0 H0) as [s0 ->].
    destruct (item_decode_bytes w r 2 H2) as [s2 ->].
    eexists. reflexivity. }
  assert (Hchan : forall c, exists out,
             io_for changed (reset_line w) c
             = (mkConsole (stdout c ++ out) (stderr c), Ok tt)
             /\ List.length out = List.length changed).
  { apply io_for_lines. intros r Hr c0.
    destruct (Hch r Hr) as (H0 & H1 & H2 & H3 & H4).
    unfold reset_line.
    destruct (item_decode_bytes w r 0 H0) as [s0 ->].
    destruct (item_decode_bytes w r 1 H1) as [s1 ->].
    destruct (item_decode_bytes w r 2 H2) as [s2 ->].
    destruct (item_decode_bytes w r 4 H4) as [s4 ->].
    destruct (item_decode_bytes w r 3 H3) as [s3 ->].
    eexists. reflexivity. }
  unfold report.
  erewrite io_bind_step by reflexivity.
  destruct (Hstale (mkConsole (stdout c ++ [cat ["Possibly stale branches:"; nl]])
                      (stderr c))) as (o1 & Ho1 & Hl1).
  erewrite io_bind_step by exact Ho1.
  erewrite io_bind_step by reflexivity.
  cbn [io_for]. rewrite io_bind_ret.
  erewrite io_bind_step by reflexivity.
  cbn [stdout stderr].
  match goal with
  | |- context [io_bind (io_for unchanged (branch_line w)) _ ?c0] =>
      destruct (Hunch c0) as (o3 & Ho3 & Hl3)
  end.
  erewrite io_bind_step by exact Ho3.
  erewrite io_bind_step by reflexivity.
  rewrite io_bind_ret.
  erewrite io_bind_step by reflexivity.
  cbn [stdout stderr].
  match goal with
  | |- context [io_bind (io_for changed (reset_line w)) _ ?c0] =>
      destruct (Hchan c0) as (o5 & Ho5 & Hl5)
  end.
  erewrite io_bind_step by exact Ho5.
  exists o1, o3, o5. split; [|tauto].
  unfold print, stdout_write. cbn [stdout stderr].
  repeat (rewrite <- app_assoc; cbn [app]).
  reflexivity.
Qed.

Lemma main_tip_not_integer_witness :
  ValueError = ValueError
  /\ run Cases.bad_tip (Sample.options "status" 3)
     = (mkConsole [] [], Err ValueError).
Proof.
  apply (main_tip_not_integer Cases.bad_tip "marks" "mapping" "heads"
           "status" "repo" 3 Sample.marks_cache
           [("tip", mkobj 6 "fifty")] (mkobj 6 "fifty") ValueError);
    reflexivity.
Defined.

Lemma main_tags_never_complete_witness :
  snd (run Sample.world (Sample.options "status" 5)) <> Ok tt.
Proof.
  apply (main_tags_never_complete Sample.world (Sample.options "status" 5)
           "repo" Sample.repo).
  - reflexivity.
  - reflexivity.
  - discriminate.
Defined.

Lemma main_unmarked_head_never_complete_witness :
  snd (run Cases.no_marks (Sample.options "status" 3)) <> Ok tt.
Proof.
  apply (main_unmarked_head_never_complete Cases.no_marks "marks" "mapping"
           "heads" "status" "repo" 3 [] Sample.repo "n3" "3" 3).
  - reflexivity.
  - reflexivity.
  - vm_compute. left. reflexivity.
  - reflexivity.
  - reflexivity.
Defined.

Lemma report_completes_witness :
  exists o1 o3 o5,
    report Sample.world "heads" "status" 5 [("old", VNone)] Cases.changed6
      Cases.unchanged6 [] [] (mkConsole [] [])
    = (mkConsole
         (stdout (mkConsole [] [])
          ++ cat ["Possibly stale branches:"; nl] :: o1
          ++ cat ["Possibly stale tags:"; nl]
             :: cat ["Unchanged branches:"; nl] :: o3
          ++ cat ["Unchanged tags:"; nl]
             :: cat [cat ["Reset branches in '"; "heads"; "' to:"]; nl] :: o5
          ++ [cat [cat ["Reset ':tip' in '"; "status"; "' to '"; fmt_d 5;
                        "'"]; nl]])
         (stderr (mkConsole [] [])), Ok tt)
    /\ List.length o1 = List.length (Dict.keys [("old", VNone : pyval)])
    /\ List.length o3 = List.length Cases.unchanged6
    /\ List.length o5 = List.length Cases.changed6.
Proof.
  apply (report_completes Sample.world "heads" "status" 5 [("old", VNone)]
           Cases.changed6 Cases.unchanged6 (mkConsole [] [])).
  - intros b _. exists b. reflexivity.
  - intros r [<-|[]]. split; eexists; eexists; split; reflexivity.
  - intros r [<-|[]]. repeat split; eexists; eexists; split; reflexivity.
Defined.
